(** * Energy dashboard: the ingestion controller and its power-spike pipeline

    A shallow embedding of the energy controller of the smart-energy-meter
    backend ([addEnergyReading], [getEnergyReadings], [checkForPowerSpike])
    and the properties of the spike-detection and alerting pipeline.

    JavaScript numbers are IEEE 754 binary64 values: they are modelled by
    Rocq's primitive floats, whose operations round to nearest-even exactly
    as the JavaScript operators do.  The MongoDB collections are lists held
    in an explicit world state; an [async] function is a computation of a
    small reader/state/exception monad, where a rejected promise is a thrown
    exception. *)

From Stdlib Require Import ZArith NArith List String Ascii Bool Lia Floats.
From Stdlib Require Import DecimalPos DecimalN Sorted.
Import ListNotations.

Local Open Scope string_scope.
Local Open Scope list_scope.

(* ===================================================================== *)
(** ** JavaScript numbers *)
(* ===================================================================== *)

Module JS.

Definition number := float.

(** The mathematical value of a finite non-zero double [m * 2^e], as an
    exact fraction [num / den] with [den] a power of two. *)
Definition num (m : positive) (e : Z) : Z := Z.pos m * 2 ^ Z.max e 0.
Definition den (e : Z) : Z := 2 ^ Z.max (- e) 0.

(** [F(v)]: the double nearest to the integer [v] (ties to even). *)
Definition of_integer (v : Z) : number :=
  SF2Prim (binary_normalize prec emax v 0 false).

(** The Number value of an array length. *)
Definition of_length (n : nat) : number := of_integer (Z.of_nat n).

(** *** Decimal digits *)

Fixpoint uint_chars (d : Decimal.uint) : list ascii :=
  match d with
  | Decimal.Nil => []
  | Decimal.D0 d => "0"%char :: uint_chars d
  | Decimal.D1 d => "1"%char :: uint_chars d
  | Decimal.D2 d => "2"%char :: uint_chars d
  | Decimal.D3 d => "3"%char :: uint_chars d
  | Decimal.D4 d => "4"%char :: uint_chars d
  | Decimal.D5 d => "5"%char :: uint_chars d
  | Decimal.D6 d => "6"%char :: uint_chars d
  | Decimal.D7 d => "7"%char :: uint_chars d
  | Decimal.D8 d => "8"%char :: uint_chars d
  | Decimal.D9 d => "9"%char :: uint_chars d
  end.

(** The digits of the decimal representation of [n], most significant
    first, with no leading zeroes ("0" for zero). *)
Definition decimal (n : Z) : list ascii := uint_chars (N.to_uint (Z.to_N n)).

Definition is_digit (c : ascii) : bool :=
  let k := nat_of_ascii c in (48 <=? k)%nat && (k <=? 57)%nat.

(** *** Number::toString for the values [toFixed] hands over to it

    [toFixed] falls back on Number::toString for NaN, the infinities and
    magnitudes of at least 10^21.  For the latter the value is an integer
    [X] and the result is the exponent notation of the shortest digit
    string [s] (of [k] digits) such that [s * 10^(n-k)] rounds to the
    double; among several, the one closest to [X], then the even one. *)

Record shortest := { sh_s : Z; sh_n : Z; sh_err : Z }.

Definition candidates (x : number) (X : Z) (nd k : Z) : list shortest :=
  flat_map
    (fun n =>
       let p := 10 ^ (n - k) in
       flat_map
         (fun s =>
            if ((10 ^ (k - 1) <=? s) && (s <? 10 ^ k)
                && PrimFloat.eqb (of_integer (s * p)) x)%Z%bool
            then [{| sh_s := s; sh_n := n; sh_err := Z.abs (s * p - X) |}]
            else [])
         [X / p; X / p + 1])%Z
    [nd; nd + 1]%Z.

Definition better (a b : shortest) : bool :=
  ((sh_err a <? sh_err b)
   || ((sh_err a =? sh_err b) && Z.even (sh_s a) && negb (Z.even (sh_s b))))%Z%bool.

Fixpoint closest (best : shortest) (l : list shortest) : shortest :=
  match l with
  | [] => best
  | c :: l' => closest (if better c best then c else best) l'
  end.

Fixpoint search (x : number) (X : Z) (nd : Z) (k : Z) (fuel : nat) : shortest :=
  match fuel with
  | O => {| sh_s := X; sh_n := nd; sh_err := 0 |}
  | S fuel' =>
      match candidates x X nd k with
      | c :: l => closest c l
      | [] => search x X nd (k + 1) fuel'
      end
  end.

Definition exponent_notation (s n : Z) : list ascii :=
  match decimal s with
  | [] => []
  | [d] => d :: list_ascii_of_string "e+" ++ decimal (n - 1)
  | d :: ds => d :: "."%char :: ds ++ list_ascii_of_string "e+" ++ decimal (n - 1)
  end.

(** Number::toString of an integer-valued double [x = X >= 10^21]. *)
Definition toString_large (x : number) (X : Z) : list ascii :=
  let nd := Z.of_nat (List.length (decimal X)) in
  let c := search x X nd 1 17 in
  exponent_notation (sh_s c) (sh_n c).

(** *** Number.prototype.toFixed(2) *)

(** Step 11 of toFixed with two fraction digits, on the exact value
    [num / den >= 0]: the integer [n] nearest to [100 * x] (the larger one
    on a tie), its digits padded to three, and a point before the last
    two. *)
Definition nearest_hundredths (nu de : Z) : Z := (200 * nu + de) / (2 * de).

Definition fixed_notation (n : Z) : list ascii :=
  let m := decimal n in
  let k := List.length m in
  let m := if (k <=? 2)%nat then repeat "0"%char (3 - k) ++ m else m in
  let k := List.length m in
  firstn (k - 2) m ++ "."%char :: skipn (k - 2) m.

Definition toFixed2 (x : number) : string :=
  match Prim2SF x with
  | S754_nan => "NaN"
  | S754_infinity false => "Infinity"
  | S754_infinity true => "-Infinity"
  | S754_zero _ => string_of_list_ascii (fixed_notation 0)
  | S754_finite sign m e =>
      let s := if sign then ["-"%char] else [] in
      let nu := num m e in
      let de := den e in
      string_of_list_ascii
        (s ++ if (10 ^ 21 * de <=? nu)%Z
              then toString_large (PrimFloat.abs x) nu
              else fixed_notation (nearest_hundredths nu de))
  end.

(** The shape "digits, a point, two digits", with an optional sign. *)
Definition unsigned_fixed2 (l : list ascii) : bool :=
  match rev l with
  | d2 :: d1 :: "."%char :: ip =>
      is_digit d1 && is_digit d2 && negb (Nat.eqb (List.length ip) 0)
      && forallb is_digit ip
  | _ => false
  end.

Definition two_decimals (s : string) : bool :=
  match list_ascii_of_string s with
  | "-"%char :: l => unsigned_fixed2 l
  | l => unsigned_fixed2 l
  end.

(** Truthiness of an optional string property: [undefined] and the empty
    string are falsy. *)
Definition truthy (s : option string) : bool :=
  match s with
  | Some s' => negb (String.eqb s' "")
  | None => false
  end.

End JS.

Local Open Scope float_scope.

Notation "x >? y" := (PrimFloat.ltb y x) (at level 70, no associativity) : float_scope.

(* ===================================================================== *)
(** ** Documents and collections *)
(* ===================================================================== *)

Definition ObjectId := nat.

(** Modelled from the spec: of the Device and User schemas ([models/Device],
    [models/User]), the fields the controller reads. *)
Module Device.
Record t := { userId : ObjectId; deviceId : string }.
End Device.

Module User.
Record t := { _id : ObjectId; email : option string; fcmToken : option string }.
End User.

(** Modelled from the spec: the EnergyReading schema ([models/EnergyReading])
    is declared outside the controller.  A reading carries the fields the
    controller passes to [EnergyReading.create] and the [timestamp] the
    controller sorts on, which the store assigns at insertion. *)
Module EnergyReading.
Record t := {
    deviceId : string;
    current : JS.number;
    voltage : JS.number;
    temperature : JS.number;
    power : JS.number;
    userId : ObjectId;
    timestamp : Z
  }.
End EnergyReading.

Record Metadata := {
  currentPower : JS.number;
  averagePower : JS.number;
  threshold : JS.number
}.

(** Modelled from the spec: the Alert schema ([models/Alert]) is declared
    outside the controller; [isRead] and [isResolved] default to [false]. *)
Module Alert.
Record t := {
    userId : ObjectId;
    deviceId : string;
    message : string;
    alertType : string;
    severity : string;
    isRead : bool;
    isResolved : bool;
    metadata : Metadata
  }.
End Alert.

(** The argument of one call to [sendEnergyAlert]. *)
Module Notification.
Record t := {
    email : option string;
    fcmToken : option string;
    deviceName : string;
    alertType : string;
    message : string;
    energyData : Metadata
  }.
End Notification.

(** The collections, the calls made to the notification service and the
    lines written to the console, oldest first. *)
Record World := {
  devices : list Device.t;
  users : list User.t;
  readings : list EnergyReading.t;
  alerts : list Alert.t;
  outbox : list Notification.t;
  console : list string
}.

(** What the outside world decides during one request: the clock, and for
    each collaborator call whether it rejects (with which error message). *)
Record Env := {
  now : Z;
  Device_findOne_error : option string;
  EnergyReading_create_error : option string;
  EnergyReading_find_error : option string;
  EnergyReading_countDocuments_error : option string;
  Alert_create_error : option string;
  User_findById_error : option string;
  sendEnergyAlert_error : option string
}.

(* ===================================================================== *)
(** ** Asynchronous computations *)
(* ===================================================================== *)

Inductive outcome (A : Type) : Type :=
| Ok (a : A)
| Thrown (message : string).
Arguments Ok {A} a.
Arguments Thrown {A} message.

Definition M (A : Type) : Type := Env -> World -> outcome A * World.

Definition ret {A} (a : A) : M A := fun _ w => (Ok a, w).

Definition bind {A B} (m : M A) (k : A -> M B) : M B :=
  fun env w =>
    match m env w with
    | (Ok a, w') => k a env w'
    | (Thrown e, w') => (Thrown e, w')
    end.

Definition throw {A} (e : string) : M A := fun _ w => (Thrown e, w).

(** [try { body } catch (error) { handler(error.message) }] *)
Definition try_catch {A} (body : M A) (handler : string -> M A) : M A :=
  fun env w =>
    match body env w with
    | (Ok a, w') => (Ok a, w')
    | (Thrown e, w') => handler e env w'
    end.

Declare Scope async_scope.
Delimit Scope async_scope with async.
Notation "x <- m ;; k" := (bind m (fun x => k))
  (at level 100, m at next level, right associativity) : async_scope.
Notation "m ;; k" := (bind m (fun _ => k))
  (at level 100, right associativity) : async_scope.
Local Open Scope async_scope.

(** A collaborator call that rejects when the environment says so. *)
Definition await {A} (fault : Env -> option string) (op : M A) : M A :=
  fun env w =>
    match fault env with
    | Some e => (Thrown e, w)
    | None => op env w
    end.

Definition modify (f : World -> World) : M unit := fun _ w => (Ok tt, f w).
Definition gets {A} (f : World -> A) : M A := fun _ w => (Ok (f w), w).
Definition clock : M Z := fun env w => (Ok (now env), w).

Definition console_write (line : string) : M unit :=
  modify (fun w =>
    {| devices := devices w; users := users w; readings := readings w;
       alerts := alerts w; outbox := outbox w; console := console w ++ [line] |}).

(** [console.error(prefix, error.message)] and [console.log(line)]. *)
Definition console_error (prefix message : string) : M unit :=
  console_write (prefix ++ " " ++ message).
Definition console_log (line : string) : M unit := console_write line.

(* ===================================================================== *)
(** ** The collaborators: Mongoose models and the notification service *)
(* ===================================================================== *)

(** [Device.findOne({ deviceId })] *)
Definition Device_findOne (deviceId : string) : M (option Device.t) :=
  await Device_findOne_error
    (gets (fun w => find (fun d => String.eqb (Device.deviceId d) deviceId) (devices w))).

(** [User.findById(userId)] *)
Definition User_findById (userId : ObjectId) : M (option User.t) :=
  await User_findById_error
    (gets (fun w => find (fun u => Nat.eqb (User._id u) userId) (users w))).

(** [EnergyReading.create({...})]: the document is appended to the
    collection with the current time as its timestamp. *)
Definition EnergyReading_create
    (deviceId : string) (current voltage temperature power : JS.number)
    (userId : ObjectId) : M EnergyReading.t :=
  await EnergyReading_create_error
    (t <- clock ;;
     let doc := {| EnergyReading.deviceId := deviceId;
                   EnergyReading.current := current;
                   EnergyReading.voltage := voltage;
                   EnergyReading.temperature := temperature;
                   EnergyReading.power := power;
                   EnergyReading.userId := userId;
                   EnergyReading.timestamp := t |} in
     modify (fun w =>
       {| devices := devices w; users := users w; readings := readings w ++ [doc];
          alerts := alerts w; outbox := outbox w; console := console w |}) ;;
     ret doc).

(** [.sort({ timestamp: -1 })]: newest first. *)
Fixpoint insert_newest (r : EnergyReading.t) (l : list EnergyReading.t)
  : list EnergyReading.t :=
  match l with
  | [] => [r]
  | r' :: l' =>
      if (EnergyReading.timestamp r' <=? EnergyReading.timestamp r)%Z
      then r :: l
      else r' :: insert_newest r l'
  end.

Definition sort_newest_first (l : list EnergyReading.t) : list EnergyReading.t :=
  fold_right insert_newest [] l.

(** The documents matching [{ deviceId }]. *)
Definition of_device (deviceId : string) (l : list EnergyReading.t)
  : list EnergyReading.t :=
  filter (fun r => String.eqb (EnergyReading.deviceId r) deviceId) l.

(** MongoDB's [limit]: zero means no limit, a negative value limits to its
    magnitude. *)
Definition mongo_limit {A} (n : Z) (l : list A) : list A :=
  if (n =? 0)%Z then l else firstn (Z.abs_nat n) l.

(** [EnergyReading.find({ deviceId }).sort({ timestamp: -1 }).limit(n).skip(k)].
    The skip is applied before the limit whatever the order of the calls;
    the server rejects a negative skip. *)
Definition EnergyReading_find (deviceId : string) (limit skip : Z)
  : M (list EnergyReading.t) :=
  await EnergyReading_find_error
    (if (skip <? 0)%Z then throw "Skip value must be non-negative"
     else gets (fun w =>
       mongo_limit limit
         (skipn (Z.to_nat skip) (sort_newest_first (of_device deviceId (readings w)))))).

(** The driver hands a JavaScript number over as it is, and the server reads
    the limit and the skip of a find command as 64-bit integers: what
    follows the point is dropped, a NaN is read as 0 and a value out of
    range as the nearest bound.  A whole number below 2^63 in magnitude is
    read as itself. *)
Definition safeNumberLong (x : JS.number) : Z :=
  match Prim2SF x with
  | S754_nan => 0
  | S754_zero _ => 0
  | S754_infinity s => if s then - 2 ^ 63 else 2 ^ 63 - 1
  | S754_finite s m e =>
      let magnitude := if (0 <=? e)%Z then Z.pos m * 2 ^ e else Z.pos m / 2 ^ (- e) in
      Z.max (- 2 ^ 63) (Z.min (2 ^ 63 - 1) (if s then - magnitude else magnitude))
  end%Z.

(** The same query with the limit and the skip computed by the caller, as
    JavaScript numbers. *)
Definition EnergyReading_find_numbers (deviceId : string) (limit skip : JS.number)
  : M (list EnergyReading.t) :=
  EnergyReading_find deviceId (safeNumberLong limit) (safeNumberLong skip).

(** [EnergyReading.countDocuments({ deviceId })] *)
Definition EnergyReading_countDocuments (deviceId : string) : M nat :=
  await EnergyReading_countDocuments_error
    (gets (fun w => List.length (of_device deviceId (readings w)))).

(** [Alert.create({...})] *)
Definition Alert_create (doc : Alert.t) : M Alert.t :=
  await Alert_create_error
    (modify (fun w =>
       {| devices := devices w; users := users w; readings := readings w;
          alerts := alerts w ++ [doc]; outbox := outbox w; console := console w |}) ;;
     ret doc).

(** Modelled from the spec: the notification service
    ([utils/notificationService]) is a collaborator of the controller, a
    send operation that succeeds or fails with a delivery error.  The call
    to [sendEnergyAlert({...})] is recorded, then it may reject. *)
Definition sendEnergyAlert (n : Notification.t) : M unit :=
  modify (fun w =>
    {| devices := devices w; users := users w; readings := readings w;
       alerts := alerts w; outbox := outbox w ++ [n]; console := console w |}) ;;
  await sendEnergyAlert_error (ret tt).

(* ===================================================================== *)
(** ** The controller *)
(* ===================================================================== *)

(** The JSON bodies the controller sends. *)
Inductive Body :=
| ValidationFailed (errors : list string)
    (* { success: false, errors } *)
| Failure (message : string)
    (* { success: false, message } *)
| Created (energyReading : EnergyReading.t)
    (* { success: true, energyReading } *)
| Listing (count total : nat) (readings : list EnergyReading.t)
    (* { success: true, count, total, readings } *).

Record Response := { status : Z; body : Body }.

(** [res.status(code).json(body)]; [res.json(body)] answers 200. *)
Definition res_status_json (code : Z) (b : Body) : Response :=
  {| status := code; body := b |}.
Definition res_json (b : Body) : Response := res_status_json 200 b.

(** [POST /api/energy/add].  [validation] is what [validationResult(req)]
    holds: the errors found by the route's validation chain. *)
Record AddRequest := {
  validation : list string;
  body_deviceId : string;
  body_current : JS.number;
  body_voltage : JS.number;
  body_temperature : JS.number
}.

(** [GET /api/energy/:deviceId?limit=&page=].  The query parameters, when
    present, are strings of decimal digits (with an optional minus sign),
    held as the integers they write. *)
Record ListRequest := {
  params_deviceId : string;
  query_limit : option Z;
  query_page : option Z
}.

(** A query parameter in arithmetic.  Whether it came as a string of decimal
    digits or is its default, a whole Number, the operators [-] and [*]
    ([ToNumber]) and [parseInt] read it as the double nearest to the integer
    it writes: an infinity past the range of the doubles. *)
Definition ToNumber (v : Z) : JS.number := JS.of_integer v.
Definition parseInt (v : Z) : JS.number := JS.of_integer v.

(** [recentReadings.reduce((sum, reading) => sum + reading.power, 0)
     / recentReadings.length] *)
Definition mean_power (recentReadings : list EnergyReading.t) : JS.number :=
  fold_left (fun sum reading => sum + EnergyReading.power reading) recentReadings 0
  / JS.of_length (List.length recentReadings).

Definition spike_message (currentPower averagePower : JS.number) : string :=
  "Power spike detected! Current power: " ++ JS.toFixed2 currentPower
  ++ "W is 50% above average: " ++ JS.toFixed2 averagePower ++ "W".

Definition checkForPowerSpike
    (deviceId : string) (currentPower : JS.number) (userId : ObjectId) : M unit :=
  try_catch
    ((* Get last 10 readings to calculate average *)
     recentReadings <- EnergyReading_find deviceId 10 0 ;;
     if (5 <=? List.length recentReadings)%nat then
       let averagePower := mean_power recentReadings in
       let threshold := averagePower * 1.5 in
       if currentPower >? threshold then
         (* Create alert in DB *)
         alert <- Alert_create
           {| Alert.userId := userId;
              Alert.deviceId := deviceId;
              Alert.message := spike_message currentPower averagePower;
              Alert.alertType := "power_spike";
              Alert.severity := "high";
              Alert.isRead := false;
              Alert.isResolved := false;
              Alert.metadata :=
                {| currentPower := currentPower;
                   averagePower := averagePower;
                   threshold := threshold |} |} ;;
         (* Send notification *)
         user <- User_findById userId ;;
         match user with
         | Some user =>
             if JS.truthy (User.email user) || JS.truthy (User.fcmToken user) then
               try_catch
                 (sendEnergyAlert
                    {| Notification.email := User.email user;
                       Notification.fcmToken := User.fcmToken user;
                       Notification.deviceName := deviceId;
                       Notification.alertType := "Power Spike";
                       Notification.message := Alert.message alert;
                       Notification.energyData :=
                         {| currentPower := currentPower;
                            averagePower := averagePower;
                            threshold := threshold |} |} ;;
                  console_log "Power spike notification sent")
                 (fun err => console_error "Error sending power spike notification:" err)
             else ret tt
         | None => ret tt
         end
       else ret tt
     else ret tt)
    (fun error => console_error "Power spike check error:" error).

Definition addEnergyReading (req : AddRequest) : M Response :=
  try_catch
    (match validation req with
     | _ :: _ => ret (res_status_json 400 (ValidationFailed (validation req)))
     | [] =>
         let deviceId := body_deviceId req in
         let current := body_current req in
         let voltage := body_voltage req in
         let temperature := body_temperature req in
         (* Find the device to get userId *)
         device <- Device_findOne deviceId ;;
         match device with
         | None => ret (res_status_json 404 (Failure "Device not found"))
         | Some device =>
             (* Calculate power *)
             let power := current * voltage in
             (* Create energy reading *)
             energyReading <- EnergyReading_create deviceId current voltage
                                temperature power (Device.userId device) ;;
             (* Check for power spike (50% above average) *)
             checkForPowerSpike deviceId power (Device.userId device) ;;
             ret (res_status_json 201 (Created energyReading))
         end
     end)
    (fun error =>
       console_error "Add energy reading error:" error ;;
       ret (res_status_json 500 (Failure "Server error"))).

Definition getEnergyReadings (req : ListRequest) : M Response :=
  try_catch
    (let deviceId := params_deviceId req in
     let limit := match query_limit req with Some l => l | None => 100%Z end in
     let page := match query_page req with Some p => p | None => 1%Z end in
     let skip := (ToNumber page - 1) * ToNumber limit in
     readings <- EnergyReading_find_numbers deviceId (parseInt limit) skip ;;
     total <- EnergyReading_countDocuments deviceId ;;
     ret (res_json (Listing (List.length readings) total readings)))
    (fun error =>
       console_error "Get energy readings error:" error ;;
       ret (res_status_json 500 (Failure "Server error"))).

(* ===================================================================== *)
(** ** Running requests *)
(* ===================================================================== *)

(** An environment in which no collaborator call rejects. *)
Definition calm (t : Z) : Env :=
  {| now := t;
     Device_findOne_error := None;
     EnergyReading_create_error := None;
     EnergyReading_find_error := None;
     EnergyReading_countDocuments_error := None;
     Alert_create_error := None;
     User_findById_error := None;
     sendEnergyAlert_error := None |}.

(** A stored reading of the given power, taken at time [t]. *)
Definition sample (deviceId : string) (owner : ObjectId) (p : JS.number) (t : Z)
  : EnergyReading.t :=
  {| EnergyReading.deviceId := deviceId;
     EnergyReading.current := p;
     EnergyReading.voltage := 1;
     EnergyReading.temperature := 25;
     EnergyReading.power := p;
     EnergyReading.userId := owner;
     EnergyReading.timestamp := t |}.

(** A history of readings with the given powers, oldest first, taken at
    times [t], [t+1], ... *)
Fixpoint history (deviceId : string) (owner : ObjectId) (ps : list JS.number) (t : Z)
  : list EnergyReading.t :=
  match ps with
  | [] => []
  | p :: ps' => sample deviceId owner p t :: history deviceId owner ps' (t + 1)%Z
  end.

(** One registered device ["esp32_001"] of user 7, who has an e-mail
    address, with the given history. *)
Definition home (ps : list JS.number) : World :=
  {| devices := [{| Device.userId := 7%nat; Device.deviceId := "esp32_001" |}];
     users := [{| User._id := 7%nat; User.email := Some "owner@example.com";
                  User.fcmToken := None |}];
     readings := history "esp32_001" 7%nat ps 1%Z;
     alerts := [];
     outbox := [];
     console := [] |}.

(** The device posts [current] amperes at [voltage] volts. *)
Definition post (deviceId : string) (current voltage : JS.number) : AddRequest :=
  {| validation := [];
     body_deviceId := deviceId;
     body_current := current;
     body_voltage := voltage;
     body_temperature := 25 |}.

(** An environment in which the history fetch rejects. *)
Definition history_fetch_down (t : Z) : Env :=
  {| now := t;
     Device_findOne_error := None;
     EnergyReading_create_error := None;
     EnergyReading_find_error := Some "storage unavailable";
     EnergyReading_countDocuments_error := None;
     Alert_create_error := None;
     User_findById_error := None;
     sendEnergyAlert_error := None |}.

(** An environment in which the notification service rejects. *)
Definition delivery_down (t : Z) : Env :=
  {| now := t;
     Device_findOne_error := None;
     EnergyReading_create_error := None;
     EnergyReading_find_error := None;
     EnergyReading_countDocuments_error := None;
     Alert_create_error := None;
     User_findById_error := None;
     sendEnergyAlert_error := Some "SMTP timeout" |}.

(** The same environment with a notification service that delivers. *)
Definition delivering (env : Env) : Env :=
  {| now := now env;
     Device_findOne_error := Device_findOne_error env;
     EnergyReading_create_error := EnergyReading_create_error env;
     EnergyReading_find_error := EnergyReading_find_error env;
     EnergyReading_countDocuments_error := EnergyReading_countDocuments_error env;
     Alert_create_error := Alert_create_error env;
     User_findById_error := User_findById_error env;
     sendEnergyAlert_error := None |}.

(** A request for an unknown device that fails validation. *)
Definition malformed_post : AddRequest :=
  {| validation := ["current is required"];
     body_deviceId := "ghost";
     body_current := nan;
     body_voltage := 230;
     body_temperature := 25 |}.


(** The second page of two, of a device with five readings. *)
Definition second_page : ListRequest :=
  {| params_deviceId := "esp32_001"; query_limit := Some 2%Z; query_page := Some 2%Z |}.

(** A listing with a limit of zero. *)
Definition no_limit : ListRequest :=
  {| params_deviceId := "esp32_001"; query_limit := Some 0%Z; query_page := None |}.

(** A listing of page zero. *)
Definition page_zero : ListRequest :=
  {| params_deviceId := "esp32_001"; query_limit := None; query_page := Some 0%Z |}.

(** The world once [doc] has been written to the readings collection, and
    once a line has been written to the console. *)
Definition with_reading (w : World) (doc : EnergyReading.t) : World :=
  {| devices := devices w; users := users w; readings := readings w ++ [doc];
     alerts := alerts w; outbox := outbox w; console := console w |}.

Definition with_alert (w : World) (a : Alert.t) : World :=
  {| devices := devices w; users := users w; readings := readings w;
     alerts := alerts w ++ [a]; outbox := outbox w; console := console w |}.

Definition with_notification (w : World) (n : Notification.t) : World :=
  {| devices := devices w; users := users w; readings := readings w;
     alerts := alerts w; outbox := outbox w ++ [n]; console := console w |}.

Definition with_line (w : World) (line : string) : World :=
  {| devices := devices w; users := users w; readings := readings w;
     alerts := alerts w; outbox := outbox w; console := console w ++ [line] |}.

(** The document [addEnergyReading] creates for a request of a device. *)
Definition ingested (req : AddRequest) (device : Device.t) (env : Env)
  : EnergyReading.t :=
  {| EnergyReading.deviceId := body_deviceId req;
     EnergyReading.current := body_current req;
     EnergyReading.voltage := body_voltage req;
     EnergyReading.temperature := body_temperature req;
     EnergyReading.power := body_current req * body_voltage req;
     EnergyReading.userId := Device.userId device;
     EnergyReading.timestamp := now env |}.

(** The readings of a device, newest first, and the window the detector
    fetches: the ten newest. *)
Definition newest_first (deviceId : string) (w : World) : list EnergyReading.t :=
  sort_newest_first (of_device deviceId (readings w)).

Definition recent (deviceId : string) (w : World) : list EnergyReading.t :=
  firstn 10 (newest_first deviceId w).

(** The alert the detector writes for a window and a current power. *)
Definition spike_alert (deviceId : string) (userId : ObjectId)
    (window : list EnergyReading.t) (currentPower : JS.number) : Alert.t :=
  {| Alert.userId := userId;
     Alert.deviceId := deviceId;
     Alert.message := spike_message currentPower (mean_power window);
     Alert.alertType := "power_spike";
     Alert.severity := "high";
     Alert.isRead := false;
     Alert.isResolved := false;
     Alert.metadata :=
       {| currentPower := currentPower;
          averagePower := mean_power window;
          threshold := mean_power window * 1.5 |} |}.

Definition spike_notification (deviceId : string) (user : User.t)
    (window : list EnergyReading.t) (currentPower : JS.number) : Notification.t :=
  {| Notification.email := User.email user;
     Notification.fcmToken := User.fcmToken user;
     Notification.deviceName := deviceId;
     Notification.alertType := "Power Spike";
     Notification.message := spike_message currentPower (mean_power window);
     Notification.energyData :=
       {| currentPower := currentPower;
          averagePower := mean_power window;
          threshold := mean_power window * 1.5 |} |}.

(** The spike/no-spike decision of the specification's [evaluate()]: at
    least five readings in the window, and a current power above one and a
    half times their mean. *)
Definition spike_decision (window : list EnergyReading.t) (currentPower : JS.number)
  : bool :=
  (5 <=? List.length window)%nat && (currentPower >? mean_power window * 1.5).

(** The request passes validation, its device is registered and both the
    device lookup and the Reading write succeed: the reading is ingested. *)
Definition ingests (env : Env) (w : World) (req : AddRequest) (device : Device.t)
  : Prop :=
  validation req = []
  /\ Device_findOne_error env = None
  /\ find (fun d => String.eqb (Device.deviceId d) (body_deviceId req)) (devices w)
     = Some device
  /\ EnergyReading_create_error env = None.

(** The clock is ahead of every stored reading of the device. *)
Definition clock_ahead (env : Env) (w : World) (deviceId : string) : Prop :=
  forall r, In r (of_device deviceId (readings w)) ->
            (EnergyReading.timestamp r < now env)%Z.

(** Finite, and of magnitude below 10^21 (where [toFixed] keeps the fixed
    notation). *)
Definition below_1e21 (x : JS.number) : bool :=
  match Prim2SF x with
  | S754_zero _ => true
  | S754_finite _ m e => negb (10 ^ 21 * JS.den e <=? JS.num m e)%Z
  | _ => false
  end.

(** [r] is at least as recent as [r']: the order of a newest-first list. *)
Definition newer_or_equal (r r' : EnergyReading.t) : Prop :=
  (EnergyReading.timestamp r' <= EnergyReading.timestamp r)%Z.


(** The kind, severity and wording of an alert of the spike path. *)
Definition spike_format (a : Alert.t) : Prop :=
  let cp := currentPower (Alert.metadata a) in
  let avg := averagePower (Alert.metadata a) in
  Alert.alertType a = "power_spike"
  /\ Alert.severity a = "high"
  /\ Alert.message a
     = ("Power spike detected! Current power: " ++ JS.toFixed2 cp
        ++ "W is 50% above average: " ++ JS.toFixed2 avg ++ "W")%string
  /\ (below_1e21 cp = true -> JS.two_decimals (JS.toFixed2 cp) = true)
  /\ (below_1e21 avg = true -> JS.two_decimals (JS.toFixed2 avg) = true).

(** The [limit] query parameter, 100 when absent. *)
Definition limit_of (req : ListRequest) : Z :=
  match query_limit req with Some l => l | None => 100%Z end.

(** The [page] query parameter, 1 when absent. *)
Definition page_of (req : ListRequest) : Z :=
  match query_page req with Some p => p | None => 1%Z end.

(** The page the endpoint answers with: the readings of the device newest
    first, without the first [(page - 1) * limit], cut at [limit]. *)
Definition page_of_readings (req : ListRequest) (w : World) : list EnergyReading.t :=
  firstn (Z.to_nat (limit_of req))
    (skipn (Z.to_nat ((page_of req - 1) * limit_of req))
       (newest_first (params_deviceId req) w)).

(** What the store is asked for a request: the limit and the skip it reads
    off the numbers the endpoint hands over. *)
Definition asked_limit (req : ListRequest) : Z :=
  safeNumberLong (parseInt (limit_of req)).

Definition asked_skip (req : ListRequest) : Z :=
  safeNumberLong ((ToNumber (page_of req) - 1) * ToNumber (limit_of req)).

(** [q * 2^j] on positive numbers. *)
Definition shl (q : positive) (j : Z) : positive :=
  match j with Z.pos p => Pos.iter xO q p | _ => q end.

(** The double that is the whole number [q < 2^53], with sign [s]: its
    mantissa of 53 digits and its exponent. *)
Definition whole (s : bool) (q : positive) : spec_float :=
  let d := Z.pos (digits2_pos q) in S754_finite s (shl q (53 - d)) (d - 53)%Z.

(** The double that is the integer [n], for [|n| < 2^53]. *)
Definition repr (n : Z) : spec_float :=
  match n with
  | 0%Z => S754_zero false
  | Z.pos q => whole false q
  | Z.neg q => whole true q
  end.

(** The status code of the answer. *)
Definition status_of (r : outcome Response * World) : option Z :=
  match fst r with
  | Ok resp => Some (status resp)
  | Thrown _ => None
  end.

(* ===================================================================== *)
(** ** Further scenarios and vocabulary *)
(* ===================================================================== *)

(** An environment in which the device lookup rejects. *)
Definition registry_down (t : Z) : Env :=
  {| now := t;
     Device_findOne_error := Some "connection lost";
     EnergyReading_create_error := None;
     EnergyReading_find_error := None;
     EnergyReading_countDocuments_error := None;
     Alert_create_error := None;
     User_findById_error := None;
     sendEnergyAlert_error := None |}.

(** An environment in which the count of the readings rejects. *)
Definition count_down (t : Z) : Env :=
  {| now := t;
     Device_findOne_error := None;
     EnergyReading_create_error := None;
     EnergyReading_find_error := None;
     EnergyReading_countDocuments_error := Some "cursor timeout";
     Alert_create_error := None;
     User_findById_error := None;
     sendEnergyAlert_error := None |}.

(** The world of [home], whose owner has left no e-mail address and no
    push token. *)
Definition home_without_contact (ps : list JS.number) : World :=
  {| devices := [{| Device.userId := 7%nat; Device.deviceId := "esp32_001" |}];
     users := [{| User._id := 7%nat; User.email := None; User.fcmToken := Some "" |}];
     readings := history "esp32_001" 7%nat ps 1%Z;
     alerts := [];
     outbox := [];
     console := [] |}.

(** Two devices of the same owner, each with its own history. *)
Definition two_devices (ps qs : list JS.number) : World :=
  {| devices := [{| Device.userId := 7%nat; Device.deviceId := "esp32_001" |};
                 {| Device.userId := 7%nat; Device.deviceId := "esp32_002" |}];
     users := [{| User._id := 7%nat; User.email := Some "owner@example.com";
                  User.fcmToken := None |}];
     readings := history "esp32_001" 7%nat ps 1%Z ++ history "esp32_002" 7%nat qs 1%Z;
     alerts := [];
     outbox := [];
     console := [] |}.

(** The request [GET /api/energy/:deviceId?limit=l&page=p]. *)
Definition list_request (deviceId : string) (l p : Z) : ListRequest :=
  {| params_deviceId := deviceId; query_limit := Some l; query_page := Some p |}.



(** The alerts a detection cycle adds, read off the environment, the
    fetched window and the current power. *)
Definition detected (env : Env) (deviceId : string) (userId : ObjectId)
    (window : list EnergyReading.t) (currentPower : JS.number) : list Alert.t :=
  match EnergyReading_find_error env, Alert_create_error env with
  | None, None =>
      if spike_decision window currentPower
      then [spike_alert deviceId userId window currentPower]
      else []
  | _, _ => []
  end.

(** Plus infinity or not a number: what a sum that has met [+Infinity] is. *)
Definition unbounded (x : JS.number) : Prop :=
  Prim2SF x = S754_infinity false \/ Prim2SF x = S754_nan.

(** A finite double whose square overflows: 2^600. *)
Definition huge : JS.number := 0x1p600.

(** The status codes [addEnergyReading] answers with. *)
Definition add_statuses : list Z := [201; 400; 404; 500]%Z.

(* ===================================================================== *)
(** ** The chatbot controller *)
(* ===================================================================== *)

(** JavaScript strings are modelled by strings of 8-bit characters, read as
    the code units U+0000 to U+00FF; the string operations below are the
    JavaScript ones on that range. *)
Module JSString.

Definition code (c : ascii) : nat := nat_of_ascii c.

(** The white space and line terminators [trim] removes, below U+0100: TAB,
    LF, VT, FF, CR, SPACE and NO-BREAK SPACE. *)
Definition is_space (c : ascii) : bool :=
  let n := code c in
  ((9 <=? n) && (n <=? 13) || (n =? 32) || (n =? 160))%nat.

Fixpoint trim_start (l : list ascii) : list ascii :=
  match l with
  | c :: l' => if is_space c then trim_start l' else l
  | [] => []
  end.

(** [s.trim()] *)
Definition trim (s : string) : string :=
  string_of_list_ascii
    (rev (trim_start (rev (trim_start (list_ascii_of_string s))))).

(** The lower-case mapping below U+0100: A-Z, and the capital letters
    U+00C0 to U+00DE but the multiplication sign U+00D7. *)
Definition lower (c : ascii) : ascii :=
  let n := code c in
  if ((65 <=? n) && (n <=? 90)
      || (192 <=? n) && (n <=? 222) && negb (n =? 215))%nat
  then ascii_of_nat (n + 32)
  else c.

(** [s.toLowerCase()] *)
Fixpoint toLowerCase (s : string) : string :=
  match s with
  | EmptyString => EmptyString
  | String c s' => String (lower c) (toLowerCase s')
  end.

(** [s.includes(needle)] *)
Fixpoint includes (s needle : string) : bool :=
  String.prefix needle s
  || match s with
     | EmptyString => false
     | String _ s' => includes s' needle
     end.

(** The double quote and the line feed, for the templates. *)
Definition quote : string := String (ascii_of_nat 34) EmptyString.
Definition newline : string := String (ascii_of_nat 10) EmptyString.

(** [`${n}`] for an array length or a count. *)
Definition of_count (n : nat) : string :=
  string_of_list_ascii (JS.decimal (Z.of_nat n)).

(** [x.toFixed(1)]: as [JS.toFixed2], with one fraction digit. *)
Definition nearest_tenths (nu de : Z) : Z := (20 * nu + de) / (2 * de).

Definition fixed_notation1 (n : Z) : list ascii :=
  let m := JS.decimal n in
  let k := List.length m in
  let m := if (k <=? 1)%nat then repeat "0"%char (2 - k) ++ m else m in
  let k := List.length m in
  firstn (k - 1) m ++ "."%char :: skipn (k - 1) m.

Definition toFixed1 (x : JS.number) : string :=
  match Prim2SF x with
  | S754_nan => "NaN"
  | S754_infinity false => "Infinity"
  | S754_infinity true => "-Infinity"
  | S754_zero _ => string_of_list_ascii (fixed_notation1 0)
  | S754_finite sign m e =>
      let s := if sign then ["-"%char] else [] in
      let nu := JS.num m e in
      let de := JS.den e in
      string_of_list_ascii
        (s ++ if (10 ^ 21 * de <=? nu)%Z
              then JS.toString_large (PrimFloat.abs x) nu
              else fixed_notation1 (nearest_tenths nu de))
  end.

Definition is_zero_of_sign (negative : bool) (x : JS.number) : bool :=
  match Prim2SF x with
  | S754_zero s => Bool.eqb s negative
  | _ => false
  end.

(** One step of [Math.max]: NaN is contagious, +0 is above -0. *)
Definition max_step (highest x : JS.number) : JS.number :=
  if is_nan highest then highest
  else if is_nan x then nan
  else if is_zero_of_sign false x && is_zero_of_sign true highest then x
  else if x >? highest then x
  else highest.

(** [Math.max(...values)] *)
Definition Math_max (values : list JS.number) : JS.number :=
  fold_left max_step values neg_infinity.

Definition min_step (lowest x : JS.number) : JS.number :=
  if is_nan lowest then lowest
  else if is_nan x then nan
  else if is_zero_of_sign true x && is_zero_of_sign false lowest then x
  else if x <? lowest then x
  else lowest.

(** [Math.min(...values)] *)
Definition Math_min (values : list JS.number) : JS.number :=
  fold_left min_step values infinity.

End JSString.

(** What the chatbot needs of the outside world besides [Env]: the start of
    the current day ([today.setHours(0, 0, 0, 0)]), the [deviceName] field of
    the devices, and whether the lookups the ingestion does not use
    reject. *)
Record ChatEnv := {
  today : Z;
  Device_deviceName : Device.t -> string;
  Device_find_error : option string;
  Alert_find_error : option string;
  Alert_countDocuments_error : option string
}.

(** A collaborator call that rejects when [fault] says so. *)
Definition await_fault {A} (fault : option string) (op : M A) : M A :=
  fun env w =>
    match fault with
    | Some e => (Thrown e, w)
    | None => op env w
    end.

(** [EnergyReading.find({ userId, timestamp: { $gte: today } })] *)
Definition EnergyReading_find_since (userId : ObjectId) (since : Z)
  : M (list EnergyReading.t) :=
  await EnergyReading_find_error
    (gets (fun w =>
       filter (fun r => Nat.eqb (EnergyReading.userId r) userId
                        && (since <=? EnergyReading.timestamp r)%Z)
         (readings w))).

(** [EnergyReading.find({ userId }).sort({ timestamp: -1 }).limit(n)] *)
Definition EnergyReading_find_of_user (userId : ObjectId) (limit : Z)
  : M (list EnergyReading.t) :=
  await EnergyReading_find_error
    (gets (fun w =>
       mongo_limit limit
         (sort_newest_first
            (filter (fun r => Nat.eqb (EnergyReading.userId r) userId)
               (readings w))))).

(** [Device.find({ userId })] *)
Definition Device_find (cenv : ChatEnv) (userId : ObjectId) : M (list Device.t) :=
  await_fault (Device_find_error cenv)
    (gets (fun w => filter (fun d => Nat.eqb (Device.userId d) userId) (devices w))).

(** [Alert.find({ userId, isRead: false })] *)
Definition Alert_find_unread (cenv : ChatEnv) (userId : ObjectId) : M (list Alert.t) :=
  await_fault (Alert_find_error cenv)
    (gets (fun w =>
       filter (fun a => Nat.eqb (Alert.userId a) userId && negb (Alert.isRead a))
         (alerts w))).

(** [Alert.countDocuments({ userId })] *)
Definition Alert_countDocuments (cenv : ChatEnv) (userId : ObjectId) : M nat :=
  await_fault (Alert_countDocuments_error cenv)
    (gets (fun w =>
       List.length (filter (fun a => Nat.eqb (Alert.userId a) userId) (alerts w)))).

Definition handlePowerConsumptionQuery (cenv : ChatEnv) (userId : ObjectId)
  : M string :=
  try_catch
    (todayReadings <- EnergyReading_find_since userId (today cenv) ;;
     if (List.length todayReadings =? 0)%nat then
       ret "No power consumption data available for today."
     else
       let totalPower :=
         fold_left (fun sum reading => sum + EnergyReading.power reading)
           todayReadings 0 in
       let averagePower := totalPower / JS.of_length (List.length todayReadings) in
       let maxPower := JSString.Math_max (map EnergyReading.power todayReadings) in
       ret ("Today's power consumption summary:" ++ JSString.newline
            ++ "     Total power: " ++ JS.toFixed2 totalPower ++ "W"
            ++ JSString.newline
            ++ "     Average power: " ++ JS.toFixed2 averagePower ++ "W"
            ++ JSString.newline
            ++ "     Peak power: " ++ JS.toFixed2 maxPower ++ "W"
            ++ JSString.newline
            ++ "     Total readings: "
            ++ JSString.of_count (List.length todayReadings))%string)
    (fun _ => ret "Unable to retrieve power consumption data at the moment.").

(** The loop of [handleHighestConsumptionQuery] over the devices. *)
Fixpoint highest_loop (devices : list Device.t)
    (highestDevice : option Device.t) (highestPower : JS.number)
  : M (option Device.t * JS.number) :=
  match devices with
  | [] => ret (highestDevice, highestPower)
  | device :: rest =>
      recentReadings <- EnergyReading_find (Device.deviceId device) 10 0 ;;
      if (0 <? List.length recentReadings)%nat then
        let avgPower := mean_power recentReadings in
        if avgPower >? highestPower
        then highest_loop rest (Some device) avgPower
        else highest_loop rest highestDevice highestPower
      else highest_loop rest highestDevice highestPower
  end.

Definition handleHighestConsumptionQuery (cenv : ChatEnv) (userId : ObjectId)
  : M string :=
  try_catch
    (devices <- Device_find cenv userId ;;
     found <- highest_loop devices None 0 ;;
     match found with
     | (Some highestDevice, highestPower) =>
         ret ("The device with highest power consumption is " ++ JSString.quote
              ++ Device_deviceName cenv highestDevice ++ JSString.quote
              ++ " with an average of " ++ JS.toFixed2 highestPower ++ "W.")%string
     | (None, _) => ret "No power consumption data available for your devices."
     end)
    (fun _ => ret "Unable to determine the highest consuming device at the moment.").

Definition handleTemperatureQuery (userId : ObjectId) : M string :=
  try_catch
    (recentReadings <- EnergyReading_find_of_user userId 20 ;;
     if (List.length recentReadings =? 0)%nat then
       ret "No temperature data available."
     else
       let temperatures := map EnergyReading.temperature recentReadings in
       let avgTemp := fold_left (fun sum temp => sum + temp) temperatures 0
                      / JS.of_length (List.length temperatures) in
       let maxTemp := JSString.Math_max temperatures in
       let minTemp := JSString.Math_min temperatures in
       ret ("Temperature summary:" ++ JSString.newline
            ++ "     Current average: " ++ JSString.toFixed1 avgTemp ++ "C"
            ++ JSString.newline
            ++ "     Highest recorded: " ++ JSString.toFixed1 maxTemp ++ "C"
            ++ JSString.newline
            ++ "     Lowest recorded: " ++ JSString.toFixed1 minTemp ++ "C")%string)
    (fun _ => ret "Unable to retrieve temperature data at the moment.").

Definition handleAlertQuery (cenv : ChatEnv) (userId : ObjectId) : M string :=
  try_catch
    (unreadAlerts <- Alert_find_unread cenv userId ;;
     totalAlerts <- Alert_countDocuments cenv userId ;;
     if (List.length unreadAlerts =? 0)%nat then
       ret ("You have no unread alerts. Total alerts: "
            ++ JSString.of_count totalAlerts)%string
     else
       ret ("You have " ++ JSString.of_count (List.length unreadAlerts)
            ++ " unread alerts out of " ++ JSString.of_count totalAlerts
            ++ " total alerts. Check your dashboard for details.")%string)
    (fun _ => ret "Unable to retrieve alert information at the moment.").

Definition getHelpResponse : string :=
  "I can help you with:" ++ JSString.newline
  ++ "     Power consumption queries" ++ JSString.newline
  ++ "     Device performance analysis" ++ JSString.newline
  ++ "     Temperature monitoring" ++ JSString.newline
  ++ "     Alert information" ++ JSString.newline
  ++ "     Energy usage patterns" ++ JSString.newline
  ++ JSString.newline
  ++ "    Try asking: " ++ JSString.quote ++ "Which device consumed most power?"
  ++ JSString.quote ++ " or " ++ JSString.quote
  ++ "What's my power consumption today?" ++ JSString.quote.

Definition getDefaultResponse : string :=
  "I'm not sure how to help with that. Try asking about:" ++ JSString.newline
  ++ "     Power consumption" ++ JSString.newline
  ++ "     Device performance" ++ JSString.newline
  ++ "     Temperature readings" ++ JSString.newline
  ++ "     Energy alerts" ++ JSString.newline
  ++ "     Usage patterns".

(** The JSON bodies of the chatbot. *)
Inductive ChatBody :=
| ChatFailure (message : string)
    (* { success: false, message } *)
| ChatAnswer (query response : string) (timestamp : Z)
    (* { success: true, query, response, timestamp } *).

Record ChatResponse := { chat_status : Z; chat_body : ChatBody }.

(** [POST /api/chatbot/query], for a body whose [query] is a string or is
    missing, and the authenticated user [userId]. *)
Definition handleChatbotQuery (cenv : ChatEnv)
    (query : option string) (userId : ObjectId) : M ChatResponse :=
  try_catch
    (match query with
     | None => ret {| chat_status := 400; chat_body := ChatFailure "Query is required" |}
     | Some query =>
         if (String.length query =? 0)%nat
            || (String.length (JSString.trim query) =? 0)%nat
         then ret {| chat_status := 400;
                     chat_body := ChatFailure "Query is required" |}
         else
           let lowerQuery := JSString.toLowerCase query in
           (* Handle different types of queries *)
           response <-
             (if JSString.includes lowerQuery "power"
                 && JSString.includes lowerQuery "consumption"
              then handlePowerConsumptionQuery cenv userId
              else if JSString.includes lowerQuery "device"
                      && (JSString.includes lowerQuery "most"
                          || JSString.includes lowerQuery "highest")
              then handleHighestConsumptionQuery cenv userId
              else if JSString.includes lowerQuery "temperature"
                      || JSString.includes lowerQuery "hot"
              then handleTemperatureQuery userId
              else if JSString.includes lowerQuery "alert"
                      || JSString.includes lowerQuery "warning"
              then handleAlertQuery cenv userId
              else if JSString.includes lowerQuery "help"
                      || JSString.includes lowerQuery "what"
              then ret getHelpResponse
              else ret getDefaultResponse) ;;
           t <- clock ;;
           ret {| chat_status := 200; chat_body := ChatAnswer query response t |}
     end)
    (fun error =>
       console_error "Chatbot query error:" error ;;
       ret {| chat_status := 500; chat_body := ChatFailure "Server error" |}).

(** The chatbot's outside world when every lookup answers; the current day
    starts at [t]. *)
Definition chat_calm (t : Z) : ChatEnv :=
  {| today := t;
     Device_deviceName := fun d => ("Meter " ++ Device.deviceId d)%string;
     Device_find_error := None;
     Alert_find_error := None;
     Alert_countDocuments_error := None |}.

(** The readings of a user since the start of the day, in stored order. *)
Definition readings_today (cenv : ChatEnv) (userId : ObjectId) (w : World)
  : list EnergyReading.t :=
  filter (fun r => Nat.eqb (EnergyReading.userId r) userId
                   && (today cenv <=? EnergyReading.timestamp r)%Z)
    (readings w).

(** The summary [handlePowerConsumptionQuery] writes for today's readings. *)
Definition power_summary (todayReadings : list EnergyReading.t) : string :=
  let totalPower :=
    fold_left (fun sum reading => sum + EnergyReading.power reading)
      todayReadings 0 in
  "Today's power consumption summary:" ++ JSString.newline
  ++ "     Total power: " ++ JS.toFixed2 totalPower ++ "W" ++ JSString.newline
  ++ "     Average power: "
  ++ JS.toFixed2 (totalPower / JS.of_length (List.length todayReadings)) ++ "W"
  ++ JSString.newline
  ++ "     Peak power: "
  ++ JS.toFixed2 (JSString.Math_max (map EnergyReading.power todayReadings)) ++ "W"
  ++ JSString.newline
  ++ "     Total readings: " ++ JSString.of_count (List.length todayReadings).

(** The alerts of a user, and the unread ones. *)
Definition alerts_of (userId : ObjectId) (w : World) : list Alert.t :=
  filter (fun a => Nat.eqb (Alert.userId a) userId) (alerts w).

Definition unread_of (userId : ObjectId) (w : World) : list Alert.t :=
  filter (fun a => Nat.eqb (Alert.userId a) userId && negb (Alert.isRead a))
    (alerts w).

(** The sentence [handleAlertQuery] writes for the two counts. *)
Definition alert_summary (unread total : nat) : string :=
  if (unread =? 0)%nat
  then "You have no unread alerts. Total alerts: " ++ JSString.of_count total
  else "You have " ++ JSString.of_count unread ++ " unread alerts out of "
       ++ JSString.of_count total
       ++ " total alerts. Check your dashboard for details.".

(** The devices of a user, in stored order. *)
Definition devices_of (userId : ObjectId) (w : World) : list Device.t :=
  filter (fun d => Nat.eqb (Device.userId d) userId) (devices w).

(** The sentence [handleHighestConsumptionQuery] writes for a device. *)
Definition highest_summary (cenv : ChatEnv) (d : Device.t) (p : JS.number) : string :=
  "The device with highest power consumption is " ++ JSString.quote
  ++ Device_deviceName cenv d ++ JSString.quote
  ++ " with an average of " ++ JS.toFixed2 p ++ "W.".

(** The device has readings and their mean (over the ten newest) is
    above [p]. *)
Definition averages_above (w : World) (d : Device.t) (p : JS.number) : bool :=
  (0 <? List.length (recent (Device.deviceId d) w))%nat
  && (mean_power (recent (Device.deviceId d) w) >? p).

(** [p'] is [p] or above it: how the running maximum moves. *)
Definition raised (p p' : JS.number) : Prop := p' = p \/ (p' >? p) = true.

(** A query that is missing, empty or made of white space. *)
Definition blank_query (query : option string) : bool :=
  match query with
  | None => true
  | Some q => forallb JSString.is_space (list_ascii_of_string q)
  end.

(** The status code of an answer of the chatbot. *)
Definition chat_status_of (r : outcome ChatResponse * World) : option Z :=
  match fst r with
  | Ok resp => Some (chat_status resp)
  | Thrown _ => None
  end.

(** An environment in which every fetch of readings rejects. *)
Definition readings_down (t : Z) : Env := history_fetch_down t.

(** The world of [home] in which the owner already has one read and one
    unread alert. *)
Definition home_with_alerts (ps : list JS.number) : World :=
  {| devices := devices (home ps);
     users := users (home ps);
     readings := readings (home ps);
     alerts :=
       [{| Alert.userId := 7%nat; Alert.deviceId := "esp32_001";
           Alert.message := "seen"; Alert.alertType := "power_spike";
           Alert.severity := "high"; Alert.isRead := true;
           Alert.isResolved := false;
           Alert.metadata := {| currentPower := 1; averagePower := 0;
                                threshold := 0 |} |};
        {| Alert.userId := 7%nat; Alert.deviceId := "esp32_001";
           Alert.message := "new"; Alert.alertType := "power_spike";
           Alert.severity := "high"; Alert.isRead := false;
           Alert.isResolved := false;
           Alert.metadata := {| currentPower := 1; averagePower := 0;
                                threshold := 0 |} |}];
     outbox := [];
     console := [] |}.

(** The branch of the dispatcher a lower-cased query selects. *)
Inductive Topic := PowerConsumption | HighestConsumption | Temperature | Alerts
                 | Help | Unknown.

Definition topic_of (lowerQuery : string) : Topic :=
  if JSString.includes lowerQuery "power" && JSString.includes lowerQuery "consumption"
  then PowerConsumption
  else if JSString.includes lowerQuery "device"
          && (JSString.includes lowerQuery "most"
              || JSString.includes lowerQuery "highest")
  then HighestConsumption
  else if JSString.includes lowerQuery "temperature"
          || JSString.includes lowerQuery "hot"
  then Temperature
  else if JSString.includes lowerQuery "alert" || JSString.includes lowerQuery "warning"
  then Alerts
  else if JSString.includes lowerQuery "help" || JSString.includes lowerQuery "what"
  then Help
  else Unknown.

(** The handler of a topic. *)
Definition handler_of (cenv : ChatEnv) (userId : ObjectId) (t : Topic) : M string :=
  match t with
  | PowerConsumption => handlePowerConsumptionQuery cenv userId
  | HighestConsumption => handleHighestConsumptionQuery cenv userId
  | Temperature => handleTemperatureQuery userId
  | Alerts => handleAlertQuery cenv userId
  | Help => ret getHelpResponse
  | Unknown => ret getDefaultResponse
  end.

(** The text of an answer of the chatbot. *)
Definition chat_text (r : outcome ChatResponse * World) : option string :=
  match fst r with
  | Ok {| chat_body := ChatAnswer _ response _ |} => Some response
  | _ => None
  end.

(* ===================================================================== *)
(** ** The rule-based recommendations of the AI controller *)
(* ===================================================================== *)

Module Advice.

(** The decimal constants of the rules; each quotient is the double the
    JavaScript literal denotes. *)
Definition c_0_3 : JS.number := 3 / 10.
Definition c_0_9 : JS.number := 9 / 10.
Definition c_0_8 : JS.number := 8 / 10.
Definition c_0_1 : JS.number := 1 / 10.
Definition c_0_15 : JS.number := 15 / 100.
Definition c_0_05 : JS.number := 5 / 100.
Definition c_0_08 : JS.number := 8 / 100.

(** The fields of the result of [analyzeEnergyPatterns] the rules read. *)
Record Analysis := {
  avgPower : JS.number;
  powerVariation : JS.number;
  voltageStability : JS.number;
  avgTemperature : JS.number;
  efficiency : JS.number
}.

(** The values the code gives to [impact]. *)
Inductive Impact := high | medium | low.

Record Recommendation := {
  type : string;
  title : string;
  description : string;
  impact : Impact;
  estimatedSavings : JS.number
}.

(** [generateEfficiencyRecommendations(analysis, deviceCharacteristics, _)],
    for a [deviceCharacteristics] object whose [age] is [age] (NaN when the
    field is missing: the comparison is false either way). *)
Definition generateEfficiencyRecommendations (analysis : Analysis) (age : JS.number)
  : list Recommendation :=
  let recommendations := [] in
  (* Power optimization recommendations *)
  let recommendations :=
    if powerVariation analysis >? c_0_3 then
      recommendations ++
      [{| type := "power_optimization";
          title := "Optimize Power Usage Patterns";
          description :=
            "High power variation detected. Consider load balancing and scheduling.";
          impact := medium;
          estimatedSavings := avgPower analysis * c_0_1 |}]
    else recommendations in
  (* Voltage optimization *)
  let recommendations :=
    if voltageStability analysis <? c_0_9 then
      recommendations ++
      [{| type := "voltage_stabilization";
          title := "Improve Voltage Stability";
          description :=
            "Voltage fluctuations detected. Consider voltage regulators or power conditioning.";
          impact := high;
          estimatedSavings := avgPower analysis * c_0_15 |}]
    else recommendations in
  (* Temperature-based recommendations *)
  let recommendations :=
    if avgTemperature analysis >? 30 then
      recommendations ++
      [{| type := "thermal_management";
          title := "Improve Thermal Management";
          description :=
            "High operating temperature detected. Ensure proper ventilation and cooling.";
          impact := high;
          estimatedSavings := avgPower analysis * c_0_05 |}]
    else recommendations in
  (* Device-specific recommendations *)
  let recommendations :=
    if age >? 5 then
      recommendations ++
      [{| type := "maintenance";
          title := "Schedule Preventive Maintenance";
          description := "Device age suggests maintenance may improve efficiency.";
          impact := medium;
          estimatedSavings := avgPower analysis * c_0_08 |}]
    else recommendations in
  recommendations.

Definition calculateEfficiencyScore (analysis : Analysis) : JS.number :=
  let score := 100 in
  let score := if powerVariation analysis >? c_0_3 then score - 20 else score in
  let score := if voltageStability analysis <? c_0_9 then score - 25 else score in
  let score := if avgTemperature analysis >? 30 then score - 15 else score in
  let score := if efficiency analysis <? c_0_8 then score - 20 else score in
  JSString.Math_max [0; score].

(** [impactWeight[rec.impact] || 1] *)
Definition impactWeight (i : Impact) : nat :=
  match i with high => 3 | medium => 2 | low => 1 end.

(** [recommendations.sort((a, b) => weight(b) - weight(a))]: a stable sort,
    heaviest impact first. *)
Fixpoint insert_ranked (r : Recommendation) (l : list Recommendation)
  : list Recommendation :=
  match l with
  | [] => [r]
  | r' :: l' =>
      if (impactWeight (impact r') <=? impactWeight (impact r))%nat
      then r :: l
      else r' :: insert_ranked r l'
  end.

Definition rankRecommendations (recommendations : list Recommendation)
  : list Recommendation :=
  fold_right insert_ranked [] recommendations.

Definition impact_eqb (i j : Impact) : bool :=
  Nat.eqb (impactWeight i) (impactWeight j).

(** The recommendations of a given impact, in order. *)
Definition of_impact (i : Impact) (l : list Recommendation) : list Recommendation :=
  filter (fun r => impact_eqb (impact r) i) l.

(** [r] weighs at least as much as [r']. *)
Definition outranks (r r' : Recommendation) : Prop :=
  (impactWeight (impact r') <= impactWeight (impact r))%nat.

(** An installation that is unstable, hot and old. *)
Definition strained : Analysis :=
  {| avgPower := 1000; powerVariation := 1; voltageStability := c_0_8;
     avgTemperature := 40; efficiency := 1 |}.

End Advice.

(* ===================================================================== *)
(** ** Sorting and filtering *)
(* ===================================================================== *)

Section Sorting.

Implicit Types (r : EnergyReading.t) (l : list EnergyReading.t).

Lemma insert_newest_length r l :
  List.length (insert_newest r l) = S (List.length l).
Proof.
  induction l as [|r' l IH]; simpl; [reflexivity|].
  destruct (_ <=? _)%Z; simpl; [reflexivity | now rewrite IH].
Qed.

Lemma sort_newest_first_length l :
  List.length (sort_newest_first l) = List.length l.
Proof.
  induction l as [|r l IH]; simpl; [reflexivity|].
  now rewrite insert_newest_length, IH.
Qed.

Lemma insert_newest_In r l x :
  In x (insert_newest r l) <-> x = r \/ In x l.
Proof.
  induction l as [|r' l IH]; simpl.
  - intuition congruence.
  - destruct (_ <=? _)%Z; simpl; [intuition congruence|].
    rewrite IH. intuition congruence.
Qed.

Lemma sort_newest_first_In l x :
  In x (sort_newest_first l) <-> In x l.
Proof.
  induction l as [|r l IH]; simpl; [tauto|].
  rewrite insert_newest_In, IH. intuition congruence.
Qed.

Lemma insert_newest_sorted r l :
  StronglySorted newer_or_equal l ->
  StronglySorted newer_or_equal (insert_newest r l).
Proof.
  induction 1 as [|r' l Hs IH Hall]; simpl.
  - constructor; constructor.
  - destruct (Z.leb_spec (EnergyReading.timestamp r') (EnergyReading.timestamp r)).
    + constructor; [constructor; assumption|].
      constructor; [assumption|].
      eapply Forall_impl; [|exact Hall].
      unfold newer_or_equal. intros a Ha. lia.
    + constructor; [assumption|].
      apply Forall_forall. intros x Hx.
      apply insert_newest_In in Hx. destruct Hx as [->|Hx].
      * unfold newer_or_equal. lia.
      * rewrite Forall_forall in Hall. now apply Hall.
Qed.

Lemma sort_newest_first_sorted l :
  StronglySorted newer_or_equal (sort_newest_first l).
Proof.
  induction l as [|r l IH]; simpl; [constructor|].
  now apply insert_newest_sorted.
Qed.

(** A reading newer than all the others comes first. *)
Lemma insert_newest_head r l :
  (forall x, In x l -> (EnergyReading.timestamp x < EnergyReading.timestamp r)%Z) ->
  insert_newest r l = r :: l.
Proof.
  destruct l as [|r' l]; simpl; [reflexivity|]. intros H.
  destruct (Z.leb_spec (EnergyReading.timestamp r') (EnergyReading.timestamp r));
    [reflexivity|].
  specialize (H r' (or_introl eq_refl)). lia.
Qed.

Lemma insert_newest_comm_head r a l :
  (EnergyReading.timestamp a < EnergyReading.timestamp r)%Z ->
  insert_newest a (r :: l) = r :: insert_newest a l.
Proof.
  intros H. simpl.
  destruct (Z.leb_spec (EnergyReading.timestamp r) (EnergyReading.timestamp a));
    [lia | reflexivity].
Qed.

Lemma sort_newest_first_snoc r l :
  (forall x, In x l -> (EnergyReading.timestamp x < EnergyReading.timestamp r)%Z) ->
  sort_newest_first (l ++ [r]) = r :: sort_newest_first l.
Proof.
  induction l as [|a l IH]; intros H; simpl; [reflexivity|].
  rewrite IH by (intros x Hx; apply H; now right).
  apply insert_newest_comm_head. apply H. now left.
Qed.

Lemma In_firstn {A} (x : A) n (l : list A) : In x (firstn n l) -> In x l.
Proof.
  intros H. rewrite <- (firstn_skipn n l). apply in_or_app. now left.
Qed.

Lemma of_device_app d l l' :
  of_device d (l ++ l') = of_device d l ++ of_device d l'.
Proof. apply filter_app. Qed.

Lemma of_device_In d l x :
  In x (of_device d l) <-> In x l /\ EnergyReading.deviceId x = d.
Proof.
  unfold of_device. rewrite filter_In, String.eqb_eq. tauto.
Qed.

End Sorting.

(* ===================================================================== *)
(** ** One detection cycle, step by step *)
(* ===================================================================== *)

Ltac unfold_async :=
  unfold try_catch, bind, ret, throw, await, gets, modify, clock,
    console_error, console_log, console_write in *.

Ltac split_match :=
  match goal with
  | |- context [match ?x with _ => _ end] => destruct x eqn:?
  end.

Lemma find_window d env w :
  EnergyReading_find_error env = None ->
  EnergyReading_find d 10 0 env w = (Ok (recent d w), w).
Proof.
  intros H. unfold EnergyReading_find, recent, newest_first. unfold_async.
  rewrite H. reflexivity.
Qed.

(** What [checkForPowerSpike] does, fault by fault. *)
Lemma checkForPowerSpike_steps d cp uid env w :
  checkForPowerSpike d cp uid env w =
  match EnergyReading_find_error env with
  | Some e => (Ok tt, with_line w ("Power spike check error:" ++ " " ++ e))
  | None =>
      let window := recent d w in
      if spike_decision window cp then
        match Alert_create_error env with
        | Some e => (Ok tt, with_line w ("Power spike check error:" ++ " " ++ e))
        | None =>
            let w1 := with_alert w (spike_alert d uid window cp) in
            match User_findById_error env with
            | Some e => (Ok tt, with_line w1 ("Power spike check error:" ++ " " ++ e))
            | None =>
                match find (fun u => Nat.eqb (User._id u) uid) (users w) with
                | Some user =>
                    if JS.truthy (User.email user) || JS.truthy (User.fcmToken user)
                    then
                      let w2 := with_notification w1
                                  (spike_notification d user window cp) in
                      match sendEnergyAlert_error env with
                      | Some e =>
                          (Ok tt, with_line w2
                             ("Error sending power spike notification:" ++ " " ++ e))
                      | None => (Ok tt, with_line w2 "Power spike notification sent")
                      end
                    else (Ok tt, w1)
                | None => (Ok tt, w1)
                end
            end
        end
      else (Ok tt, w)
  end.
Proof.
  unfold checkForPowerSpike, spike_decision.
  destruct (EnergyReading_find_error env) as [e|] eqn:Hfind.
  - unfold EnergyReading_find. unfold_async. rewrite Hfind. reflexivity.
  - unfold try_catch at 1. unfold bind at 1.
    rewrite (find_window d env w Hfind). cbv zeta.
    destruct (5 <=? List.length (recent d w))%nat; [|reflexivity].
    destruct (cp >? mean_power (recent d w) * 1.5); [|reflexivity].
    cbn [andb].
    unfold Alert_create, User_findById, sendEnergyAlert. unfold_async.
    destruct (Alert_create_error env); [reflexivity|].
    destruct (User_findById_error env); [reflexivity|].
    cbn [users].
    destruct (find _ (users w)) as [user|]; [|reflexivity].
    destruct (JS.truthy (User.email user) || JS.truthy (User.fcmToken user));
      [|reflexivity].
    destruct (sendEnergyAlert_error env); reflexivity.
Qed.

(** The detector never rejects: every error is caught inside it. *)
Lemma checkForPowerSpike_returns d cp uid env w :
  fst (checkForPowerSpike d cp uid env w) = Ok tt.
Proof.
  rewrite checkForPowerSpike_steps. cbv zeta.
  repeat (split_match; try reflexivity).
Qed.

(** What [addEnergyReading] does, guard by guard. *)
Lemma addEnergyReading_steps req env w :
  addEnergyReading req env w =
  match validation req with
  | _ :: _ => (Ok (res_status_json 400 (ValidationFailed (validation req))), w)
  | [] =>
      match Device_findOne_error env with
      | Some e =>
          (Ok (res_status_json 500 (Failure "Server error")),
           with_line w ("Add energy reading error: " ++ e))
      | None =>
          match find (fun d => String.eqb (Device.deviceId d) (body_deviceId req))
                  (devices w) with
          | None => (Ok (res_status_json 404 (Failure "Device not found")), w)
          | Some device =>
              match EnergyReading_create_error env with
              | Some e =>
                  (Ok (res_status_json 500 (Failure "Server error")),
                   with_line w ("Add energy reading error: " ++ e))
              | None =>
                  (Ok (res_status_json 201 (Created (ingested req device env))),
                   snd (checkForPowerSpike (body_deviceId req)
                          (body_current req * body_voltage req)
                          (Device.userId device) env
                          (with_reading w (ingested req device env))))
              end
          end
      end
  end.
Proof.
  unfold addEnergyReading.
  destruct (validation req) as [|v vs]; [|reflexivity].
  unfold Device_findOne, EnergyReading_create.
  unfold try_catch at 1. unfold bind at 1. unfold await at 1.
  destruct (Device_findOne_error env) as [e|]; [reflexivity|].
  unfold gets at 1.
  destruct (find _ (devices w)) as [device|]; [|reflexivity].
  unfold bind at 1. unfold await at 1.
  destruct (EnergyReading_create_error env) as [e|]; [reflexivity|].
  unfold bind at 1. unfold clock at 1. unfold bind at 1. unfold modify at 1.
  unfold ret at 1. unfold bind at 1.
  fold (ingested req device env). fold (with_reading w (ingested req device env)).
  pose proof (checkForPowerSpike_returns (body_deviceId req)
                (body_current req * body_voltage req) (Device.userId device)
                env (with_reading w (ingested req device env))) as Hret.
  destruct (checkForPowerSpike _ _ _ env _) as [o w']. simpl in Hret. subst o.
  reflexivity.
Qed.

(** An ingested reading is written, the detector runs on the store that
    holds it, and the answer is 201 with the reading. *)
Lemma addEnergyReading_ingests env w req device :
  ingests env w req device ->
  addEnergyReading req env w =
  (Ok (res_status_json 201 (Created (ingested req device env))),
   snd (checkForPowerSpike (body_deviceId req)
          (body_current req * body_voltage req) (Device.userId device)
          env (with_reading w (ingested req device env)))).
Proof.
  intros (Hval & Hdev & Hfind & Hcreate).
  now rewrite addEnergyReading_steps, Hval, Hdev, Hfind, Hcreate.
Qed.

(** The window once the new reading is in the store: the reading itself,
    then the newest of the prior ones. *)
Lemma newest_first_with_reading env w req device :
  clock_ahead env w (body_deviceId req) ->
  newest_first (body_deviceId req) (with_reading w (ingested req device env))
  = ingested req device env :: newest_first (body_deviceId req) w.
Proof.
  intros Hclock. unfold newest_first, with_reading. cbn [readings].
  rewrite of_device_app.
  assert (of_device (body_deviceId req) [ingested req device env]
          = [ingested req device env]) as ->.
  { unfold of_device. cbn [filter ingested EnergyReading.deviceId].
    now rewrite String.eqb_refl. }
  apply sort_newest_first_snoc. intros x Hx.
  cbn [ingested EnergyReading.timestamp]. now apply Hclock.
Qed.

Lemma recent_with_reading env w req device :
  clock_ahead env w (body_deviceId req) ->
  recent (body_deviceId req) (with_reading w (ingested req device env))
  = ingested req device env :: firstn 9 (newest_first (body_deviceId req) w).
Proof.
  intros Hclock. unfold recent.
  now rewrite (newest_first_with_reading env w req device Hclock).
Qed.

(* ===================================================================== *)
(** ** The spike rule *)
(* ===================================================================== *)

Lemma addEnergyReading_spike env w req device :
  ingests env w req device ->
  EnergyReading_find_error env = None ->
  Alert_create_error env = None ->
  let doc := ingested req device env in
  let window := recent (body_deviceId req) (with_reading w doc) in
  spike_decision window (EnergyReading.power doc) = true ->
  alerts (snd (addEnergyReading req env w))
  = alerts w ++ [spike_alert (body_deviceId req) (Device.userId device) window
                   (EnergyReading.power doc)].
Proof.
  intros Hin Hfind Halert doc window Hspike.
  rewrite (addEnergyReading_ingests env w req device Hin).
  rewrite checkForPowerSpike_steps, Hfind. cbv zeta.
  fold doc. fold window. cbn [EnergyReading.power doc ingested] in Hspike.
  rewrite Hspike, Halert.
  repeat (split_match; try reflexivity).
Qed.

(** C1 (as amended).  The window the detector averages is fetched after the
    new reading has been written, so it is made of the new reading and the
    up-to-nine newest prior readings, and four prior readings suffice.  When
    the power of the ingested reading exceeds one and a half times the mean
    of that window, an alert of kind power_spike is written whose metadata
    holds that power, that mean and that mean times 1.5.  In particular,
    after five readings of power 100, ingesting a reading of power 200
    writes an alert with metadata {200, 700/6, 175}. *)
Theorem spike_creates_alert :
  (forall env w req device,
     ingests env w req device ->
     EnergyReading_find_error env = None ->
     Alert_create_error env = None ->
     clock_ahead env w (body_deviceId req) ->
     (4 <= List.length (of_device (body_deviceId req) (readings w)))%nat ->
     let power := body_current req * body_voltage req in
     let window :=
       ingested req device env :: firstn 9 (newest_first (body_deviceId req) w) in
     (power >? mean_power window * 1.5) = true ->
     exists a,
       alerts (snd (addEnergyReading req env w)) = alerts w ++ [a]
       /\ Alert.alertType a = "power_spike"
       /\ Alert.metadata a =
          {| currentPower := power;
             averagePower := mean_power window;
             threshold := mean_power window * 1.5 |})
  /\ (exists a,
        alerts (snd (addEnergyReading (post "esp32_001" 2 100) (calm 1000)
                       (home [100; 100; 100; 100; 100]))) = [a]
        /\ Alert.alertType a = "power_spike"
        /\ Alert.metadata a =
           {| currentPower := 200; averagePower := 700 / 6; threshold := 175 |}).
Proof.
  split.
  - intros env w req device Hin Hfind Halert Hclock Hlen power window Hgt.
    pose proof (addEnergyReading_spike env w req device Hin Hfind Halert) as H.
    cbv zeta in H.
    rewrite (recent_with_reading env w req device Hclock) in H.
    fold window in H. cbn [EnergyReading.power ingested] in H. fold power in H.
    eexists. split; [apply H|].
    + unfold spike_decision. rewrite Hgt, andb_true_r.
      apply Nat.leb_le. unfold window. cbn [List.length].
      rewrite length_firstn. unfold newest_first.
      rewrite sort_newest_first_length. lia.
    + split; reflexivity.
  - eexists. split; [vm_compute; reflexivity|]. split; vm_compute; reflexivity.
Qed.

Lemma spike_creates_alert_witness :
  let env := calm 1000 in
  let w := home [100; 100; 100; 100; 100] in
  let req := post "esp32_001" 2 100 in
  let device := {| Device.userId := 7%nat; Device.deviceId := "esp32_001" |} in
  let window := ingested req device env :: firstn 9 (newest_first "esp32_001" w) in
  exists a,
    alerts (snd (addEnergyReading req env w)) = alerts w ++ [a]
    /\ Alert.alertType a = "power_spike"
    /\ Alert.metadata a =
       {| currentPower := 2 * 100;
          averagePower := mean_power window;
          threshold := mean_power window * 1.5 |}.
Proof.
  intros env w req device window.
  apply (proj1 spike_creates_alert env w req device).
  - repeat split; reflexivity.
  - reflexivity.
  - reflexivity.
  - intros r Hr. vm_compute in Hr.
    repeat (destruct Hr as [<-|Hr]; [vm_compute; reflexivity|]). destruct Hr.
  - vm_compute. lia.
  - vm_compute. reflexivity.
Defined.

(** C1 as stated fails: the mean is not taken over the prior readings.
    After five readings of power 100, a reading of power 200 writes an alert
    whose metadata is not {200, 100, 150}; and a reading of power 160, above
    1.5 times the prior mean of 100, writes no alert at all. *)
Lemma spike_against_prior_mean_fails :
  (~ exists a,
       In a (alerts (snd (addEnergyReading (post "esp32_001" 2 100) (calm 1000)
                            (home [100; 100; 100; 100; 100]))))
       /\ Alert.metadata a =
          {| currentPower := 200; averagePower := 100; threshold := 150 |})
  /\ (let prior := newest_first "esp32_001" (home [100; 100; 100; 100; 100]) in
      ((2 * 80) >? mean_power (firstn 10 prior) * 1.5) = true
      /\ alerts (snd (addEnergyReading (post "esp32_001" 2 80) (calm 1000)
                        (home [100; 100; 100; 100; 100]))) = []).
Proof.
  split.
  - intros (a & Hin & Hm). vm_compute in Hin.
    destruct Hin as [<-|[]].
    apply (f_equal (fun m => PrimFloat.eqb (threshold m) 150)) in Hm.
    vm_compute in Hm. discriminate.
  - split; vm_compute; reflexivity.
Qed.

(* ===================================================================== *)
(** ** Insufficient history *)
(* ===================================================================== *)

Lemma of_device_with_reading_length d w doc :
  (List.length (of_device d (readings (with_reading w doc)))
   <= S (List.length (of_device d (readings w))))%nat.
Proof.
  unfold with_reading. cbn [readings]. rewrite of_device_app, length_app.
  unfold of_device at 2. cbn [filter].
  destruct (String.eqb _ _); cbn [List.length]; lia.
Qed.

Lemma recent_length d w :
  (List.length (recent d w) <= List.length (of_device d (readings w)))%nat.
Proof.
  unfold recent, newest_first. rewrite length_firstn, sort_newest_first_length. lia.
Qed.

(** A request that is not ingested leaves the alerts alone. *)
Lemma addEnergyReading_alerts_cases req env w :
  alerts (snd (addEnergyReading req env w)) = alerts w
  \/ exists device,
       ingests env w req device
       /\ alerts (snd (addEnergyReading req env w))
          = alerts (snd (checkForPowerSpike (body_deviceId req)
                           (body_current req * body_voltage req)
                           (Device.userId device) env
                           (with_reading w (ingested req device env)))).
Proof.
  rewrite addEnergyReading_steps.
  destruct (validation req) as [|v vs] eqn:Hval; [|now left].
  destruct (Device_findOne_error env) as [e|] eqn:Hdev; [now left|].
  destruct (find (fun d => String.eqb (Device.deviceId d) (body_deviceId req))
              (devices w)) as [device|] eqn:Hfind; [|now left].
  destruct (EnergyReading_create_error env) as [e|] eqn:Hcreate; [now left|].
  right. exists device. split; [repeat split; assumption | reflexivity].
Qed.

(** C2 (as amended).  The new reading is part of the fetched window, so the
    detector needs four prior readings, not five: with fewer than four prior
    readings of the device, ingesting a reading writes no alert whatever its
    power.  In particular, after three readings of power 100, a reading of
    power 500 writes no alert. *)
Theorem short_history_no_alert :
  (forall env w req,
     (List.length (of_device (body_deviceId req) (readings w)) < 4)%nat ->
     alerts (snd (addEnergyReading req env w)) = alerts w)
  /\ alerts (snd (addEnergyReading (post "esp32_001" 5 100) (calm 1000)
                    (home [100; 100; 100]))) = [].
Proof.
  split; [|vm_compute; reflexivity].
  intros env w req Hlen.
  destruct (addEnergyReading_alerts_cases req env w) as [H|(device & Hin & H)];
    [assumption|].
  rewrite H, checkForPowerSpike_steps. cbv zeta.
  assert (spike_decision
            (recent (body_deviceId req) (with_reading w (ingested req device env)))
            (body_current req * body_voltage req) = false) as ->.
  { unfold spike_decision. apply andb_false_iff. left. apply Nat.leb_gt.
    pose proof (recent_length (body_deviceId req)
                  (with_reading w (ingested req device env))).
    pose proof (of_device_with_reading_length (body_deviceId req) w
                  (ingested req device env)).
    lia. }
  destruct (EnergyReading_find_error env); reflexivity.
Qed.

Lemma short_history_no_alert_witness :
  alerts (snd (addEnergyReading (post "esp32_001" 50 100) (calm 1000)
                 (home [100; 100; 100])))
  = alerts (home [100; 100; 100]).
Proof.
  apply (proj1 short_history_no_alert (calm 1000) (home [100; 100; 100])
           (post "esp32_001" 50 100)).
  vm_compute. lia.
Defined.

(** C2 as stated fails: after four readings of power 100, a reading of power
    500 is the fifth of its own window (mean 180, threshold 270) and an
    alert is written. *)
Lemma four_prior_readings_alert :
  exists a,
    alerts (snd (addEnergyReading (post "esp32_001" 5 100) (calm 1000)
                   (home [100; 100; 100; 100]))) = [a]
    /\ Alert.metadata a =
       {| currentPower := 500; averagePower := 180; threshold := 270 |}.
Proof. eexists. split; vm_compute; reflexivity. Qed.

(* ===================================================================== *)
(** ** What a detection cycle may change *)
(* ===================================================================== *)

(** The detector never touches the readings, and writes at most one alert:
    the one of its window, and only on a spike. *)
Lemma checkForPowerSpike_effects d cp uid env w :
  let w' := snd (checkForPowerSpike d cp uid env w) in
  readings w' = readings w
  /\ devices w' = devices w
  /\ users w' = users w
  /\ (alerts w' = alerts w
      \/ (spike_decision (recent d w) cp = true
          /\ EnergyReading_find_error env = None
          /\ Alert_create_error env = None
          /\ alerts w' = alerts w ++ [spike_alert d uid (recent d w) cp])).
Proof.
  cbv zeta. rewrite checkForPowerSpike_steps. cbv zeta.
  destruct (EnergyReading_find_error env); [cbn; tauto|].
  destruct (spike_decision (recent d w) cp) eqn:Hspike; [|cbn; tauto].
  destruct (Alert_create_error env); [cbn; tauto|].
  repeat (split_match; cbn; try tauto).
Qed.

(** C3.  Every alert written while a reading is ingested carries, as
    metadata.currentPower, the power of the reading the request created
    (the one sent back with the 201 answer and now in the store), which is
    the posted current times the posted voltage; and its metadata.threshold
    is its metadata.averagePower times 1.5. *)
Theorem alert_metadata_invariant :
  forall env w req,
    exists new,
      alerts (snd (addEnergyReading req env w)) = alerts w ++ new
      /\ forall a, In a new ->
           exists r,
             fst (addEnergyReading req env w)
             = Ok (res_status_json 201 (Created r))
             /\ In r (readings (snd (addEnergyReading req env w)))
             /\ EnergyReading.power r = body_current req * body_voltage req
             /\ currentPower (Alert.metadata a) = EnergyReading.power r
             /\ threshold (Alert.metadata a)
                = averagePower (Alert.metadata a) * 1.5.
Proof.
  intros env w req.
  destruct (addEnergyReading_alerts_cases req env w) as [H|(device & Hin & H)].
  { exists []. rewrite app_nil_r. split; [assumption|]. intros a []. }
  pose proof (addEnergyReading_ingests env w req device Hin) as Hrun.
  pose proof (checkForPowerSpike_effects (body_deviceId req)
                (body_current req * body_voltage req) (Device.userId device)
                env (with_reading w (ingested req device env))) as Heff.
  cbv zeta in Heff. destruct Heff as (Hreadings & _ & _ & Halerts).
  rewrite Hrun. cbn [fst snd].
  destruct Halerts as [Hsame|(_ & _ & _ & Hnew)].
  - exists []. rewrite app_nil_r. split; [exact Hsame|]. intros a [].
  - eexists. split; [exact Hnew|].
    intros a [<-|[]]. exists (ingested req device env).
    split; [reflexivity|]. split.
    + rewrite Hreadings. unfold with_reading. cbn [readings].
      apply in_or_app. right. now left.
    + repeat split; reflexivity.
Qed.

Lemma alert_metadata_invariant_witness :
  exists a r,
    alerts (snd (addEnergyReading (post "esp32_001" 2 100) (calm 1000)
                   (home [100; 100; 100; 100; 100]))) = [a]
    /\ fst (addEnergyReading (post "esp32_001" 2 100) (calm 1000)
              (home [100; 100; 100; 100; 100]))
       = Ok (res_status_json 201 (Created r))
    /\ currentPower (Alert.metadata a) = EnergyReading.power r
    /\ threshold (Alert.metadata a) = averagePower (Alert.metadata a) * 1.5.
Proof.
  destruct (alert_metadata_invariant (calm 1000) (home [100; 100; 100; 100; 100])
              (post "esp32_001" 2 100)) as (new & Hnew & Hall).
  vm_compute in Hnew.
  destruct new as [|a [|b new]]; try discriminate Hnew.
  destruct (Hall a (or_introl eq_refl)) as (r & Hr & _ & _ & Hcp & Hthr).
  exists a, r. repeat split; assumption.
Defined.

(* ===================================================================== *)
(** ** Failures inside the detection cycle *)
(* ===================================================================== *)

(** C4.  When the Reading write has succeeded and the history fetch rejects,
    or the fetch succeeds, a spike is detected and the Alert write rejects,
    the detector catches the error and writes it to the console; the cycle
    ends there: the world is the one left by the Reading write plus that
    console line (no alert, no notification), and the request is answered
    201 with the created reading. *)
Theorem detection_failure_is_contained :
  forall env w req device e,
    ingests env w req device ->
    let doc := ingested req device env in
    (EnergyReading_find_error env = Some e
     \/ (EnergyReading_find_error env = None
         /\ spike_decision (recent (body_deviceId req) (with_reading w doc))
              (EnergyReading.power doc) = true
         /\ Alert_create_error env = Some e)) ->
    addEnergyReading req env w
    = (Ok (res_status_json 201 (Created doc)),
       with_line (with_reading w doc) ("Power spike check error: " ++ e)).
Proof.
  intros env w req device e Hin doc Hfail.
  rewrite (addEnergyReading_ingests env w req device Hin).
  fold doc. rewrite checkForPowerSpike_steps. cbv zeta.
  destruct Hfail as [Hfetch|(Hfetch & Hspike & Hwrite)]; rewrite Hfetch.
  - reflexivity.
  - cbn [EnergyReading.power doc ingested] in Hspike.
    rewrite Hspike, Hwrite. reflexivity.
Qed.

Lemma detection_failure_is_contained_witness :
  let env := history_fetch_down 1000 in
  let w := home [100; 100; 100; 100; 100] in
  let req := post "esp32_001" 2 100 in
  let device := {| Device.userId := 7%nat; Device.deviceId := "esp32_001" |} in
  addEnergyReading req env w
  = (Ok (res_status_json 201 (Created (ingested req device env))),
     with_line (with_reading w (ingested req device env))
       "Power spike check error: storage unavailable").
Proof.
  intros env w req device.
  apply (detection_failure_is_contained env w req device "storage unavailable").
  - repeat split; reflexivity.
  - left. reflexivity.
Defined.

(** A failure of the owner lookup, after the alert has been written, is
    caught the same way: the alert stays, nothing is sent. *)
Lemma owner_lookup_failure_is_contained env w req device e :
  ingests env w req device ->
  let doc := ingested req device env in
  let window := recent (body_deviceId req) (with_reading w doc) in
  EnergyReading_find_error env = None ->
  spike_decision window (EnergyReading.power doc) = true ->
  Alert_create_error env = None ->
  User_findById_error env = Some e ->
  addEnergyReading req env w
  = (Ok (res_status_json 201 (Created doc)),
     with_line
       (with_alert (with_reading w doc)
          (spike_alert (body_deviceId req) (Device.userId device) window
             (EnergyReading.power doc)))
       ("Power spike check error: " ++ e)).
Proof.
  intros Hin doc window Hfetch Hspike Hwrite Huser.
  rewrite (addEnergyReading_ingests env w req device Hin).
  fold doc. rewrite checkForPowerSpike_steps. cbv zeta. fold window.
  cbn [EnergyReading.power doc ingested] in Hspike.
  rewrite Hfetch, Hspike, Hwrite, Huser. reflexivity.
Qed.

(** C5.  In a cycle in which the alert has been written and the call to the
    notification service rejects, the rejection is caught and logged: the
    detector returns normally, the request is answered 201 with the created
    reading, and the alert is in the store.  More generally, whatever else
    happens, a rejecting notification service changes neither the answer
    nor the readings, the alerts or the calls made to the service, compared
    with one that delivers. *)
Theorem delivery_failure_is_swallowed :
  (forall env w req device user e,
     ingests env w req device ->
     let doc := ingested req device env in
     let window := recent (body_deviceId req) (with_reading w doc) in
     let alert := spike_alert (body_deviceId req) (Device.userId device) window
                    (EnergyReading.power doc) in
     EnergyReading_find_error env = None ->
     spike_decision window (EnergyReading.power doc) = true ->
     Alert_create_error env = None ->
     User_findById_error env = None ->
     find (fun u => Nat.eqb (User._id u) (Device.userId device)) (users w)
     = Some user ->
     JS.truthy (User.email user) || JS.truthy (User.fcmToken user) = true ->
     sendEnergyAlert_error env = Some e ->
     fst (checkForPowerSpike (body_deviceId req) (EnergyReading.power doc)
            (Device.userId device) env (with_reading w doc)) = Ok tt
     /\ addEnergyReading req env w
        = (Ok (res_status_json 201 (Created doc)),
           with_line
             (with_notification (with_alert (with_reading w doc) alert)
                (spike_notification (body_deviceId req) user window
                   (EnergyReading.power doc)))
             ("Error sending power spike notification: " ++ e))
     /\ In alert (alerts (snd (addEnergyReading req env w))))
  /\ (forall env w req,
        let failing := addEnergyReading req env w in
        let delivered := addEnergyReading req (delivering env) w in
        fst failing = fst delivered
        /\ readings (snd failing) = readings (snd delivered)
        /\ alerts (snd failing) = alerts (snd delivered)
        /\ outbox (snd failing) = outbox (snd delivered)).
Proof.
  split.
  - intros env w req device user e Hin doc window alert
      Hfetch Hspike Hwrite Huser Hfound Hcontact Hsend.
    split; [apply checkForPowerSpike_returns|].
    assert (addEnergyReading req env w
            = (Ok (res_status_json 201 (Created doc)),
               with_line
                 (with_notification (with_alert (with_reading w doc) alert)
                    (spike_notification (body_deviceId req) user window
                       (EnergyReading.power doc)))
                 ("Error sending power spike notification: " ++ e))) as Hrun.
    { rewrite (addEnergyReading_ingests env w req device Hin).
      fold doc. rewrite checkForPowerSpike_steps. cbv zeta. fold window.
      cbn [EnergyReading.power doc ingested] in Hspike.
      rewrite Hfetch, Hspike, Hwrite, Huser.
      cbn [users with_reading]. rewrite Hfound, Hcontact, Hsend. reflexivity. }
    split; [exact Hrun|].
    rewrite Hrun. cbn. apply in_or_app. right. now left.
  - intros env w req. cbv zeta.
    rewrite !addEnergyReading_steps.
    change (Device_findOne_error (delivering env)) with (Device_findOne_error env).
    change (EnergyReading_create_error (delivering env))
      with (EnergyReading_create_error env).
    destruct (validation req); [|repeat split; reflexivity].
    destruct (Device_findOne_error env); [repeat split; reflexivity|].
    destruct (find _ (devices w)) as [device|]; [|repeat split; reflexivity].
    destruct (EnergyReading_create_error env); [repeat split; reflexivity|].
    rewrite !checkForPowerSpike_steps.
    change (ingested req device (delivering env)) with (ingested req device env).
    change (EnergyReading_find_error (delivering env))
      with (EnergyReading_find_error env).
    change (Alert_create_error (delivering env)) with (Alert_create_error env).
    change (User_findById_error (delivering env)) with (User_findById_error env).
    change (sendEnergyAlert_error (delivering env)) with (@None string).
    cbv zeta. cbn [fst].
    repeat (split_match; try (repeat split; reflexivity)).
Qed.

Lemma delivery_failure_is_swallowed_witness :
  let env := delivery_down 1000 in
  let w := home [100; 100; 100; 100; 100] in
  let req := post "esp32_001" 2 100 in
  let device := {| Device.userId := 7%nat; Device.deviceId := "esp32_001" |} in
  let doc := ingested req device env in
  let alert := spike_alert "esp32_001" 7%nat (recent "esp32_001" (with_reading w doc))
                 (EnergyReading.power doc) in
  fst (addEnergyReading req env w) = Ok (res_status_json 201 (Created doc))
  /\ In alert (alerts (snd (addEnergyReading req env w))).
Proof.
  intros env w req device doc alert.
  destruct (proj1 delivery_failure_is_swallowed env w req device
              {| User._id := 7%nat; User.email := Some "owner@example.com";
                 User.fcmToken := None |} "SMTP timeout") as (_ & Hrun & Halert).
  - repeat split; reflexivity.
  - reflexivity.
  - vm_compute. reflexivity.
  - reflexivity.
  - reflexivity.
  - reflexivity.
  - reflexivity.
  - reflexivity.
  - split; [rewrite Hrun; reflexivity | exact Halert].
Defined.

(* ===================================================================== *)
(** ** Unknown devices *)
(* ===================================================================== *)

(** C6 (as amended).  A request that passes validation and whose deviceId
    matches no registered device (the lookup itself succeeding) is answered
    404 and changes nothing: no reading, no alert, no notification, no
    console line. *)
Theorem unknown_device_not_found :
  forall env w req,
    validation req = [] ->
    Device_findOne_error env = None ->
    find (fun d => String.eqb (Device.deviceId d) (body_deviceId req)) (devices w)
    = None ->
    addEnergyReading req env w
    = (Ok (res_status_json 404 (Failure "Device not found")), w).
Proof.
  intros env w req Hval Hdev Hfind.
  unfold addEnergyReading, Device_findOne. rewrite Hval. unfold_async.
  rewrite Hdev, Hfind. reflexivity.
Qed.

Lemma unknown_device_not_found_witness :
  addEnergyReading (post "ghost" 2 100) (calm 1000) (home [100; 100; 100; 100; 100])
  = (Ok (res_status_json 404 (Failure "Device not found")),
     home [100; 100; 100; 100; 100]).
Proof.
  apply unknown_device_not_found; reflexivity.
Defined.

(** C6 as stated fails: validation comes first, so a malformed request for
    an unregistered device is answered 400, not 404. *)
Lemma unknown_device_malformed_request :
  find (fun d => String.eqb (Device.deviceId d) (body_deviceId malformed_post))
    (devices (home [])) = None
  /\ status_of (addEnergyReading malformed_post (calm 1000) (home [])) = Some 400%Z.
Proof. split; reflexivity. Qed.

(* ===================================================================== *)
(** ** A zero baseline *)
(* ===================================================================== *)











(* ===================================================================== *)
(** ** The alert message *)
(* ===================================================================== *)

Section Decimals.

Lemma uint_chars_digits d : forallb JS.is_digit (JS.uint_chars d) = true.
Proof. induction d; simpl; auto. Qed.

Lemma uint_chars_nonnil d : d <> Decimal.Nil -> JS.uint_chars d <> [].
Proof. destruct d; simpl; congruence. Qed.

Lemma decimal_digits n : forallb JS.is_digit (JS.decimal n) = true.
Proof. apply uint_chars_digits. Qed.

Lemma decimal_nonnil n : JS.decimal n <> [].
Proof.
  unfold JS.decimal. apply uint_chars_nonnil.
  destruct (Z.to_N n) as [|p]; simpl; [discriminate|].
  apply Unsigned.to_uint_nonnil.
Qed.

(** The digits [toFixed] splits: at least three, all decimal. *)
Lemma padded_digits n :
  let m := JS.decimal n in
  let m' := if (List.length m <=? 2)%nat
            then repeat "0"%char (3 - List.length m) ++ m else m in
  forallb JS.is_digit m' = true /\ (3 <= List.length m')%nat.
Proof.
  cbv zeta. pose proof (decimal_digits n) as Hd.
  destruct (Nat.leb_spec (List.length (JS.decimal n)) 2) as [Hle|Hgt].
  - split.
    + rewrite forallb_app, Hd, andb_true_r.
      apply forallb_forall. intros c Hc. apply repeat_spec in Hc. now subst c.
    + rewrite length_app, repeat_length. lia.
  - split; [assumption | lia].
Qed.

Lemma split_last_two {A} (l : list A) :
  (3 <= List.length l)%nat ->
  exists d1 d2,
    skipn (List.length l - 2) l = [d1; d2]
    /\ firstn (List.length l - 2) l <> [].
Proof.
  intros Hlen.
  pose proof (length_skipn (List.length l - 2) l) as Hs.
  pose proof (length_firstn (List.length l - 2) l) as Hf.
  destruct (skipn (List.length l - 2) l) as [|d1 [|d2 [|d3 t]]] eqn:E;
    cbn [List.length] in Hs; try lia.
  exists d1, d2. split; [reflexivity|].
  destruct (firstn (List.length l - 2) l); cbn [List.length] in Hf;
    [lia | discriminate].
Qed.

Lemma fixed_notation_shape n :
  JS.unsigned_fixed2 (JS.fixed_notation n) = true
  /\ exists c l, JS.fixed_notation n = c :: l /\ JS.is_digit c = true.
Proof.
  unfold JS.fixed_notation. cbv zeta.
  destruct (padded_digits n) as [Hdigits Hlen]. cbv zeta in Hdigits, Hlen.
  set (m := if (List.length (JS.decimal n) <=? 2)%nat
            then repeat "0"%char (3 - List.length (JS.decimal n)) ++ JS.decimal n
            else JS.decimal n) in *.
  destruct (split_last_two m Hlen) as (d1 & d2 & Hskip & Hfirst).
  rewrite Hskip.
  assert (forall c, In c m -> JS.is_digit c = true) as Hall
      by (now apply forallb_forall).
  assert (In d1 m /\ In d2 m) as [H1 H2].
  { rewrite <- (firstn_skipn (List.length m - 2) m), Hskip.
    split; apply in_or_app; right; simpl; auto. }
  split.
  - unfold JS.unsigned_fixed2. rewrite rev_app_distr. cbn [rev app].
    rewrite (Hall d1 H1), (Hall d2 H2). cbn [andb].
    rewrite length_rev.
    destruct (firstn (List.length m - 2) m) as [|c l] eqn:E; [congruence|].
    cbn [List.length Nat.eqb negb andb].
    apply forallb_forall. intros x Hx. apply in_rev in Hx.
    apply Hall. apply (In_firstn x (List.length m - 2)). now rewrite E.
  - destruct (firstn (List.length m - 2) m) as [|c l] eqn:E; [congruence|].
    exists c, (l ++ "."%char :: [d1; d2]). split; [reflexivity|].
    apply Hall. apply (In_firstn c (List.length m - 2)). rewrite E. now left.
Qed.

(** Below 10^21, [toFixed(2)] yields digits, a point and exactly two
    digits. *)
Lemma toFixed2_two_decimals x :
  below_1e21 x = true -> JS.two_decimals (JS.toFixed2 x) = true.
Proof.
  unfold below_1e21, JS.toFixed2.
  destruct (Prim2SF x) as [s|s| |s m e]; try discriminate.
  - intros _. vm_compute. reflexivity.
  - intros H. apply negb_true_iff in H. rewrite H.
    destruct (fixed_notation_shape (JS.nearest_hundredths (JS.num m e) (JS.den e)))
      as [Hshape (c & l & Hcl & Hc)].
    unfold JS.two_decimals. rewrite list_ascii_of_string_of_list_ascii.
    destruct s; cbn [app]; [exact Hshape|].
    rewrite Hcl in *.
    destruct c as [[] [] [] [] [] [] [] []]; try exact Hshape; discriminate.
Qed.

(** The integer [toFixed] prints is a nearest one to a hundred times the
    value: it is off by at most a half. *)
Lemma nearest_hundredths_spec nu de :
  (0 < de)%Z ->
  let n := JS.nearest_hundredths nu de in
  (- de <= 2 * (100 * nu - n * de) < de)%Z.
Proof.
  intros Hde n. unfold n, JS.nearest_hundredths.
  pose proof (Z.div_mod (200 * nu + de) (2 * de) ltac:(lia)) as Hdm.
  pose proof (Z.mod_pos_bound (200 * nu + de) (2 * de) ltac:(lia)) as Hb.
  nia.
Qed.

End Decimals.

Lemma spike_alert_format d uid window cp : spike_format (spike_alert d uid window cp).
Proof.
  unfold spike_format, spike_alert. cbv zeta.
  cbn [Alert.alertType Alert.severity Alert.message Alert.metadata
         currentPower averagePower].
  repeat split; try reflexivity; apply toFixed2_two_decimals.
Qed.

(** C8 (as amended).  Every alert written on the spike path has kind
    power_spike, severity "high" whatever the input, and a message that
    embeds [currentPower.toFixed(2)] and [averagePower.toFixed(2)]; each of
    the two is formatted with exactly two decimal places when the value is
    of magnitude below 10^21. *)
Theorem spike_alert_wording :
  forall env w req,
    exists new,
      alerts (snd (addEnergyReading req env w)) = alerts w ++ new
      /\ forall a, In a new -> spike_format a.
Proof.
  intros env w req.
  destruct (addEnergyReading_alerts_cases req env w) as [H|(device & _ & H)].
  { exists []. rewrite app_nil_r. split; [assumption|]. intros a []. }
  pose proof (checkForPowerSpike_effects (body_deviceId req)
                (body_current req * body_voltage req) (Device.userId device)
                env (with_reading w (ingested req device env))) as Heff.
  cbv zeta in Heff. destruct Heff as (_ & _ & _ & [Hsame|(_ & _ & _ & Hnew)]).
  - exists []. rewrite app_nil_r. split; [now rewrite H|]. intros a [].
  - eexists. split; [rewrite H; exact Hnew|].
    intros a [<-|[]]. apply spike_alert_format.
Qed.

Lemma spike_alert_wording_witness :
  exists a,
    alerts (snd (addEnergyReading (post "esp32_001" 2 100) (calm 1000)
                   (home [100; 100; 100; 100; 100]))) = [a]
    /\ Alert.message a
       = "Power spike detected! Current power: 200.00W is 50% above average: 116.67W"
    /\ JS.two_decimals (JS.toFixed2 (currentPower (Alert.metadata a))) = true
    /\ JS.two_decimals (JS.toFixed2 (averagePower (Alert.metadata a))) = true.
Proof.
  destruct (spike_alert_wording (calm 1000) (home [100; 100; 100; 100; 100])
              (post "esp32_001" 2 100)) as (new & Hnew & Hformat).
  vm_compute in Hnew.
  destruct new as [|a [|b new]]; try discriminate Hnew.
  exists a. split; [vm_compute; exact Hnew|].
  injection Hnew as Ha.
  destruct (Hformat a (or_introl eq_refl)) as (_ & _ & Hmsg & Hcp & Havg).
  subst a. split; [reflexivity|]. split; [apply Hcp | apply Havg]; reflexivity.
Defined.

(** C8 as stated fails: from 10^21 on, [toFixed] falls back on the exponent
    notation.  After four readings of power 0, a reading of 1e11 amperes at
    1e10 volts writes an alert whose message prints the current power as
    "1e+21", with no decimal places. *)
Lemma huge_power_not_two_decimals :
  exists a,
    alerts (snd (addEnergyReading (post "esp32_001" 1e11 1e10) (calm 1000)
                   (home [0; 0; 0; 0]))) = [a]
    /\ Alert.message a
       = "Power spike detected! Current power: 1e+21W is 50% above average: 200000000000000000000.00W"
    /\ JS.toFixed2 (currentPower (Alert.metadata a)) = "1e+21"
    /\ JS.two_decimals (JS.toFixed2 (currentPower (Alert.metadata a))) = false.
Proof.
  eexists. split; [vm_compute; reflexivity|].
  repeat split; vm_compute; reflexivity.
Qed.

(* ===================================================================== *)
(** ** The decision is a function of the window *)
(* ===================================================================== *)

Lemma recent_unchanged d w w' :
  readings w' = readings w -> recent d w' = recent d w.
Proof. intros H. unfold recent, newest_first. now rewrite H. Qed.

Lemma checkForPowerSpike_alerts d cp uid env w :
  EnergyReading_find_error env = None ->
  Alert_create_error env = None ->
  alerts (snd (checkForPowerSpike d cp uid env w))
  = if spike_decision (recent d w) cp
    then alerts w ++ [spike_alert d uid (recent d w) cp]
    else alerts w.
Proof.
  intros Hfetch Hwrite.
  rewrite checkForPowerSpike_steps, Hfetch. cbv zeta. rewrite Hwrite.
  repeat (split_match; try reflexivity).
Qed.

Lemma snoc_neq {A} (l : list A) (a : A) : l ++ [a] <> l.
Proof.
  intros H. apply (f_equal (@List.length A)) in H.
  rewrite length_app in H. cbn in H. lia.
Qed.

(** C9.  Whether the detector writes an alert is decided by the fetched
    window and the current power alone, through [spike_decision]; a run of
    the detector leaves the readings, hence the window, as they were; so
    running it again with the same current power and no new reading takes
    the same decision: the second run writes an alert exactly when the
    first one did. *)
Theorem evaluation_is_repeatable :
  (forall env w d cp uid,
     EnergyReading_find_error env = None ->
     Alert_create_error env = None ->
     alerts (snd (checkForPowerSpike d cp uid env w))
     = if spike_decision (recent d w) cp
       then alerts w ++ [spike_alert d uid (recent d w) cp]
       else alerts w)
  /\ (forall env w d cp uid,
        let w1 := snd (checkForPowerSpike d cp uid env w) in
        recent d w1 = recent d w
        /\ spike_decision (recent d w1) cp = spike_decision (recent d w) cp)
  /\ (forall env env' w d cp uid,
        EnergyReading_find_error env = None ->
        Alert_create_error env = None ->
        EnergyReading_find_error env' = None ->
        Alert_create_error env' = None ->
        let w1 := snd (checkForPowerSpike d cp uid env w) in
        let w2 := snd (checkForPowerSpike d cp uid env' w1) in
        alerts w1 = alerts w <-> alerts w2 = alerts w1).
Proof.
  assert (forall env w d cp uid,
            recent d (snd (checkForPowerSpike d cp uid env w)) = recent d w)
    as Hwindow.
  { intros env w d cp uid. apply recent_unchanged.
    apply (checkForPowerSpike_effects d cp uid env w). }
  split; [intros; now apply checkForPowerSpike_alerts|]. split.
  - intros env w d cp uid w1. unfold w1. now rewrite Hwindow.
  - intros env env' w d cp uid Hf Ha Hf' Ha' w1 w2. unfold w2, w1.
    rewrite (checkForPowerSpike_alerts d cp uid env' _ Hf' Ha'), Hwindow.
    rewrite (checkForPowerSpike_alerts d cp uid env w Hf Ha).
    destruct (spike_decision (recent d w) cp).
    + split; intros H; exfalso; eapply snoc_neq; exact H.
    + tauto.
Qed.

Lemma evaluation_is_repeatable_witness :
  let w := home [100; 100; 100; 100; 100] in
  let w1 := snd (checkForPowerSpike "esp32_001" 200 7%nat (calm 1000) w) in
  let w2 := snd (checkForPowerSpike "esp32_001" 200 7%nat (calm 2000) w1) in
  alerts w1 = alerts w <-> alerts w2 = alerts w1.
Proof.
  intros w w1 w2.
  apply (proj2 (proj2 evaluation_is_repeatable) (calm 1000) (calm 2000) w
           "esp32_001" 200 7%nat); reflexivity.
Defined.

(* ===================================================================== *)
(** ** Whole numbers as doubles *)
(* ===================================================================== *)

Section WholeNumbers.

Local Open Scope Z_scope.

Lemma iter_pos_iter {A} (f : A -> A) p x : iter_pos f p x = Pos.iter f x p.
Proof.
  revert x. induction p as [p IH|p IH|]; intros x; cbn.
  - rewrite !IH. now rewrite <- !Pos.iter_swap.
  - now rewrite !IH.
  - reflexivity.
Qed.

Lemma shr_exact q k :
  iter_pos shr_1 k (Build_shr_record (Z.pos (Pos.iter xO q k)) false false)
  = Build_shr_record (Z.pos q) false false.
Proof.
  rewrite iter_pos_iter. induction k as [|k IH] using Pos.peano_ind.
  - reflexivity.
  - rewrite (Pos.iter_succ k _ xO), (Pos.iter_succ_r k _ shr_1). cbn [shr_1]. exact IH.
Qed.

Lemma digits_iter q k : digits2_pos (Pos.iter xO q k) = (digits2_pos q + k)%positive.
Proof.
  induction k as [|k IH] using Pos.peano_ind.
  - cbn. lia.
  - rewrite Pos.iter_succ. cbn. rewrite IH. lia.
Qed.

Lemma digits_shl q j : 0 <= j -> Z.pos (digits2_pos (shl q j)) = Z.pos (digits2_pos q) + j.
Proof.
  destruct j as [|p|p]; cbn [shl]; intros H; [lia| |lia]. rewrite digits_iter. lia.
Qed.

Lemma shl_value q j : 0 <= j -> Z.pos (shl q j) = Z.pos q * 2 ^ j.
Proof.
  destruct j as [|p|p]; cbn [shl]; intros H; [lia| |lia]. clear H.
  induction p as [|p IH] using Pos.peano_ind.
  - cbn [Pos.iter]. change (2 ^ 1) with 2. lia.
  - rewrite Pos.iter_succ, Pos2Z.inj_succ, Z.pow_succ_r by lia.
    rewrite Pos2Z.inj_xO, IH. ring.
Qed.

Lemma shl_shl q j t : 0 <= t -> 0 <= j -> shl (shl q j) t = shl q (j + t).
Proof.
  intros Ht Hj. apply Pos2Z.inj. rewrite !shl_value by lia.
  rewrite Z.pow_add_r by lia. ring.
Qed.

Lemma digits_size q : digits2_pos q = Pos.size q.
Proof. induction q; cbn; congruence. Qed.

Lemma digits_upper q : Z.pos q < 2 ^ Z.pos (digits2_pos q).
Proof.
  rewrite digits_size. pose proof (Pos.size_gt q) as H.
  apply Pos2Z.pos_lt_pos in H. rewrite Pos2Z.inj_pow in H. exact H.
Qed.

Lemma digits_lower q : 2 ^ Z.pos (digits2_pos q) <= 2 * Z.pos q.
Proof.
  rewrite digits_size. pose proof (Pos.size_le q) as H.
  apply Pos2Z.pos_le_pos in H. rewrite Pos2Z.inj_pow in H. exact H.
Qed.

Lemma digits_bound q n : 0 <= n -> Z.pos q < 2 ^ n -> Z.pos (digits2_pos q) <= n.
Proof.
  intros Hn H. pose proof (digits_lower q) as Hl.
  assert (Hlt : 2 ^ Z.pos (digits2_pos q) < 2 ^ (n + 1)).
  { rewrite Z.pow_add_r by lia. lia. }
  apply Z.pow_lt_mono_r_iff in Hlt; lia.
Qed.

(** Rounding a value that needs none: a mantissa [q * 2^j] carrying [t <= j]
    digits too many loses [t] zeros. *)
Lemma binary_round_aux_exact s q j e :
  let t := fexp prec emax (Z.pos (digits2_pos q) + j + e) - e in
  0 <= t <= j ->
  e + t <= emax - prec ->
  binary_round_aux prec emax s (Z.pos (shl q j)) e loc_Exact
  = S754_finite s (shl q (j - t)) (e + t).
Proof.
  intros t [Ht Hj] He. unfold binary_round_aux, shr_fexp.
  cbn [Zdigits2 shr_record_of_loc]. rewrite digits_shl by lia. fold t.
  assert (Hq : shl q j = shl (shl q (j - t)) t).
  { rewrite shl_shl by lia. f_equal. lia. }
  assert (Hfirst : shr (Build_shr_record (Z.pos (shl q j)) false false) e t
                   = (Build_shr_record (Z.pos (shl q (j - t))) false false, e + t)).
  { destruct t as [|p|p] eqn:Et; cbn [shr].
    - now rewrite Z.sub_0_r, Z.add_0_r.
    - rewrite Hq. cbn [shl]. now rewrite shr_exact.
    - lia. }
  rewrite Hfirst. cbn [shr_m loc_of_shr_record round_nearest_even Zdigits2 shr_record_of_loc].
  rewrite digits_shl by lia.
  replace (Z.pos (digits2_pos q) + (j - t) + (e + t)) with (Z.pos (digits2_pos q) + j + e) by lia.
  replace (fexp prec emax (Z.pos (digits2_pos q) + j + e) - (e + t)) with 0 by (unfold t; lia).
  cbn [shr shr_m]. destruct (Z.leb_spec (e + t) (emax - prec)); [reflexivity | lia].
Qed.

Lemma fexp_small d : 1 <= d <= 1024 -> fexp prec emax d = d - 53.
Proof. unfold fexp, FloatOps.emin, SpecFloat.emin, prec, emax. lia. Qed.

Lemma binary_round_whole s q :
  Z.pos (digits2_pos q) <= 53 ->
  binary_round prec emax s q 0 = whole s q.
Proof.
  intros Hd. unfold binary_round, whole.
  set (d := Z.pos (digits2_pos q)) in *.
  rewrite Z.add_0_r, fexp_small by (unfold d; lia).
  assert (Halign : shl_align q 0 (d - 53) = (shl q (53 - d), d - 53)).
  { unfold shl_align. rewrite Z.sub_0_r.
    destruct (d - 53) as [|p|p] eqn:E; [|lia|].
    - replace (53 - d) with 0 by lia. reflexivity.
    - replace (53 - d) with (Z.pos p) by lia. reflexivity. }
  rewrite Halign.
  rewrite (binary_round_aux_exact s q (53 - d) (d - 53)); fold d.
  - f_equal; [f_equal|]; rewrite fexp_small; lia.
  - rewrite fexp_small; lia.
  - rewrite fexp_small; unfold emax, prec; lia.
Qed.

Lemma whole_valid s q :
  Z.pos (digits2_pos q) <= 53 -> valid_binary (whole s q) = true.
Proof.
  intros Hd. unfold whole, valid_binary, bounded, canonical_mantissa.
  rewrite digits_shl by lia.
  apply andb_true_intro; split.
  - apply Z.eqb_eq. unfold FloatOps.prec, FloatOps.emax.
    change (SpecFloat.fexp 53 1024) with (fexp prec emax). rewrite fexp_small; lia.
  - apply Z.leb_le. unfold FloatOps.emax, FloatOps.prec. lia.
Qed.

Lemma of_integer_whole q :
  Z.pos q < 2 ^ 53 -> Prim2SF (JS.of_integer (Z.pos q)) = whole false q.
Proof.
  intros H. apply digits_bound in H; [|lia].
  unfold JS.of_integer. cbn [binary_normalize].
  rewrite binary_round_whole by exact H.
  apply Prim2SF_SF2Prim, whole_valid, H.
Qed.

Lemma digits_mul a b :
  Z.pos (digits2_pos a) + Z.pos (digits2_pos b) - 1 <= Z.pos (digits2_pos (a * b)).
Proof.
  pose proof (digits_lower a) as Ha. pose proof (digits_lower b) as Hb.
  pose proof (digits_upper (a * b)) as Hab. rewrite Pos2Z.inj_mul in Hab.
  set (da := Z.pos (digits2_pos a)) in *. set (db := Z.pos (digits2_pos b)) in *.
  set (dab := Z.pos (digits2_pos (a * b))) in *.
  assert (H : 2 ^ (da + db) < 2 ^ (dab + 2)).
  { rewrite !Z.pow_add_r by (unfold da, db, dab; lia). change (2 ^ 2) with 4.
    assert (0 < 2 ^ da) by (apply Z.pow_pos_nonneg; unfold da; lia).
    assert (0 < 2 ^ db) by (apply Z.pow_pos_nonneg; unfold db; lia).
    nia. }
  apply Z.pow_lt_mono_r_iff in H; unfold dab in *; lia.
Qed.

Lemma mul_whole a b :
  Z.pos (a * b) < 2 ^ 53 ->
  SFmul prec emax (whole false a) (whole false b) = whole false (a * b).
Proof.
  intros H. pose proof (digits_bound _ 53 ltac:(lia) H) as Hdab.
  pose proof (digits_mul a b) as Hmul.
  assert (Ha : Z.pos (digits2_pos a) <= 53).
  { apply digits_bound; [lia|]. nia. }
  assert (Hb : Z.pos (digits2_pos b) <= 53).
  { apply digits_bound; [lia|]. nia. }
  unfold whole at 1 2. cbn [SFmul xorb].
  set (da := Z.pos (digits2_pos a)) in *. set (db := Z.pos (digits2_pos b)) in *.
  set (dab := Z.pos (digits2_pos (a * b))) in *.
  assert (Hprod : (shl a (53 - da) * shl b (53 - db))%positive
                  = shl (a * b) (106 - da - db)).
  { apply Pos2Z.inj. rewrite Pos2Z.inj_mul, !shl_value by lia.
    rewrite Pos2Z.inj_mul.
    replace (106 - da - db) with ((53 - da) + (53 - db)) by lia.
    rewrite Z.pow_add_r by lia. ring. }
  rewrite Hprod.
  rewrite (binary_round_aux_exact false (a * b) (106 - da - db) (da - 53 + (db - 53)));
    fold dab.
  - unfold whole. fold dab. f_equal; [f_equal|]; rewrite fexp_small; lia.
  - rewrite fexp_small; lia.
  - rewrite fexp_small; unfold emax, prec; lia.
Qed.


Lemma of_integer_repr n : 0 <= n < 2 ^ 53 -> Prim2SF (JS.of_integer n) = repr n.
Proof.
  intros [H0 H]. destruct n as [|q|q]; [reflexivity| |lia].
  now apply of_integer_whole.
Qed.

Lemma sub_whole_one p :
  Z.pos p < 2 ^ 53 ->
  SFsub prec emax (whole false p) (whole false 1) = repr (Z.pos p - 1).
Proof.
  intros H. apply digits_bound in H; [|lia].
  unfold whole at 1 2. cbn [SFsub cond_Zopp digits2_pos].
  set (d := Z.pos (digits2_pos p)) in *.
  assert (Hd : 1 <= d) by (unfold d; lia).
  replace (Z.min (d - 53) (1 - 53)) with (-52) by lia.
  assert (Hp : fst (shl_align (shl p (53 - d)) (d - 53) (-52)) = shl p 52).
  { unfold shl_align. destruct (-52 - (d - 53)) as [|k|k] eqn:E; cbn [fst].
    - f_equal. lia.
    - lia.
    - change (Pos.iter xO (shl p (53 - d)) k) with (shl (shl p (53 - d)) (Z.pos k)).
      rewrite shl_shl by lia. f_equal. lia. }
  rewrite Hp. change (fst (shl_align (shl 1 (53 - 1)) (1 - 53) (-52))) with (shl 1 52).
  rewrite !shl_value by lia.
  replace (Z.pos p * 2 ^ 52 - 1 * 2 ^ 52) with ((Z.pos p - 1) * 2 ^ 52) by ring.
  destruct (Z.pos p - 1) as [|q|q] eqn:Eq; [reflexivity| |lia].
  rewrite <- shl_value by lia. cbn [binary_normalize]. unfold binary_round.
  assert (Hq : Z.pos (digits2_pos q) <= 53).
  { apply digits_bound; [lia|]. pose proof (digits_upper p) as Hu. fold d in Hu.
    assert (2 ^ d <= 2 ^ 53) by (apply Z.pow_le_mono_r; lia). lia. }
  set (dq := Z.pos (digits2_pos q)) in *.
  assert (Hdq : 1 <= dq) by (unfold dq; lia).
  rewrite digits_shl by lia. fold dq.
  replace (dq + 52 + -52) with dq by lia. rewrite fexp_small by lia.
  assert (Halign : shl_align (shl q 52) (-52) (dq - 53) = (shl q 52, -52)).
  { unfold shl_align. destruct (dq - 53 - -52) eqn:E; [reflexivity|reflexivity|lia]. }
  rewrite Halign.
  rewrite (binary_round_aux_exact false q 52 (-52)); fold dq.
  - cbn [repr]. unfold whole. fold dq.
    replace (dq + 52 + -52) with dq by lia. rewrite fexp_small by lia.
    f_equal; [f_equal|]; lia.
  - replace (dq + 52 + -52) with dq by lia. rewrite fexp_small; lia.
  - replace (dq + 52 + -52) with dq by lia. rewrite fexp_small; unfold emax, prec; lia.
Qed.

Lemma safeNumberLong_repr x n :
  Prim2SF x = repr n -> 0 <= n < 2 ^ 53 -> safeNumberLong x = n.
Proof.
  intros Hx [H0 H]. unfold safeNumberLong. rewrite Hx.
  destruct n as [|q|q]; [reflexivity| |lia]. cbn [repr]. unfold whole.
  pose proof (digits_bound q 53 ltac:(lia) H) as Hd.
  set (d := Z.pos (digits2_pos q)) in *.
  assert (Hd1 : 1 <= d) by (unfold d; lia).
  rewrite shl_value by lia.
  assert (Hmag : (if 0 <=? d - 53
                  then Z.pos q * 2 ^ (53 - d) * 2 ^ (d - 53)
                  else Z.pos q * 2 ^ (53 - d) / 2 ^ (- (d - 53))) = Z.pos q).
  { destruct (Z.leb_spec 0 (d - 53)).
    - replace (53 - d) with 0 by lia. replace (d - 53) with 0 by lia. cbn. lia.
    - replace (- (d - 53)) with (53 - d) by lia.
      apply Z.div_mul. apply Z.pow_nonzero; lia. }
  cbv zeta. rewrite Hmag. assert (2 ^ 53 < 2 ^ 63) by (apply Z.pow_lt_mono_r; lia). lia.
Qed.

(** The numbers the listing asks the store for are exact below 2^53. *)
Lemma page_numbers_exact l p :
  1 <= l -> 1 <= p -> p * l < 2 ^ 53 ->
  safeNumberLong (JS.of_integer l) = l
  /\ safeNumberLong ((JS.of_integer p - 1) * JS.of_integer l)%float = (p - 1) * l.
Proof.
  intros Hl Hp Hpl.
  assert (Hl53 : 0 <= l < 2 ^ 53) by nia.
  assert (Hp53 : 0 <= p < 2 ^ 53) by nia.
  split.
  - apply safeNumberLong_repr; [now apply of_integer_repr | exact Hl53].
  - apply safeNumberLong_repr; [|nia].
    rewrite mul_spec, sub_spec, !of_integer_repr by assumption.
    change (Prim2SF 1) with (whole false 1).
    destruct p as [|p|p]; [lia| |lia]. destruct l as [|l|l]; [lia| |lia].
    cbn [repr]. rewrite sub_whole_one by lia.
    destruct (Z.pos p - 1) as [|q|q] eqn:Eq; [reflexivity| |lia].
    cbn [repr]. change (SF64mul (whole false q) (whole false l))
      with (SFmul prec emax (whole false q) (whole false l)).
    rewrite mul_whole; [reflexivity|]. rewrite Pos2Z.inj_mul. nia.
Qed.

(** So is what the store is asked for such a request. *)
Lemma asked_exact req :
  1 <= limit_of req -> 1 <= page_of req -> page_of req * limit_of req < 2 ^ 53 ->
  asked_limit req = limit_of req
  /\ asked_skip req = (page_of req - 1) * limit_of req.
Proof. apply page_numbers_exact. Qed.

End WholeNumbers.

(* ===================================================================== *)
(** ** Listing the readings of a device *)
(* ===================================================================== *)

Section Pages.

Variable R : EnergyReading.t -> EnergyReading.t -> Prop.

Lemma StronglySorted_skipn n (l : list EnergyReading.t) :
  StronglySorted R l -> StronglySorted R (skipn n l).
Proof.
  revert l. induction n as [|n IH]; intros l Hs; [exact Hs|].
  destruct l as [|r l]; [constructor|]. simpl.
  apply IH. now inversion Hs.
Qed.

Lemma StronglySorted_firstn n (l : list EnergyReading.t) :
  StronglySorted R l -> StronglySorted R (firstn n l).
Proof.
  revert l. induction n as [|n IH]; intros l Hs; [constructor|].
  destruct l as [|r l]; [constructor|]. simpl.
  inversion Hs as [|? ? Hl Hall]; subst.
  constructor; [now apply IH|].
  apply Forall_forall. intros x Hx. apply In_firstn in Hx.
  rewrite Forall_forall in Hall. now apply Hall.
Qed.

End Pages.

Lemma In_skipn {A} (x : A) n (l : list A) : In x (skipn n l) -> In x l.
Proof.
  intros H. rewrite <- (firstn_skipn n l). apply in_or_app. now right.
Qed.

(** What [getEnergyReadings] does, step by step. *)
Lemma getEnergyReadings_steps req env w :
  getEnergyReadings req env w =
  let skip := asked_skip req in
  let rs := mongo_limit (asked_limit req)
              (skipn (Z.to_nat skip) (newest_first (params_deviceId req) w)) in
  match EnergyReading_find_error env with
  | Some e =>
      (Ok (res_status_json 500 (Failure "Server error")),
       with_line w ("Get energy readings error: " ++ e))
  | None =>
      if (skip <? 0)%Z
      then (Ok (res_status_json 500 (Failure "Server error")),
            with_line w "Get energy readings error: Skip value must be non-negative")
      else
        match EnergyReading_countDocuments_error env with
        | Some e =>
            (Ok (res_status_json 500 (Failure "Server error")),
             with_line w ("Get energy readings error: " ++ e))
        | None =>
            (Ok (res_json
                   (Listing (List.length rs)
                      (List.length (of_device (params_deviceId req) (readings w)))
                      rs)), w)
        end
  end.
Proof.
  unfold getEnergyReadings, EnergyReading_find_numbers, EnergyReading_find,
    EnergyReading_countDocuments.
  fold (limit_of req). fold (page_of req). cbv zeta.
  fold (asked_limit req). fold (asked_skip req). unfold_async.
  fold (newest_first (params_deviceId req) w).
  destruct (EnergyReading_find_error env); [reflexivity|].
  destruct (asked_skip req <? 0)%Z; [reflexivity|].
  destruct (EnergyReading_countDocuments_error env); reflexivity.
Qed.

(** C10 (as amended).  For a limit and a page of at least 1 (100 and 1
    when absent) whose product is below 2^53, so that the numbers the
    endpoint computes are exact, and when the store answers, the endpoint
    answers 200 with the readings of the device ordered newest first,
    without the first (page-1)*limit of them and cut at limit; count is the
    number of readings returned, at most limit, and total the number of
    stored readings of the device. *)
Theorem reading_list_page :
  forall env w req,
    EnergyReading_find_error env = None ->
    EnergyReading_countDocuments_error env = None ->
    (1 <= limit_of req)%Z ->
    (1 <= page_of req)%Z ->
    (page_of req * limit_of req < 2 ^ 53)%Z ->
    let page := page_of_readings req w in
    getEnergyReadings req env w
    = (Ok (res_json
             (Listing (List.length page)
                (List.length (of_device (params_deviceId req) (readings w)))
                page)), w)
    /\ (Z.of_nat (List.length page) <= limit_of req)%Z
    /\ StronglySorted newer_or_equal page
    /\ Forall (fun r => EnergyReading.deviceId r = params_deviceId req) page.
Proof.
  intros env w req Hfetch Hcount Hlimit Hpage Hbound page. split; [|split; [|split]].
  - rewrite getEnergyReadings_steps. cbv zeta. rewrite Hfetch, Hcount.
    destruct (asked_exact req Hlimit Hpage Hbound) as [-> ->].
    destruct (Z.ltb_spec ((page_of req - 1) * limit_of req) 0) as [Hneg|_]; [nia|].
    unfold mongo_limit.
    destruct (Z.eqb_spec (limit_of req) 0) as [Hzero|_]; [lia|].
    replace (Z.abs_nat (limit_of req)) with (Z.to_nat (limit_of req)) by lia.
    reflexivity.
  - unfold page, page_of_readings. rewrite length_firstn. lia.
  - unfold page, page_of_readings.
    apply StronglySorted_firstn, StronglySorted_skipn, sort_newest_first_sorted.
  - apply Forall_forall. intros r Hr. unfold page, page_of_readings in Hr.
    apply In_firstn, In_skipn in Hr. unfold newest_first in Hr.
    apply (proj1 (sort_newest_first_In _ _)) in Hr.
    now apply of_device_In in Hr.
Qed.

Lemma reading_list_page_witness :
  getEnergyReadings second_page (calm 1000) (home [1; 2; 3; 4; 5])
  = (Ok (res_json
           (Listing 2 5 [sample "esp32_001" 7%nat 3 3%Z; sample "esp32_001" 7%nat 2 2%Z])),
     home [1; 2; 3; 4; 5]).
Proof.
  destruct (reading_list_page (calm 1000) (home [1; 2; 3; 4; 5]) second_page)
    as [Hrun _].
  - reflexivity.
  - reflexivity.
  - vm_compute. discriminate.
  - vm_compute. discriminate.
  - vm_compute. reflexivity.
  - rewrite Hrun. reflexivity.
Defined.

(** C10 as stated fails for a limit of zero, which the store reads as "no
    limit" (three readings are returned, more than the limit), and for page
    zero, whose negative skip the store rejects (the answer is 500). *)
Lemma reading_list_zero_limit_or_page :
  (exists rs,
     fst (getEnergyReadings no_limit (calm 1000) (home [1; 2; 3]))
     = Ok (res_json (Listing 3 3 rs))
     /\ (Z.of_nat (List.length rs) > limit_of no_limit)%Z)
  /\ fst (getEnergyReadings page_zero (calm 1000) (home [1; 2; 3]))
     = Ok (res_status_json 500 (Failure "Server error")).
Proof.
  split; [eexists; split; [vm_compute; reflexivity | vm_compute; reflexivity]|].
  vm_compute. reflexivity.
Qed.

(* ===================================================================== *)
(** ** Rejected requests *)
(* ===================================================================== *)

(** Walk through the guards of [addEnergyReading] and the steps of the
    detection cycle it runs. *)
Ltac walk_ingestion :=
  rewrite addEnergyReading_steps;
  repeat (split_match; try rewrite checkForPowerSpike_steps; cbv zeta).

(** X1.  A request that fails validation is answered 400 with the errors of
    the validation chain, before anything else happens: no lookup, nothing
    written, nothing logged, whatever the state of the collaborators. *)
Theorem validation_failure_rejected :
  forall env w req,
    validation req <> [] ->
    addEnergyReading req env w
    = (Ok (res_status_json 400 (ValidationFailed (validation req))), w).
Proof.
  intros env w req Hval. rewrite addEnergyReading_steps.
  destruct (validation req); [congruence | reflexivity].
Qed.

Lemma validation_failure_rejected_witness :
  addEnergyReading malformed_post (history_fetch_down 1000)
    (home [100; 100; 100; 100; 100])
  = (Ok (res_status_json 400 (ValidationFailed ["current is required"])),
     home [100; 100; 100; 100; 100]).
Proof.
  apply (validation_failure_rejected (history_fetch_down 1000)
           (home [100; 100; 100; 100; 100]) malformed_post).
  discriminate.
Defined.

(** X2.  When the device lookup rejects, or the device is found and the
    Reading write rejects, a valid request is answered 500 "Server error";
    the error message goes to the console and nothing is stored, alerted or
    sent. *)
Theorem ingestion_storage_failure :
  forall env w req e,
    validation req = [] ->
    (Device_findOne_error env = Some e
     \/ (Device_findOne_error env = None
         /\ find (fun d => String.eqb (Device.deviceId d) (body_deviceId req))
              (devices w) <> None
         /\ EnergyReading_create_error env = Some e)) ->
    addEnergyReading req env w
    = (Ok (res_status_json 500 (Failure "Server error")),
       with_line w ("Add energy reading error: " ++ e)).
Proof.
  intros env w req e Hval Hfail. rewrite addEnergyReading_steps, Hval.
  destruct Hfail as [Hdev|(Hdev & Hfound & Hcreate)]; rewrite Hdev;
    [reflexivity|].
  destruct (find _ (devices w)); [|congruence]. now rewrite Hcreate.
Qed.

Lemma ingestion_storage_failure_witness :
  addEnergyReading (post "esp32_001" 2 100) (registry_down 1000)
    (home [100; 100; 100; 100; 100])
  = (Ok (res_status_json 500 (Failure "Server error")),
     with_line (home [100; 100; 100; 100; 100])
       "Add energy reading error: connection lost").
Proof.
  apply (ingestion_storage_failure (registry_down 1000)
           (home [100; 100; 100; 100; 100]) (post "esp32_001" 2 100)
           "connection lost").
  - reflexivity.
  - left. reflexivity.
Defined.

(* ===================================================================== *)
(** ** What a request may change *)
(* ===================================================================== *)

(** X3.  [addEnergyReading] always answers, with one of the codes 201, 400,
    404 and 500, and it answers 201 exactly when the reading has been
    stored: with 201 the body is the created document, now the last of the
    collection; with any other code no reading, no alert and no
    notification call has been added. *)
Theorem created_iff_stored :
  forall env w req,
    exists resp,
      fst (addEnergyReading req env w) = Ok resp
      /\ In (status resp) add_statuses
      /\ ((status resp = 201%Z
           /\ exists device,
                ingests env w req device
                /\ body resp = Created (ingested req device env)
                /\ readings (snd (addEnergyReading req env w))
                   = readings w ++ [ingested req device env])
          \/ (status resp <> 201%Z
              /\ readings (snd (addEnergyReading req env w)) = readings w
              /\ alerts (snd (addEnergyReading req env w)) = alerts w
              /\ outbox (snd (addEnergyReading req env w)) = outbox w)).
Proof.
  intros env w req. rewrite addEnergyReading_steps.
  destruct (validation req) as [|v vs] eqn:Hval.
  2:{ eexists. split; [reflexivity|]. split; [cbn; tauto|].
      right. cbn. repeat split; try reflexivity. discriminate. }
  destruct (Device_findOne_error env) as [e|] eqn:Hdev.
  { eexists. split; [reflexivity|]. split; [cbn; tauto|].
    right. cbn. repeat split; try reflexivity. discriminate. }
  destruct (find _ (devices w)) as [device|] eqn:Hfound.
  2:{ eexists. split; [reflexivity|]. split; [cbn; tauto|].
      right. cbn. repeat split; try reflexivity. discriminate. }
  destruct (EnergyReading_create_error env) as [e|] eqn:Hcreate.
  { eexists. split; [reflexivity|]. split; [cbn; tauto|].
    right. cbn. repeat split; try reflexivity. discriminate. }
  eexists. split; [reflexivity|]. split; [cbn; tauto|].
  left. split; [reflexivity|]. exists device.
  split; [repeat split; assumption|]. split; [reflexivity|].
  cbn [snd].
  apply (checkForPowerSpike_effects (body_deviceId req)
           (body_current req * body_voltage req) (Device.userId device) env
           (with_reading w (ingested req device env))).
Qed.

(** X4.  The collections are append-only under [addEnergyReading]: the
    devices and the users are left as they were, and the readings, the
    alerts, the calls to the notification service and the console each keep
    what they held, with at most one reading, one alert and one call
    added. *)
Theorem ingestion_appends_only :
  forall env w req,
    let w' := snd (addEnergyReading req env w) in
    devices w' = devices w
    /\ users w' = users w
    /\ (exists rs, readings w' = readings w ++ rs /\ (List.length rs <= 1)%nat)
    /\ (exists als, alerts w' = alerts w ++ als /\ (List.length als <= 1)%nat)
    /\ (exists ns, outbox w' = outbox w ++ ns /\ (List.length ns <= 1)%nat)
    /\ (exists lines, console w' = console w ++ lines).
Proof.
  intros env w req. cbv zeta. walk_ingestion;
    cbn [snd devices users readings alerts outbox console
           with_reading with_alert with_notification with_line];
    (split; [reflexivity|]); (split; [reflexivity|]);
    repeat split;
    first [ exists []; rewrite app_nil_r; split; [reflexivity | cbn; lia]
          | eexists; split; [reflexivity | cbn; lia]
          | exists []; now rewrite app_nil_r
          | eexists; rewrite <- ?app_assoc; reflexivity ].
Qed.

(* ===================================================================== *)
(** ** Notifications *)
(* ===================================================================== *)

(** X5.  The notification service is called only for an alert written in
    the same request, and the call says what the alert says: same message,
    same figures, the device of the request, kind "Power Spike"; it goes to
    the e-mail address and push token of the user the alert belongs to, who
    has at least one of the two. *)
Theorem notification_matches_alert :
  forall env w req,
    let w' := snd (addEnergyReading req env w) in
    outbox w' = outbox w
    \/ exists a n user,
         alerts w' = alerts w ++ [a]
         /\ outbox w' = outbox w ++ [n]
         /\ Notification.message n = Alert.message a
         /\ Notification.energyData n = Alert.metadata a
         /\ Notification.deviceName n = body_deviceId req
         /\ Alert.deviceId a = body_deviceId req
         /\ Notification.alertType n = "Power Spike"
         /\ find (fun u => Nat.eqb (User._id u) (Alert.userId a)) (users w)
            = Some user
         /\ Notification.email n = User.email user
         /\ Notification.fcmToken n = User.fcmToken user
         /\ JS.truthy (User.email user) || JS.truthy (User.fcmToken user) = true.
Proof.
  intros env w req. cbv zeta. walk_ingestion;
    cbn [snd outbox alerts users with_reading with_alert with_notification
           with_line] in *;
    try (left; reflexivity);
    right; do 3 eexists;
    (split; [reflexivity|]); (split; [reflexivity|]);
    repeat split; eassumption.
Qed.

(** X6.  When a spike is detected and the alert written, but the owner of
    the device is unknown or has neither an e-mail address nor a push token,
    the alert stays and no call is made to the notification service; nothing
    is logged and the answer is 201. *)
Theorem no_contact_no_notification :
  forall env w req device,
    ingests env w req device ->
    let doc := ingested req device env in
    let window := recent (body_deviceId req) (with_reading w doc) in
    EnergyReading_find_error env = None ->
    spike_decision window (EnergyReading.power doc) = true ->
    Alert_create_error env = None ->
    User_findById_error env = None ->
    (forall user,
       find (fun u => Nat.eqb (User._id u) (Device.userId device)) (users w)
       = Some user ->
       JS.truthy (User.email user) || JS.truthy (User.fcmToken user) = false) ->
    addEnergyReading req env w
    = (Ok (res_status_json 201 (Created doc)),
       with_alert (with_reading w doc)
         (spike_alert (body_deviceId req) (Device.userId device) window
            (EnergyReading.power doc))).
Proof.
  intros env w req device Hin doc window Hfetch Hspike Hwrite Hlookup Hcontact.
  rewrite (addEnergyReading_ingests env w req device Hin).
  fold doc. rewrite checkForPowerSpike_steps. cbv zeta. fold window.
  cbn [EnergyReading.power doc ingested] in Hspike.
  rewrite Hfetch, Hspike, Hwrite, Hlookup. cbn [users with_reading].
  destruct (find _ (users w)) as [user|]; [|reflexivity].
  now rewrite (Hcontact user eq_refl).
Qed.

Lemma no_contact_no_notification_witness :
  let env := calm 1000 in
  let w := home_without_contact [100; 100; 100; 100; 100] in
  let req := post "esp32_001" 2 100 in
  let device := {| Device.userId := 7%nat; Device.deviceId := "esp32_001" |} in
  let doc := ingested req device env in
  outbox (snd (addEnergyReading req env w)) = []
  /\ alerts (snd (addEnergyReading req env w))
     = [spike_alert "esp32_001" 7%nat (recent "esp32_001" (with_reading w doc))
          (EnergyReading.power doc)].
Proof.
  intros env w req device doc.
  rewrite (no_contact_no_notification env w req device).
  - split; reflexivity.
  - repeat split; reflexivity.
  - reflexivity.
  - vm_compute. reflexivity.
  - reflexivity.
  - reflexivity.
  - intros user Huser. vm_compute in Huser. injection Huser as <-. reflexivity.
Defined.

(* ===================================================================== *)
(** ** Powers that are not numbers, or not finite *)
(* ===================================================================== *)

Section NotANumber.

Lemma Prim2SF_is_nan x : is_nan x = true <-> Prim2SF x = S754_nan.
Proof.
  split.
  - intros H. unfold Prim2SF. now rewrite H.
  - intros H. unfold is_nan. now rewrite eqb_spec, H.
Qed.

Lemma add_nan_l x y : is_nan x = true -> is_nan (x + y) = true.
Proof.
  rewrite !Prim2SF_is_nan, add_spec. intros ->. reflexivity.
Qed.

Lemma add_nan_r x y : is_nan y = true -> is_nan (x + y) = true.
Proof.
  rewrite !Prim2SF_is_nan, add_spec. intros ->. now destruct (Prim2SF x).
Qed.

Lemma div_nan_l x y : is_nan x = true -> is_nan (x / y) = true.
Proof.
  rewrite !Prim2SF_is_nan, div_spec. intros ->. reflexivity.
Qed.

Lemma mul_nan_l x y : is_nan x = true -> is_nan (x * y) = true.
Proof.
  rewrite !Prim2SF_is_nan, mul_spec. intros ->. reflexivity.
Qed.

Lemma gt_nan_l x y : is_nan x = true -> (x >? y) = false.
Proof.
  rewrite Prim2SF_is_nan, ltb_spec. intros ->. now destruct (Prim2SF y).
Qed.

Lemma gt_nan_r x y : is_nan y = true -> (x >? y) = false.
Proof.
  rewrite Prim2SF_is_nan, ltb_spec. intros ->. reflexivity.
Qed.

(** Once the running sum is not a number it stays so. *)
Lemma sum_nan_acc l acc :
  is_nan acc = true ->
  is_nan (fold_left (fun sum reading => sum + EnergyReading.power reading) l acc)
  = true.
Proof.
  revert acc. induction l as [|r l IH]; intros acc H; simpl; [assumption|].
  apply IH. now apply add_nan_l.
Qed.

Lemma sum_nan l acc :
  (exists r, In r l /\ is_nan (EnergyReading.power r) = true) ->
  is_nan (fold_left (fun sum reading => sum + EnergyReading.power reading) l acc)
  = true.
Proof.
  revert acc. induction l as [|r l IH]; intros acc (x & Hin & Hx); [destruct Hin|].
  simpl. destruct Hin as [->|Hin].
  - apply sum_nan_acc. now apply add_nan_r.
  - apply IH. now exists x.
Qed.

Lemma spike_decision_nan window cp :
  is_nan cp = true
  \/ (exists r, In r window /\ is_nan (EnergyReading.power r) = true) ->
  spike_decision window cp = false.
Proof.
  intros H. unfold spike_decision. apply andb_false_iff. right.
  destruct H as [H|H]; [now apply gt_nan_l|].
  apply gt_nan_r, mul_nan_l. unfold mean_power. apply div_nan_l.
  now apply sum_nan.
Qed.

End NotANumber.

(** X7.  A power that is not a number never raises an alert, and it silences
    the detector for as long as it is in the window: when the current power
    is NaN, or some reading of the fetched window has a NaN power, the
    detection cycle writes no alert and makes no notification call.  In
    particular a reading whose current times voltage is NaN is stored (201)
    without any alert. *)
Theorem nan_power_never_alerts :
  (forall env w deviceId cp userId,
     is_nan cp = true
     \/ (exists r, In r (recent deviceId w)
                   /\ is_nan (EnergyReading.power r) = true) ->
     let w' := snd (checkForPowerSpike deviceId cp userId env w) in
     alerts w' = alerts w /\ outbox w' = outbox w)
  /\ (forall env w req,
        is_nan (body_current req * body_voltage req) = true ->
        let w' := snd (addEnergyReading req env w) in
        alerts w' = alerts w /\ outbox w' = outbox w).
Proof.
  assert (forall env w d cp uid,
            is_nan cp = true
            \/ (exists r, In r (recent d w)
                          /\ is_nan (EnergyReading.power r) = true) ->
            alerts (snd (checkForPowerSpike d cp uid env w)) = alerts w
            /\ outbox (snd (checkForPowerSpike d cp uid env w)) = outbox w)
    as Hcycle.
  { intros env w d cp uid H. rewrite checkForPowerSpike_steps. cbv zeta.
    rewrite (spike_decision_nan _ _ H).
    destruct (EnergyReading_find_error env); split; reflexivity. }
  split; [exact Hcycle|].
  intros env w req Hnan. cbv zeta. rewrite addEnergyReading_steps.
  repeat (split_match; try (split; reflexivity)).
  cbn [snd].
  match goal with
  | |- context [checkForPowerSpike ?d ?cp ?uid ?env ?w1] =>
      destruct (Hcycle env w1 d cp uid (or_introl Hnan)) as [Ha Ho]
  end.
  split; [exact Ha | exact Ho].
Qed.

Lemma nan_power_never_alerts_witness :
  let w' := snd (checkForPowerSpike "esp32_001" 1000 7%nat (calm 1000)
                   (home [100; 100; nan; 100; 100])) in
  alerts w' = [] /\ outbox w' = [].
Proof.
  apply (proj1 nan_power_never_alerts (calm 1000) (home [100; 100; nan; 100; 100])
           "esp32_001" 1000 7%nat).
  right. exists (sample "esp32_001" 7%nat nan 3%Z).
  split; [vm_compute; tauto | reflexivity].
Defined.

Section Overflow.

Lemma add_infinity_r x y : y = infinity -> unbounded (x + y).
Proof.
  intros ->. unfold unbounded. rewrite add_spec.
  replace (Prim2SF infinity) with (S754_infinity false) by reflexivity.
  destruct (Prim2SF x) as [s|s| |s m e]; try destruct s; cbn; auto.
Qed.

Lemma add_unbounded_l x y : unbounded x -> unbounded (x + y).
Proof.
  unfold unbounded. rewrite add_spec. intros [-> | ->]; [|now right].
  destruct (Prim2SF y) as [s|s| |s m e]; try destruct s; cbn; auto.
Qed.

Lemma div_unbounded x y m e :
  unbounded x -> Prim2SF y = S754_finite false m e -> unbounded (x / y).
Proof.
  unfold unbounded. rewrite div_spec. intros [-> | ->] ->; cbn; auto.
Qed.

Lemma mul_unbounded x : unbounded x -> unbounded (x * 1.5).
Proof.
  unfold unbounded. rewrite mul_spec.
  replace (Prim2SF 1.5) with (S754_finite false 6755399441055744 (-52))
    by (vm_compute; reflexivity).
  intros [-> | ->]; cbn; auto.
Qed.

Lemma gt_unbounded x y : unbounded y -> (x >? y) = false.
Proof.
  unfold unbounded. rewrite ltb_spec. intros [-> | ->]; [|reflexivity].
  destruct (Prim2SF x) as [s|s| |s m e]; try destruct s; reflexivity.
Qed.

Lemma sum_unbounded_acc l acc :
  unbounded acc ->
  unbounded (fold_left (fun sum reading => sum + EnergyReading.power reading) l acc).
Proof.
  revert acc. induction l as [|r l IH]; intros acc H; simpl; [assumption|].
  apply IH. now apply add_unbounded_l.
Qed.

Lemma sum_unbounded l acc :
  (exists r, In r l /\ EnergyReading.power r = infinity) ->
  unbounded (fold_left (fun sum reading => sum + EnergyReading.power reading) l acc).
Proof.
  revert acc. induction l as [|r l IH]; intros acc (x & Hin & Hx); [destruct Hin|].
  simpl. destruct Hin as [->|Hin].
  - apply sum_unbounded_acc. now apply add_infinity_r.
  - apply IH. now exists x.
Qed.

(** The length of a window of one to ten readings, as a double. *)
Lemma of_length_window n :
  (1 <= n <= 10)%nat ->
  exists m e, Prim2SF (JS.of_length n) = S754_finite false m e.
Proof.
  intros Hn.
  do 11 (destruct n as [|n]; [try lia; do 2 eexists; vm_compute; reflexivity|]).
  lia.
Qed.

Lemma spike_decision_infinity window cp :
  (List.length window <= 10)%nat ->
  (exists r, In r window /\ EnergyReading.power r = infinity) ->
  spike_decision window cp = false.
Proof.
  intros Hlen Hinf. unfold spike_decision. apply andb_false_iff. right.
  apply gt_unbounded, mul_unbounded. unfold mean_power.
  destruct (of_length_window (List.length window)) as (m & e & Hm).
  { destruct Hinf as (r & Hr & _). destruct window; [destruct Hr|]. cbn in *. lia. }
  eapply div_unbounded; [now apply sum_unbounded | exact Hm].
Qed.

End Overflow.

(** X8.  A power that has overflowed to +Infinity silences the detector: as
    long as a reading of power +Infinity is in the fetched window, the cycle
    writes no alert and makes no notification call, whatever the current
    power.  In particular a reading whose current times voltage overflows
    (with the clock ahead of the stored readings, so that it is part of its
    own window) is stored without any alert. *)
Theorem overflow_silences_detector :
  (forall env w deviceId cp userId,
     (exists r, In r (recent deviceId w) /\ EnergyReading.power r = infinity) ->
     let w' := snd (checkForPowerSpike deviceId cp userId env w) in
     alerts w' = alerts w /\ outbox w' = outbox w)
  /\ (forall env w req device,
        ingests env w req device ->
        clock_ahead env w (body_deviceId req) ->
        body_current req * body_voltage req = infinity ->
        let run := addEnergyReading req env w in
        fst run = Ok (res_status_json 201 (Created (ingested req device env)))
        /\ alerts (snd run) = alerts w
        /\ outbox (snd run) = outbox w).
Proof.
  assert (forall d w cp,
            (exists r, In r (recent d w) /\ EnergyReading.power r = infinity) ->
            spike_decision (recent d w) cp = false) as Hquiet.
  { intros d w cp H. apply spike_decision_infinity; [|assumption].
    unfold recent. rewrite length_firstn. lia. }
  split.
  - intros env w d cp uid H. cbv zeta. rewrite checkForPowerSpike_steps. cbv zeta.
    rewrite (Hquiet d w cp H).
    destruct (EnergyReading_find_error env); split; reflexivity.
  - intros env w req device Hin Hclock Hinf. cbv zeta.
    rewrite (addEnergyReading_ingests env w req device Hin).
    rewrite checkForPowerSpike_steps. cbv zeta.
    rewrite Hquiet.
    + destruct (EnergyReading_find_error env); repeat split; reflexivity.
    + exists (ingested req device env).
      rewrite (recent_with_reading env w req device Hclock).
      split; [now left | exact Hinf].
Qed.

Lemma overflow_silences_detector_witness :
  let run := addEnergyReading (post "esp32_001" huge huge) (calm 1000)
               (home [100; 100; 100; 100; 100]) in
  fst run
  = Ok (res_status_json 201
          (Created (ingested (post "esp32_001" huge huge)
                      {| Device.userId := 7%nat; Device.deviceId := "esp32_001" |}
                      (calm 1000))))
  /\ alerts (snd run) = []
  /\ outbox (snd run) = [].
Proof.
  apply (proj2 overflow_silences_detector (calm 1000)
           (home [100; 100; 100; 100; 100]) (post "esp32_001" huge huge)
           {| Device.userId := 7%nat; Device.deviceId := "esp32_001" |}).
  - repeat split; reflexivity.
  - intros r Hr. vm_compute in Hr.
    repeat (destruct Hr as [<-|Hr]; [vm_compute; reflexivity|]). destruct Hr.
  - vm_compute. reflexivity.
Defined.

(* ===================================================================== *)
(** ** The listing endpoint, whatever its parameters *)
(* ===================================================================== *)

Lemma mongo_limit_In {A} n (l : list A) x : In x (mongo_limit n l) -> In x l.
Proof.
  unfold mongo_limit. destruct (n =? 0)%Z; [tauto | apply In_firstn].
Qed.

Lemma mongo_limit_length {A} n (l : list A) :
  (List.length (mongo_limit n l) <= List.length l)%nat.
Proof.
  unfold mongo_limit. destruct (n =? 0)%Z; [lia|]. rewrite length_firstn. lia.
Qed.

Lemma mongo_limit_sorted n (l : list EnergyReading.t) :
  StronglySorted newer_or_equal l -> StronglySorted newer_or_equal (mongo_limit n l).
Proof.
  unfold mongo_limit. destruct (n =? 0)%Z; [tauto | apply StronglySorted_firstn].
Qed.

(** X9.  [getEnergyReadings] only reads: it always answers, with 200 or with
    500 "Server error", and leaves every collection as it was; on 200 the
    world is untouched, on 500 one line has gone to the console. *)
Theorem listing_is_read_only :
  forall env w req,
    exists resp,
      fst (getEnergyReadings req env w) = Ok resp
      /\ ((status resp = 200%Z /\ snd (getEnergyReadings req env w) = w)
          \/ (resp = res_status_json 500 (Failure "Server error")
              /\ exists line,
                   snd (getEnergyReadings req env w) = with_line w line)).
Proof.
  intros env w req. rewrite getEnergyReadings_steps. cbv zeta.
  repeat split_match; eexists; (split; [reflexivity|]);
    first [ left; split; reflexivity
          | right; split; [reflexivity | eexists; reflexivity] ].
Qed.

(** X10.  Whatever the limit and the page, a 200 answer is consistent:
    count is the number of readings listed and never exceeds total, total is
    the number of stored readings of the device, and the readings listed are
    stored readings of that device, newest first. *)
Theorem listing_is_consistent :
  forall env w req count total rs,
    fst (getEnergyReadings req env w) = Ok (res_json (Listing count total rs)) ->
    count = List.length rs
    /\ (count <= total)%nat
    /\ total = List.length (of_device (params_deviceId req) (readings w))
    /\ (forall r, In r rs ->
                  In r (readings w)
                  /\ EnergyReading.deviceId r = params_deviceId req)
    /\ StronglySorted newer_or_equal rs.
Proof.
  intros env w req count total rs. rewrite getEnergyReadings_steps. cbv zeta.
  repeat split_match; cbn [fst]; intros H; try discriminate H.
  injection H as <- <- <-.
  split; [reflexivity|]. split; [|split; [reflexivity|split]].
  - etransitivity; [apply mongo_limit_length|].
    rewrite length_skipn. unfold newest_first.
    rewrite sort_newest_first_length. lia.
  - intros r Hr. apply mongo_limit_In, In_skipn in Hr. unfold newest_first in Hr.
    apply (proj1 (sort_newest_first_In _ _)) in Hr.
    now apply of_device_In in Hr.
  - apply mongo_limit_sorted, StronglySorted_skipn, sort_newest_first_sorted.
Qed.

Lemma listing_is_consistent_witness :
  exists rs,
    fst (getEnergyReadings no_limit (calm 1000) (home [1; 2; 3]))
    = Ok (res_json (Listing 3 3 rs))
    /\ StronglySorted newer_or_equal rs
    /\ forall r, In r rs -> EnergyReading.deviceId r = "esp32_001".
Proof.
  eexists. split; [vm_compute; reflexivity|].
  destruct (listing_is_consistent (calm 1000) (home [1; 2; 3]) no_limit 3 3 _
              eq_refl) as (_ & _ & _ & Hin & Hsorted).
  split; [exact Hsorted|]. intros r Hr. now apply Hin.
Defined.

(* ===================================================================== *)
(** ** Pages *)
(* ===================================================================== *)


(** The readings listed for page [p] of size [l], when the store answers. *)
Lemma listed_page env w d l p :
  EnergyReading_find_error env = None ->
  EnergyReading_countDocuments_error env = None ->
  (1 <= l)%Z -> (1 <= p)%Z -> (p * l < 2 ^ 53)%Z ->
  getEnergyReadings (list_request d l p) env w
  = (let rs := firstn (Z.to_nat l)
                 (skipn (Z.to_nat (p - 1) * Z.to_nat l) (newest_first d w)) in
     Ok (res_json (Listing (List.length rs)
                     (List.length (of_device d (readings w))) rs)), w).
Proof.
  intros Hfetch Hcount Hl Hp Hbound. rewrite getEnergyReadings_steps. cbv zeta.
  destruct (asked_exact (list_request d l p) Hl Hp Hbound) as [-> ->].
  unfold list_request, limit_of, page_of.
  cbn [query_limit query_page params_deviceId]. rewrite Hfetch, Hcount.
  destruct (Z.ltb_spec ((p - 1) * l) 0) as [Hneg|_]; [nia|].
  unfold mongo_limit. destruct (Z.eqb_spec l 0) as [Hzero|_]; [lia|].
  replace (Z.abs_nat l) with (Z.to_nat l) by lia.
  replace (Z.to_nat ((p - 1) * l)) with (Z.to_nat (p - 1) * Z.to_nat l)%nat by nia.
  reflexivity.
Qed.



(** X12.  A page past the end is not an error: for a limit and a page of at
    least 1, of product below 2^53, whose skip reaches the number of stored
    readings of the device, the answer is 200 with an empty list, count 0
    and the true total. *)
Theorem page_past_the_end :
  forall env w deviceId l p,
    EnergyReading_find_error env = None ->
    EnergyReading_countDocuments_error env = None ->
    (1 <= l)%Z -> (1 <= p)%Z ->
    (p * l < 2 ^ 53)%Z ->
    (Z.of_nat (List.length (of_device deviceId (readings w))) <= (p - 1) * l)%Z ->
    getEnergyReadings (list_request deviceId l p) env w
    = (Ok (res_json
             (Listing 0 (List.length (of_device deviceId (readings w))) [])), w).
Proof.
  intros env w d l p Hfetch Hcount Hl Hp Hbound Hpast.
  rewrite (listed_page env w d l p Hfetch Hcount Hl Hp Hbound). cbv zeta.
  rewrite skipn_all2; [now rewrite firstn_nil|].
  unfold newest_first. rewrite sort_newest_first_length. nia.
Qed.

Lemma page_past_the_end_witness :
  getEnergyReadings (list_request "esp32_001" 2 4) (calm 1000) (home [1; 2; 3; 4; 5])
  = (Ok (res_json (Listing 0 5 [])), home [1; 2; 3; 4; 5]).
Proof.
  apply (page_past_the_end (calm 1000) (home [1; 2; 3; 4; 5]) "esp32_001" 2 4).
  - reflexivity.
  - reflexivity.
  - lia.
  - lia.
  - vm_compute. reflexivity.
  - vm_compute. discriminate.
Defined.

(* ===================================================================== *)
(** ** Ingesting, then listing *)
(* ===================================================================== *)

Lemma newest_first_readings d w w' :
  readings w' = readings w -> newest_first d w' = newest_first d w.
Proof. intros H. unfold newest_first. now rewrite H. Qed.

(** The readings after a request: as before, or with the created document
    at the end. *)
Lemma addEnergyReading_readings req env w :
  readings (snd (addEnergyReading req env w)) = readings w
  \/ exists device,
       ingests env w req device
       /\ readings (snd (addEnergyReading req env w))
          = readings (with_reading w (ingested req device env)).
Proof.
  rewrite addEnergyReading_steps.
  destruct (validation req) as [|v vs] eqn:Hval; [|now left].
  destruct (Device_findOne_error env) as [e|] eqn:Hdev; [now left|].
  destruct (find (fun d => String.eqb (Device.deviceId d) (body_deviceId req))
              (devices w)) as [device|] eqn:Hfound; [|now left].
  destruct (EnergyReading_create_error env) as [e|] eqn:Hcreate; [now left|].
  right. exists device. split; [repeat split; assumption|]. cbn [snd].
  apply (checkForPowerSpike_effects (body_deviceId req)
           (body_current req * body_voltage req) (Device.userId device) env
           (with_reading w (ingested req device env))).
Qed.

(** X13.  A reading that has been ingested is the first one listed: after a
    201 (with the clock ahead of the stored readings of the device), the
    first page of the device, for any positive limit below 2^53, starts with
    the created reading, followed by the newest readings there were, and
    total has grown by one. *)
Theorem ingested_reading_is_listed_first :
  forall env w req device env' l,
    ingests env w req device ->
    clock_ahead env w (body_deviceId req) ->
    EnergyReading_find_error env' = None ->
    EnergyReading_countDocuments_error env' = None ->
    (1 <= l)%Z ->
    (l < 2 ^ 53)%Z ->
    let w' := snd (addEnergyReading req env w) in
    let rs := ingested req device env
              :: firstn (Z.to_nat l - 1) (newest_first (body_deviceId req) w) in
    getEnergyReadings (list_request (body_deviceId req) l 1) env' w'
    = (Ok (res_json
             (Listing (List.length rs)
                (S (List.length (of_device (body_deviceId req) (readings w))))
                rs)), w').
Proof.
  intros env w req device env' l Hin Hclock Hfetch Hcount Hl Hbound w' rs.
  assert (readings w' = readings (with_reading w (ingested req device env)))
    as Hreadings.
  { unfold w'. rewrite (addEnergyReading_ingests env w req device Hin). cbn [snd].
    apply (checkForPowerSpike_effects (body_deviceId req)
             (body_current req * body_voltage req) (Device.userId device) env
             (with_reading w (ingested req device env))). }
  rewrite (listed_page env' w' (body_deviceId req) l 1 Hfetch Hcount Hl) by lia.
  cbv zeta. rewrite (newest_first_readings _ _ _ Hreadings), Hreadings.
  rewrite (newest_first_with_reading env w req device Hclock).
  replace (Z.to_nat (1 - 1) * Z.to_nat l)%nat with 0%nat by lia.
  cbn [skipn].
  replace (Z.to_nat l) with (S (Z.to_nat l - 1)) at 1 2 by lia.
  cbn [firstn]. fold rs.
  unfold with_reading. cbn [readings]. rewrite of_device_app, length_app.
  unfold of_device at 2. cbn [filter ingested EnergyReading.deviceId].
  rewrite String.eqb_refl. cbn [List.length].
  replace (List.length (of_device (body_deviceId req) (readings w)) + 1)%nat
    with (S (List.length (of_device (body_deviceId req) (readings w)))) by lia.
  reflexivity.
Qed.

Lemma ingested_reading_is_listed_first_witness :
  let w' := snd (addEnergyReading (post "esp32_001" 2 100) (calm 1000)
                   (home [1; 2; 3])) in
  getEnergyReadings (list_request "esp32_001" 2 1) (calm 2000) w'
  = (Ok (res_json
           (Listing 2 4
              [ingested (post "esp32_001" 2 100)
                 {| Device.userId := 7%nat; Device.deviceId := "esp32_001" |}
                 (calm 1000);
               sample "esp32_001" 7%nat 3 3%Z])), w').
Proof.
  intros w'.
  apply (ingested_reading_is_listed_first (calm 1000) (home [1; 2; 3])
           (post "esp32_001" 2 100)
           {| Device.userId := 7%nat; Device.deviceId := "esp32_001" |}
           (calm 2000) 2).
  - repeat split; reflexivity.
  - intros r Hr. vm_compute in Hr.
    repeat (destruct Hr as [<-|Hr]; [vm_compute; reflexivity|]). destruct Hr.
  - reflexivity.
  - reflexivity.
  - lia.
  - vm_compute. reflexivity.
Defined.

(** X14.  Devices are kept apart: whatever a request for one device does, the
    stored readings of any other device, the window the detector would fetch
    for it and the answer of the listing endpoint for it are as before. *)
Theorem other_devices_untouched :
  forall env w req other,
    other <> body_deviceId req ->
    let w' := snd (addEnergyReading req env w) in
    of_device other (readings w') = of_device other (readings w)
    /\ recent other w' = recent other w
    /\ forall env' lreq,
         params_deviceId lreq = other ->
         fst (getEnergyReadings lreq env' w') = fst (getEnergyReadings lreq env' w).
Proof.
  intros env w req other Hother w'.
  assert (of_device other (readings w') = of_device other (readings w)) as Hsame.
  { unfold w'.
    destruct (addEnergyReading_readings req env w) as [->|(device & _ & ->)];
      [reflexivity|].
    unfold with_reading. cbn [readings]. rewrite of_device_app.
    unfold of_device at 2. cbn [filter ingested EnergyReading.deviceId].
    destruct (String.eqb_spec (body_deviceId req) other) as [Heq|_];
      [congruence|]. apply app_nil_r. }
  split; [exact Hsame|]. split.
  - unfold recent, newest_first. now rewrite Hsame.
  - intros env' lreq Hd. rewrite !getEnergyReadings_steps. cbv zeta.
    unfold newest_first. rewrite Hd, Hsame.
    repeat (split_match; try reflexivity).
Qed.

Lemma other_devices_untouched_witness :
  let w := two_devices [100; 100; 100; 100; 100] [7; 8; 9] in
  let w' := snd (addEnergyReading (post "esp32_001" 2 100) (calm 1000) w) in
  recent "esp32_002" w' = recent "esp32_002" w.
Proof.
  intros w w'.
  apply (other_devices_untouched (calm 1000) w (post "esp32_001" 2 100) "esp32_002").
  discriminate.
Defined.

(** The alerts a detection cycle adds. *)
Lemma checkForPowerSpike_detected d cp uid env w :
  alerts (snd (checkForPowerSpike d cp uid env w))
  = alerts w ++ detected env d uid (recent d w) cp.
Proof.
  rewrite checkForPowerSpike_steps. unfold detected. cbv zeta.
  destruct (EnergyReading_find_error env); [cbn; now rewrite app_nil_r|].
  destruct (spike_decision (recent d w) cp).
  - destruct (Alert_create_error env); [cbn; now rewrite app_nil_r|].
    repeat (split_match; try reflexivity).
  - destruct (Alert_create_error env); cbn; now rewrite app_nil_r.
Qed.

(** X15.  Only the nine newest prior readings of the device weigh on the
    decision: two stores whose nine newest readings of the device are the
    same (clock ahead in both), given the same request for the same device
    under the same environment, get the same alerts added, whatever else
    they hold: older readings, other devices, other alerts. *)
Theorem decision_depends_on_nine_newest :
  forall env w1 w2 req device,
    ingests env w1 req device ->
    ingests env w2 req device ->
    clock_ahead env w1 (body_deviceId req) ->
    clock_ahead env w2 (body_deviceId req) ->
    firstn 9 (newest_first (body_deviceId req) w1)
    = firstn 9 (newest_first (body_deviceId req) w2) ->
    exists new,
      alerts (snd (addEnergyReading req env w1)) = alerts w1 ++ new
      /\ alerts (snd (addEnergyReading req env w2)) = alerts w2 ++ new.
Proof.
  intros env w1 w2 req device Hin1 Hin2 Hclock1 Hclock2 Hnine.
  rewrite (addEnergyReading_ingests env w1 req device Hin1).
  rewrite (addEnergyReading_ingests env w2 req device Hin2).
  cbn [snd]. rewrite !checkForPowerSpike_detected.
  rewrite (recent_with_reading env w1 req device Hclock1).
  rewrite (recent_with_reading env w2 req device Hclock2).
  rewrite Hnine. eexists. split; reflexivity.
Qed.

Lemma decision_depends_on_nine_newest_witness :
  let w1 := home [100; 100; 100; 100; 100] in
  let w2 := two_devices [100; 100; 100; 100; 100] [7; 8; 9] in
  exists new,
    alerts (snd (addEnergyReading (post "esp32_001" 2 100) (calm 1000) w1))
    = alerts w1 ++ new
    /\ alerts (snd (addEnergyReading (post "esp32_001" 2 100) (calm 1000) w2))
       = alerts w2 ++ new.
Proof.
  intros w1 w2.
  apply (decision_depends_on_nine_newest (calm 1000) w1 w2
           (post "esp32_001" 2 100)
           {| Device.userId := 7%nat; Device.deviceId := "esp32_001" |}).
  - repeat split; reflexivity.
  - repeat split; reflexivity.
  - intros r Hr. vm_compute in Hr.
    repeat (destruct Hr as [<-|Hr]; [vm_compute; reflexivity|]). destruct Hr.
  - intros r Hr. vm_compute in Hr.
    repeat (destruct Hr as [<-|Hr]; [vm_compute; reflexivity|]). destruct Hr.
  - vm_compute. reflexivity.
Defined.

(* ===================================================================== *)
(** ** At the threshold *)
(* ===================================================================== *)

Section Comparison.

Lemma SFcompare_antisym x y c :
  SFcompare x y = Some c -> SFcompare y x = Some (CompOpp c).
Proof.
  destruct x as [sx|sx| |sx mx ex], y as [sy|sy| |sy my ey]; cbn;
    try discriminate;
    try (intros H; injection H as <-; try destruct sx; try destruct sy;
         reflexivity).
  intros H. injection H as <-. f_equal.
  destruct sx, sy; try reflexivity;
    rewrite (Z.compare_antisym ex ey);
    destruct (ex ?= ey)%Z; cbn; try reflexivity;
    rewrite (Pos.compare_cont_antisym mx my Eq); reflexivity.
Qed.

(** A power at or below the threshold is not above it. *)
Lemma leb_not_gt x y : (x <=? y) = true -> (x >? y) = false.
Proof.
  rewrite leb_spec, ltb_spec. unfold SFleb, SFltb.
  destruct (SFcompare (Prim2SF x) (Prim2SF y)) as [c|] eqn:E; [|discriminate].
  rewrite (SFcompare_antisym _ _ _ E). now destruct c.
Qed.

End Comparison.

(** X16.  The comparison with the threshold is strict: a current power equal
    to (or below) one and a half times the mean of the fetched window
    raises no alert and no notification; so a power of exactly 150 against
    five readings of 100 is let through. *)
Theorem threshold_is_not_a_spike :
  forall env w deviceId cp userId,
    (cp <=? mean_power (recent deviceId w) * 1.5) = true ->
    let w' := snd (checkForPowerSpike deviceId cp userId env w) in
    alerts w' = alerts w /\ outbox w' = outbox w.
Proof.
  intros env w d cp uid Hle. cbv zeta. rewrite checkForPowerSpike_steps. cbv zeta.
  unfold spike_decision. rewrite (leb_not_gt _ _ Hle), andb_false_r.
  destruct (EnergyReading_find_error env); split; reflexivity.
Qed.

Lemma threshold_is_not_a_spike_witness :
  let w' := snd (checkForPowerSpike "esp32_001" 150 7%nat (calm 1000)
                   (home [100; 100; 100; 100; 100])) in
  alerts w' = [] /\ outbox w' = [].
Proof.
  apply (threshold_is_not_a_spike (calm 1000) (home [100; 100; 100; 100; 100])
           "esp32_001" 150 7%nat).
  vm_compute. reflexivity.
Defined.

(* ===================================================================== *)
(** ** A spike, from the reading to the owner *)
(* ===================================================================== *)

(** X17.  When everything answers, a spike runs the whole path once: the
    reading is stored, one alert is written for the owner of the device, the
    notification service is called once with that alert's message and
    figures, "Power spike notification sent" goes to the console, and the
    answer is 201 with the reading. *)
Theorem spike_notifies_owner :
  forall env w req device user,
    ingests env w req device ->
    let doc := ingested req device env in
    let window := recent (body_deviceId req) (with_reading w doc) in
    EnergyReading_find_error env = None ->
    spike_decision window (EnergyReading.power doc) = true ->
    Alert_create_error env = None ->
    User_findById_error env = None ->
    find (fun u => Nat.eqb (User._id u) (Device.userId device)) (users w)
    = Some user ->
    JS.truthy (User.email user) || JS.truthy (User.fcmToken user) = true ->
    sendEnergyAlert_error env = None ->
    addEnergyReading req env w
    = (Ok (res_status_json 201 (Created doc)),
       with_line
         (with_notification
            (with_alert (with_reading w doc)
               (spike_alert (body_deviceId req) (Device.userId device) window
                  (EnergyReading.power doc)))
            (spike_notification (body_deviceId req) user window
               (EnergyReading.power doc)))
         "Power spike notification sent").
Proof.
  intros env w req device user Hin doc window
    Hfetch Hspike Hwrite Hlookup Hfound Hcontact Hsend.
  rewrite (addEnergyReading_ingests env w req device Hin).
  fold doc. rewrite checkForPowerSpike_steps. cbv zeta. fold window.
  cbn [EnergyReading.power doc ingested] in Hspike.
  rewrite Hfetch, Hspike, Hwrite, Hlookup.
  cbn [users with_reading]. now rewrite Hfound, Hcontact, Hsend.
Qed.

Lemma spike_notifies_owner_witness :
  let run := addEnergyReading (post "esp32_001" 2 100) (calm 1000)
               (home [100; 100; 100; 100; 100]) in
  List.length (alerts (snd run)) = 1%nat
  /\ List.length (outbox (snd run)) = 1%nat
  /\ console (snd run) = ["Power spike notification sent"].
Proof.
  intros run. unfold run.
  rewrite (spike_notifies_owner (calm 1000) (home [100; 100; 100; 100; 100])
             (post "esp32_001" 2 100)
             {| Device.userId := 7%nat; Device.deviceId := "esp32_001" |}
             {| User._id := 7%nat; User.email := Some "owner@example.com";
                User.fcmToken := None |}).
  - repeat split; reflexivity.
  - repeat split; reflexivity.
  - reflexivity.
  - vm_compute. reflexivity.
  - reflexivity.
  - reflexivity.
  - reflexivity.
  - reflexivity.
  - reflexivity.
Defined.

(** X18.  Every alert written by a request is filed under the device named
    in the request and under the user the registry gives as the owner of
    that device (not under anything the request says about users); it
    starts unread and unresolved. *)
Theorem alert_is_filed_under_owner :
  forall env w req,
    exists new,
      alerts (snd (addEnergyReading req env w)) = alerts w ++ new
      /\ forall a, In a new ->
           exists device,
             find (fun d => String.eqb (Device.deviceId d) (body_deviceId req))
               (devices w) = Some device
             /\ Alert.userId a = Device.userId device
             /\ Alert.deviceId a = body_deviceId req
             /\ Alert.isRead a = false
             /\ Alert.isResolved a = false.
Proof.
  intros env w req.
  destruct (addEnergyReading_alerts_cases req env w) as [H|(device & Hin & H)].
  { exists []. rewrite app_nil_r. split; [assumption|]. intros a []. }
  rewrite H, checkForPowerSpike_detected. eexists. split; [reflexivity|].
  intros a Ha. exists device. split; [apply Hin|].
  unfold detected in Ha.
  destruct (EnergyReading_find_error env); [destruct Ha|].
  destruct (Alert_create_error env); [destruct Ha|].
  destruct (spike_decision _ _); [|destruct Ha].
  destruct Ha as [<-|[]]. repeat split; reflexivity.
Qed.

(* ===================================================================== *)
(** ** The chatbot: blank queries, failures and what it may change *)
(* ===================================================================== *)

Section Trimming.

Lemma trim_start_nil l :
  JSString.trim_start l = [] <-> forallb JSString.is_space l = true.
Proof.
  induction l as [|c l IH]; simpl; [tauto|].
  destruct (JSString.is_space c); simpl; [exact IH|].
  split; discriminate.
Qed.

Lemma trim_start_sublist l x : In x (JSString.trim_start l) -> In x l.
Proof.
  induction l as [|c l IH]; simpl; [tauto|].
  destruct (JSString.is_space c); simpl; [auto | tauto].
Qed.

(** The first character left by [trim_start] is not white space. *)
Lemma trim_start_head l c l' :
  JSString.trim_start l = c :: l' -> JSString.is_space c = false.
Proof.
  induction l as [|a l IH]; simpl; [discriminate|].
  destruct (JSString.is_space a) eqn:E; [exact IH|].
  intros H. injection H as <- _. exact E.
Qed.

Lemma string_of_list_ascii_length l :
  String.length (string_of_list_ascii l) = List.length l.
Proof. induction l as [|c l IH]; simpl; [reflexivity | now rewrite IH]. Qed.

(** [s.trim().length === 0] exactly when [s] is made of white space. *)
Lemma trim_blank s :
  (String.length (JSString.trim s) =? 0)%nat
  = forallb JSString.is_space (list_ascii_of_string s).
Proof.
  unfold JSString.trim. rewrite string_of_list_ascii_length, length_rev.
  destruct (JSString.trim_start (list_ascii_of_string s)) as [|c l] eqn:E.
  - cbn. symmetry. now apply trim_start_nil.
  - assert (forallb JSString.is_space (list_ascii_of_string s) = false) as ->.
    { destruct (forallb _ _) eqn:F; [|reflexivity].
      apply trim_start_nil in F. congruence. }
    destruct (JSString.trim_start (rev (c :: l))) as [|c' l''] eqn:E';
      [|reflexivity].
    apply trim_start_nil in E'. rewrite forallb_forall in E'.
    pose proof (trim_start_head _ _ _ E) as Hc.
    rewrite (E' c) in Hc; [discriminate|].
    apply in_rev. rewrite rev_involutive. now left.
Qed.

End Trimming.

Lemma handlePowerConsumptionQuery_steps cenv uid env w :
  handlePowerConsumptionQuery cenv uid env w =
  (Ok match EnergyReading_find_error env with
      | Some _ => "Unable to retrieve power consumption data at the moment."
      | None =>
          match readings_today cenv uid w with
          | [] => "No power consumption data available for today."
          | rs => power_summary rs
          end
      end, w).
Proof.
  unfold handlePowerConsumptionQuery, EnergyReading_find_since. unfold_async.
  fold (readings_today cenv uid w).
  destruct (EnergyReading_find_error env); [reflexivity|].
  destruct (readings_today cenv uid w); reflexivity.
Qed.

Lemma handleAlertQuery_steps cenv uid env w :
  handleAlertQuery cenv uid env w =
  (Ok match Alert_find_error cenv, Alert_countDocuments_error cenv with
      | None, None =>
          alert_summary (List.length (unread_of uid w)) (List.length (alerts_of uid w))
      | _, _ => "Unable to retrieve alert information at the moment."
      end, w).
Proof.
  unfold handleAlertQuery, Alert_find_unread, Alert_countDocuments, await_fault,
    alert_summary.
  unfold_async. fold (unread_of uid w). fold (alerts_of uid w).
  destruct (Alert_find_error cenv); [reflexivity|].
  destruct (Alert_countDocuments_error cenv); [reflexivity|].
  destruct (List.length (unread_of uid w) =? 0)%nat; reflexivity.
Qed.

Lemma handleTemperatureQuery_reads uid env w :
  exists text, handleTemperatureQuery uid env w = (Ok text, w).
Proof.
  unfold handleTemperatureQuery, EnergyReading_find_of_user. unfold_async.
  destruct (EnergyReading_find_error env); [eexists; reflexivity|].
  destruct (List.length _ =? 0)%nat; eexists; reflexivity.
Qed.

Lemma highest_loop_step d rest hd hp env w :
  highest_loop (d :: rest) hd hp env w =
  match EnergyReading_find_error env with
  | Some e => (Thrown e, w)
  | None =>
      let avgPower := mean_power (recent (Device.deviceId d) w) in
      if (0 <? List.length (recent (Device.deviceId d) w))%nat
         && (avgPower >? hp)
      then highest_loop rest (Some d) avgPower env w
      else highest_loop rest hd hp env w
  end.
Proof.
  cbn [highest_loop]. unfold bind at 1.
  destruct (EnergyReading_find_error env) as [e|] eqn:Hfetch.
  - unfold EnergyReading_find. unfold_async. now rewrite Hfetch.
  - rewrite (find_window _ env w Hfetch). cbv zeta.
    destruct (0 <? List.length (recent (Device.deviceId d) w))%nat; [|reflexivity].
    destruct (_ >? hp); reflexivity.
Qed.

Lemma highest_loop_reads devices hd hp env w :
  (exists r, highest_loop devices hd hp env w = (Ok r, w))
  \/ (exists e, highest_loop devices hd hp env w = (Thrown e, w)).
Proof.
  revert hd hp. induction devices as [|d rest IH]; intros hd hp.
  - left. eexists. reflexivity.
  - rewrite highest_loop_step.
    destruct (EnergyReading_find_error env) as [e|];
      [right; exists e; reflexivity|].
    cbv zeta. destruct (_ && _); apply IH.
Qed.

Lemma handleHighestConsumptionQuery_reads cenv uid env w :
  exists text, handleHighestConsumptionQuery cenv uid env w = (Ok text, w).
Proof.
  unfold handleHighestConsumptionQuery, Device_find, await_fault.
  unfold try_catch at 1. unfold bind at 1.
  destruct (Device_find_error cenv); [eexists; reflexivity|].
  unfold gets at 1. unfold bind at 1.
  destruct (highest_loop_reads
              (filter (fun d => Nat.eqb (Device.userId d) uid) (devices w))
              None 0 env w) as [(r & ->)|(e & ->)].
  - destruct r as [[d|] p]; eexists; reflexivity.
  - eexists. reflexivity.
Qed.

(** The handlers only read, and they catch what the store throws. *)
Lemma handler_reads cenv uid t env w :
  exists text, handler_of cenv uid t env w = (Ok text, w).
Proof.
  destruct t; cbn [handler_of].
  - rewrite handlePowerConsumptionQuery_steps. eexists. reflexivity.
  - apply handleHighestConsumptionQuery_reads.
  - apply handleTemperatureQuery_reads.
  - rewrite handleAlertQuery_steps. eexists. reflexivity.
  - eexists. reflexivity.
  - eexists. reflexivity.
Qed.

(** The dispatcher runs the handler of the topic of the query. *)
Lemma dispatch_by_topic cenv uid lowerQuery :
  (if JSString.includes lowerQuery "power"
      && JSString.includes lowerQuery "consumption"
   then handlePowerConsumptionQuery cenv uid
   else if JSString.includes lowerQuery "device"
           && (JSString.includes lowerQuery "most"
               || JSString.includes lowerQuery "highest")
   then handleHighestConsumptionQuery cenv uid
   else if JSString.includes lowerQuery "temperature"
           || JSString.includes lowerQuery "hot"
   then handleTemperatureQuery uid
   else if JSString.includes lowerQuery "alert"
           || JSString.includes lowerQuery "warning"
   then handleAlertQuery cenv uid
   else if JSString.includes lowerQuery "help"
           || JSString.includes lowerQuery "what"
   then ret getHelpResponse
   else ret getDefaultResponse)
  = handler_of cenv uid (topic_of lowerQuery).
Proof.
  unfold topic_of.
  repeat match goal with
         | |- context [if ?b then _ else _] => destruct b
         end; reflexivity.
Qed.

(** What [handleChatbotQuery] does: a blank query is refused, any other is
    answered by the handler of its topic. *)
Lemma handleChatbotQuery_steps cenv query uid env w :
  handleChatbotQuery cenv query uid env w =
  match query with
  | None =>
      (Ok {| chat_status := 400; chat_body := ChatFailure "Query is required" |}, w)
  | Some q =>
      if forallb JSString.is_space (list_ascii_of_string q)
      then (Ok {| chat_status := 400;
                  chat_body := ChatFailure "Query is required" |}, w)
      else
        match handler_of cenv uid (topic_of (JSString.toLowerCase q)) env w with
        | (Ok text, w') =>
            (Ok {| chat_status := 200;
                   chat_body := ChatAnswer q text (now env) |}, w')
        | (Thrown e, w') =>
            (Ok {| chat_status := 500; chat_body := ChatFailure "Server error" |},
             with_line w' ("Chatbot query error: " ++ e))
        end
  end.
Proof.
  unfold handleChatbotQuery. destruct query as [q|]; [|reflexivity].
  rewrite trim_blank.
  assert ((String.length q =? 0)%nat
          || forallb JSString.is_space (list_ascii_of_string q)
          = forallb JSString.is_space (list_ascii_of_string q)) as ->.
  { destruct q; reflexivity. }
  destruct (forallb _ _); [reflexivity|].
  cbv zeta. rewrite dispatch_by_topic.
  unfold try_catch at 1. unfold bind at 1.
  destruct (handler_of cenv uid (topic_of (JSString.toLowerCase q)) env w)
    as [[text|e] w']; reflexivity.
Qed.

(** X19.  The chatbot refuses exactly the queries that are missing, empty or
    made of white space, with 400 "Query is required"; every other query is
    answered 200, never 500, whatever the store does; and in every case the
    world is left as it was: nothing is written, nothing is logged. *)
Theorem chatbot_answers_or_refuses :
  forall cenv env w query userId,
    let run := handleChatbotQuery cenv query userId env w in
    snd run = w
    /\ if blank_query query
       then fst run
            = Ok {| chat_status := 400; chat_body := ChatFailure "Query is required" |}
       else exists q text,
              query = Some q
              /\ fst run
                 = Ok {| chat_status := 200;
                         chat_body := ChatAnswer q text (now env) |}.
Proof.
  intros cenv env w query uid. cbv zeta. rewrite handleChatbotQuery_steps.
  destruct query as [q|]; cbn [blank_query]; [|split; reflexivity].
  destruct (forallb JSString.is_space (list_ascii_of_string q));
    [split; reflexivity|].
  destruct (handler_reads cenv uid (topic_of (JSString.toLowerCase q)) env w)
    as [text ->].
  split; [reflexivity|]. exists q, text. split; reflexivity.
Qed.

(** X20.  A failing store becomes an apology, not an error: when the fetch
    of the readings rejects, a question about power consumption or about
    temperature is answered 200 with the sentence of its handler; and so is
    a question about alerts when the alert lookup or count rejects. *)
Theorem store_failure_is_an_apology :
  forall cenv env w q userId,
    blank_query (Some q) = false ->
    let topic := topic_of (JSString.toLowerCase q) in
    let text := chat_text (handleChatbotQuery cenv (Some q) userId env w) in
    (EnergyReading_find_error env <> None ->
     (topic = PowerConsumption ->
      text = Some "Unable to retrieve power consumption data at the moment.")
     /\ (topic = Temperature ->
         text = Some "Unable to retrieve temperature data at the moment."))
    /\ (Alert_find_error cenv <> None \/ Alert_countDocuments_error cenv <> None ->
        topic = Alerts ->
        text = Some "Unable to retrieve alert information at the moment.").
Proof.
  intros cenv env w q uid Hblank. cbv zeta. unfold chat_text.
  rewrite handleChatbotQuery_steps. cbn [blank_query] in Hblank. rewrite Hblank.
  split.
  - intros Hdown. split; intros ->; cbn [handler_of].
    + rewrite handlePowerConsumptionQuery_steps.
      destruct (EnergyReading_find_error env); [reflexivity | congruence].
    + unfold handleTemperatureQuery, EnergyReading_find_of_user. unfold_async.
      destruct (EnergyReading_find_error env); [reflexivity | congruence].
  - intros Hdown ->. cbn [handler_of]. rewrite handleAlertQuery_steps.
    destruct (Alert_find_error cenv), (Alert_countDocuments_error cenv);
      try reflexivity.
    destruct Hdown; congruence.
Qed.

Lemma store_failure_is_an_apology_witness :
  chat_text (handleChatbotQuery (chat_calm 0)
               (Some "What's my power consumption today?") 7%nat
               (readings_down 1000) (home [100; 200; 300]))
  = Some "Unable to retrieve power consumption data at the moment.".
Proof.
  apply (store_failure_is_an_apology (chat_calm 0) (readings_down 1000)
           (home [100; 200; 300]) "What's my power consumption today?" 7%nat).
  - reflexivity.
  - discriminate.
  - reflexivity.
Defined.

Section LowerCase.

Lemma lower_space c : JSString.is_space (JSString.lower c) = JSString.is_space c.
Proof. destruct c as [[] [] [] [] [] [] [] []]; reflexivity. Qed.

Lemma toLowerCase_chars s :
  list_ascii_of_string (JSString.toLowerCase s)
  = map JSString.lower (list_ascii_of_string s).
Proof. induction s as [|c s IH]; simpl; [reflexivity | now rewrite IH]. Qed.

Lemma toLowerCase_blank s :
  forallb JSString.is_space (list_ascii_of_string (JSString.toLowerCase s))
  = forallb JSString.is_space (list_ascii_of_string s).
Proof.
  rewrite toLowerCase_chars.
  induction (list_ascii_of_string s) as [|c l IH]; simpl; [reflexivity|].
  now rewrite lower_space, IH.
Qed.

Lemma lower_idempotent c : JSString.lower (JSString.lower c) = JSString.lower c.
Proof. destruct c as [[] [] [] [] [] [] [] []]; reflexivity. Qed.

Lemma toLowerCase_idempotent s :
  JSString.toLowerCase (JSString.toLowerCase s) = JSString.toLowerCase s.
Proof.
  induction s as [|c s IH]; simpl; [reflexivity|].
  now rewrite lower_idempotent, IH.
Qed.

End LowerCase.

(** X21.  The chatbot does not look at the case of the letters: two queries
    that agree once lower-cased (as a query and its upper- or lower-cased
    form do) get the same status and the same response text, in the same
    world. *)
Theorem chatbot_ignores_case :
  forall cenv env w q1 q2 userId,
    JSString.toLowerCase q1 = JSString.toLowerCase q2 ->
    chat_status_of (handleChatbotQuery cenv (Some q1) userId env w)
    = chat_status_of (handleChatbotQuery cenv (Some q2) userId env w)
    /\ chat_text (handleChatbotQuery cenv (Some q1) userId env w)
       = chat_text (handleChatbotQuery cenv (Some q2) userId env w).
Proof.
  intros cenv env w q1 q2 uid Hcase.
  unfold chat_status_of, chat_text. rewrite !handleChatbotQuery_steps.
  rewrite <- (toLowerCase_blank q1), <- (toLowerCase_blank q2), Hcase.
  destruct (forallb _ _); [split; reflexivity|].
  destruct (handler_reads cenv uid (topic_of (JSString.toLowerCase q2)) env w)
    as [text ->].
  split; reflexivity.
Qed.

Lemma chatbot_ignores_case_witness :
  chat_text (handleChatbotQuery (chat_calm 0) (Some "ANY ALERTS?") 7%nat
               (calm 1000) (home_with_alerts [100; 200; 300]))
  = chat_text (handleChatbotQuery (chat_calm 0) (Some "any alerts?") 7%nat
                 (calm 1000) (home_with_alerts [100; 200; 300])).
Proof.
  apply (chatbot_ignores_case (chat_calm 0) (calm 1000)
           (home_with_alerts [100; 200; 300]) "ANY ALERTS?" "any alerts?" 7%nat).
  reflexivity.
Defined.

(* ===================================================================== *)
(** ** The chatbot and the ingestion pipeline *)
(* ===================================================================== *)

(** X22.  An alert written by the pipeline shows up in the chatbot: after a
    request that wrote a spike alert for a device, the alert question of the
    owner of that device counts one more unread alert and one more alert in
    total. *)
Theorem alert_query_counts_the_spike :
  forall env w req device cenv env',
    ingests env w req device ->
    EnergyReading_find_error env = None ->
    Alert_create_error env = None ->
    spike_decision
      (recent (body_deviceId req) (with_reading w (ingested req device env)))
      (body_current req * body_voltage req) = true ->
    Alert_find_error cenv = None ->
    Alert_countDocuments_error cenv = None ->
    let owner := Device.userId device in
    let w' := snd (addEnergyReading req env w) in
    handleAlertQuery cenv owner env' w'
    = (Ok ("You have " ++ JSString.of_count (S (List.length (unread_of owner w)))
           ++ " unread alerts out of "
           ++ JSString.of_count (S (List.length (alerts_of owner w)))
           ++ " total alerts. Check your dashboard for details.")%string, w').
Proof.
  intros env w req device cenv env' Hin Hfetch Hwrite Hspike Hfind Hcount owner w'.
  rewrite handleAlertQuery_steps, Hfind, Hcount.
  pose proof (addEnergyReading_spike env w req device Hin Hfetch Hwrite Hspike)
    as Halerts.
  fold w' in Halerts.
  unfold unread_of, alerts_of. rewrite Halerts, !filter_app, !length_app.
  cbn [filter spike_alert Alert.userId Alert.isRead negb andb].
  fold owner. rewrite Nat.eqb_refl. cbn [andb List.length].
  fold (unread_of owner w). fold (alerts_of owner w).
  rewrite !Nat.add_1_r. reflexivity.
Qed.

Lemma alert_query_counts_the_spike_witness :
  let w' := snd (addEnergyReading (post "esp32_001" 2 100) (calm 1000)
                   (home_with_alerts [100; 100; 100; 100; 100])) in
  handleAlertQuery (chat_calm 0) 7%nat (calm 2000) w'
  = (Ok "You have 2 unread alerts out of 3 total alerts. Check your dashboard for details.",
     w').
Proof.
  intros w'.
  apply (alert_query_counts_the_spike (calm 1000)
           (home_with_alerts [100; 100; 100; 100; 100]) (post "esp32_001" 2 100)
           {| Device.userId := 7%nat; Device.deviceId := "esp32_001" |}
           (chat_calm 0) (calm 2000)).
  - repeat split; reflexivity.
  - reflexivity.
  - reflexivity.
  - vm_compute. reflexivity.
  - reflexivity.
  - reflexivity.
Defined.

(** X23.  A reading ingested today is in today's summary: after a 201, when
    the day of the chatbot started no later than the reading's timestamp,
    the power-consumption answer for the owner of the device is the summary
    of the owner's earlier readings of the day followed by the new one; its
    total is the earlier total plus the power of the reading. *)
Theorem summary_counts_the_reading :
  forall env w req device cenv env',
    ingests env w req device ->
    (today cenv <= now env)%Z ->
    EnergyReading_find_error env' = None ->
    let owner := Device.userId device in
    let doc := ingested req device env in
    let w' := snd (addEnergyReading req env w) in
    handlePowerConsumptionQuery cenv owner env' w'
    = (Ok (power_summary (readings_today cenv owner w ++ [doc])), w')
    /\ fold_left (fun sum reading => sum + EnergyReading.power reading)
         (readings_today cenv owner w ++ [doc]) 0
       = fold_left (fun sum reading => sum + EnergyReading.power reading)
           (readings_today cenv owner w) 0
         + body_current req * body_voltage req.
Proof.
  intros env w req device cenv env' Hin Htoday Hfetch owner doc w'.
  split; [|now rewrite fold_left_app].
  rewrite handlePowerConsumptionQuery_steps, Hfetch.
  assert (readings w' = readings (with_reading w doc)) as Hreadings.
  { unfold w'. rewrite (addEnergyReading_ingests env w req device Hin). cbn [snd].
    apply (checkForPowerSpike_effects (body_deviceId req)
             (body_current req * body_voltage req) (Device.userId device) env
             (with_reading w (ingested req device env))). }
  assert (readings_today cenv owner w' = readings_today cenv owner w ++ [doc])
    as ->.
  { unfold readings_today. rewrite Hreadings. unfold with_reading.
    cbn [readings]. rewrite filter_app. f_equal.
    cbn [filter doc ingested EnergyReading.userId EnergyReading.timestamp].
    fold owner. rewrite Nat.eqb_refl.
    destruct (Z.leb_spec (today cenv) (now env)); [reflexivity | lia]. }
  destruct (readings_today cenv owner w); reflexivity.
Qed.

Lemma summary_counts_the_reading_witness :
  let w' := snd (addEnergyReading (post "esp32_001" 2 100) (calm 1000)
                   (home [100; 300])) in
  fst (handlePowerConsumptionQuery (chat_calm 0) 7%nat (calm 2000) w')
  = Ok (power_summary
          (readings_today (chat_calm 0) 7%nat (home [100; 300])
           ++ [ingested (post "esp32_001" 2 100)
                 {| Device.userId := 7%nat; Device.deviceId := "esp32_001" |}
                 (calm 1000)])).
Proof.
  intros w'.
  destruct (summary_counts_the_reading (calm 1000) (home [100; 300])
              (post "esp32_001" 2 100)
              {| Device.userId := 7%nat; Device.deviceId := "esp32_001" |}
              (chat_calm 0) (calm 2000)) as [Hrun _].
  - repeat split; reflexivity.
  - cbn. lia.
  - reflexivity.
  - apply (f_equal fst) in Hrun. exact Hrun.
Defined.

(* ===================================================================== *)
(** ** The device with the highest consumption *)
(* ===================================================================== *)

Section Highest.

Lemma SFltb_trans x y z :
  SFltb x y = true -> SFltb y z = true -> SFltb x z = true.
Proof.
  unfold SFltb.
  destruct x as [sx|sx| |sx mx ex], y as [sy|sy| |sy my ey],
           z as [sz|sz| |sz mz ez];
    cbn; try discriminate; try reflexivity;
    try (destruct sx; try discriminate; try reflexivity);
    try (destruct sy; try discriminate; try reflexivity);
    try (destruct sz; try discriminate; try reflexivity).
  all: rewrite ?Pos.compare_cont_spec; cbn [Pos.switch_Eq].
  all: destruct (Z.compare_spec ex ey), (Z.compare_spec ey ez),
         (Z.compare_spec ex ez);
    try discriminate; try reflexivity; try lia; subst.
  all: destruct (Pos.compare_spec mx my), (Pos.compare_spec my mz),
         (Pos.compare_spec mx mz);
    cbn; try discriminate; try reflexivity; try lia.
Qed.

Lemma gt_trans x y z : (x >? y) = true -> (y >? z) = true -> (x >? z) = true.
Proof. rewrite !ltb_spec. intros Hxy Hyz. now apply (SFltb_trans _ _ _ Hyz). Qed.

Lemma gt_irrefl x : (x >? x) = false.
Proof.
  rewrite ltb_spec. unfold SFltb.
  destruct (SFcompare (Prim2SF x) (Prim2SF x)) as [c|] eqn:E; [|reflexivity].
  pose proof (SFcompare_antisym _ _ _ E) as E'. rewrite E in E'.
  destruct c; try reflexivity; discriminate.
Qed.

Lemma raised_keeps_below a p p' :
  raised p p' -> (a >? p) = false -> (a >? p') = false.
Proof.
  intros [->|Hup] Ha; [assumption|].
  destruct (a >? p') eqn:E; [|reflexivity].
  now rewrite (gt_trans _ _ _ E Hup) in Ha.
Qed.

Lemma raised_trans p p' p'' : raised p p' -> raised p' p'' -> raised p p''.
Proof.
  intros [->|H1] [->|H2]; unfold raised; auto.
  right. now apply (gt_trans _ _ _ H2 H1).
Qed.

(** The loop returns either what it started with or a device of the list
    whose mean it hands back, and no device of the list averages above the
    power it hands back. *)
Lemma highest_loop_spec env w devices hd hp :
  EnergyReading_find_error env = None ->
  exists hd' hp',
    highest_loop devices hd hp env w = (Ok (hd', hp'), w)
    /\ raised hp hp'
    /\ (forall d, In d devices -> averages_above w d hp' = false)
    /\ ((hd' = hd /\ hp' = hp)
        \/ exists d,
             In d devices /\ hd' = Some d
             /\ (0 < List.length (recent (Device.deviceId d) w))%nat
             /\ hp' = mean_power (recent (Device.deviceId d) w)
             /\ (hp' >? hp) = true).
Proof.
  intros Hfetch. revert hd hp.
  induction devices as [|d rest IH]; intros hd hp.
  - exists hd, hp. split; [reflexivity|]. split; [now left|].
    split; [intros d []|]. now left.
  - rewrite highest_loop_step, Hfetch. cbv zeta.
    fold (averages_above w d hp).
    destruct (averages_above w d hp) eqn:Habove.
    + destruct (IH (Some d) (mean_power (recent (Device.deviceId d) w)))
        as (hd' & hp' & Hrun & Hup & Hmax & Hsel).
      apply andb_true_iff in Habove. destruct Habove as [Hlen Hgt].
      apply Nat.ltb_lt in Hlen.
      exists hd', hp'. split; [exact Hrun|].
      split; [apply (raised_trans _ _ _ (or_intror Hgt) Hup)|]. split.
      * intros d' [<-|Hd']; [|now apply Hmax].
        unfold averages_above. apply andb_false_iff. right.
        apply (raised_keeps_below _ _ _ Hup), gt_irrefl.
      * right. destruct Hsel as [[-> ->]|(d' & Hd' & -> & Hlen' & -> & Hgt')].
        -- exists d. repeat split; auto. now left.
        -- exists d'. repeat split; auto; [now right|].
           now apply (gt_trans _ _ _ Hgt' Hgt).
    + destruct (IH hd hp) as (hd' & hp' & Hrun & Hup & Hmax & Hsel).
      exists hd', hp'. split; [exact Hrun|]. split; [exact Hup|]. split.
      * intros d' [<-|Hd']; [|now apply Hmax].
        unfold averages_above in *. apply andb_false_iff.
        apply andb_false_iff in Habove. destruct Habove as [Hlen|Hgt];
          [now left | right].
        now apply (raised_keeps_below _ _ _ Hup).
      * destruct Hsel as [Hsame|(d' & Hd' & Hrest)]; [now left|].
        right. exists d'. split; [now right | exact Hrest].
Qed.

End Highest.

Lemma handleHighestConsumptionQuery_steps cenv uid env w :
  Device_find_error cenv = None ->
  handleHighestConsumptionQuery cenv uid env w =
  match highest_loop (devices_of uid w) None 0 env w with
  | (Ok (Some d, p), w') => (Ok (highest_summary cenv d p), w')
  | (Ok (None, _), w') =>
      (Ok "No power consumption data available for your devices.", w')
  | (Thrown _, w') =>
      (Ok "Unable to determine the highest consuming device at the moment.", w')
  end.
Proof.
  intros Hdevices.
  unfold handleHighestConsumptionQuery, Device_find, await_fault.
  unfold try_catch at 1. unfold bind at 1. rewrite Hdevices.
  unfold gets at 1. unfold bind at 1. fold (devices_of uid w).
  destruct (highest_loop (devices_of uid w) None 0 env w) as [[[[d|] p]|e] w'];
    reflexivity.
Qed.

(** X24.  When the store answers, the highest-consumption answer names a
    device of the user that has readings, with the mean of its ten newest
    readings, a mean above zero that no device of the user exceeds; and when
    no device of the user has readings averaging above zero (no readings at
    all, or readings of 0 W), it says that no data is available. *)
Theorem highest_consumption_answer :
  forall cenv env w userId,
    Device_find_error cenv = None ->
    EnergyReading_find_error env = None ->
    let run := handleHighestConsumptionQuery cenv userId env w in
    (fst run = Ok "No power consumption data available for your devices."
     /\ forall d, In d (devices_of userId w) -> averages_above w d 0 = false)
    \/ exists d,
         In d (devices_of userId w)
         /\ (0 < List.length (recent (Device.deviceId d) w))%nat
         /\ let p := mean_power (recent (Device.deviceId d) w) in
            fst run = Ok (highest_summary cenv d p)
            /\ (p >? 0) = true
            /\ forall d', In d' (devices_of userId w) ->
                          averages_above w d' p = false.
Proof.
  intros cenv env w uid Hdevices Hfetch. cbv zeta.
  destruct (highest_loop_spec env w (devices_of uid w) None 0 Hfetch)
    as (hd' & hp' & Hrun & _ & Hmax & Hsel).
  rewrite (handleHighestConsumptionQuery_steps cenv uid env w Hdevices), Hrun.
  destruct Hsel as [[-> ->]|(d & Hd & -> & Hlen & -> & Hgt)].
  - left. split; [reflexivity | exact Hmax].
  - right. exists d. split; [exact Hd|]. split; [exact Hlen|].
    split; [reflexivity|]. split; [exact Hgt | exact Hmax].
Qed.

Lemma highest_consumption_answer_witness :
  fst (handleHighestConsumptionQuery (chat_calm 0) 7%nat (calm 1000)
         (two_devices [0; 0; 0] [0; 0]))
  = Ok "No power consumption data available for your devices.".
Proof.
  destruct (highest_consumption_answer (chat_calm 0) (calm 1000)
              (two_devices [0; 0; 0] [0; 0]) 7%nat eq_refl eq_refl)
    as [[Hrun _]|(d & Hd & _ & _ & Hgt & _)].
  - exact Hrun.
  - exfalso. vm_compute in Hd.
    destruct Hd as [<-|[<-|[]]]; vm_compute in Hgt; discriminate.
Defined.

(* ===================================================================== *)
(** ** The rules of the recommendations *)
(* ===================================================================== *)

Section Rules.

Import Advice.

Lemma insert_ranked_of_impact i r l :
  of_impact i (insert_ranked r l)
  = (if impact_eqb (impact r) i then [r] else []) ++ of_impact i l.
Proof.
  induction l as [|r' l IH]; [cbn; now destruct (impact_eqb _ _)|].
  cbn [insert_ranked].
  destruct (Nat.leb_spec (impactWeight (impact r')) (impactWeight (impact r)))
    as [Hle|Hlt].
  - unfold of_impact. cbn [filter]. now destruct (impact_eqb (impact r) i).
  - unfold of_impact in *. cbn [filter]. rewrite IH.
    destruct (impact_eqb (impact r) i) eqn:Hr; [|reflexivity].
    destruct (impact_eqb (impact r') i) eqn:Hr'; [|reflexivity].
    unfold impact_eqb in *. apply Nat.eqb_eq in Hr, Hr'. lia.
Qed.

Lemma insert_ranked_In r l x : In x (insert_ranked r l) <-> x = r \/ In x l.
Proof.
  induction l as [|r' l IH]; simpl; [intuition congruence|].
  destruct (_ <=? _)%nat; simpl; [intuition congruence|].
  rewrite IH. intuition congruence.
Qed.

Lemma insert_ranked_sorted r l :
  StronglySorted outranks l -> StronglySorted outranks (insert_ranked r l).
Proof.
  induction 1 as [|r' l Hs IH Hall]; simpl; [repeat constructor|].
  destruct (Nat.leb_spec (impactWeight (impact r')) (impactWeight (impact r))).
  - constructor; [now constructor|].
    constructor; [assumption|].
    eapply Forall_impl; [|exact Hall]. unfold outranks. intros a Ha. lia.
  - constructor; [assumption|].
    apply Forall_forall. intros x Hx. apply insert_ranked_In in Hx.
    destruct Hx as [->|Hx]; [unfold outranks; lia|].
    rewrite Forall_forall in Hall. now apply Hall.
Qed.

End Rules.

(** X25.  [rankRecommendations] only reorders: the result lists the
    heaviest impacts first, and for each impact it holds the very
    recommendations of that impact, in the order they had. *)
Theorem ranking_is_a_stable_sort :
  forall recommendations,
    StronglySorted Advice.outranks (Advice.rankRecommendations recommendations)
    /\ forall i,
         Advice.of_impact i (Advice.rankRecommendations recommendations)
         = Advice.of_impact i recommendations.
Proof.
  intros l. split.
  - induction l as [|r l IH]; [constructor|]. now apply insert_ranked_sorted.
  - intros i. induction l as [|r l IH]; [reflexivity|].
    cbn [Advice.rankRecommendations fold_right].
    rewrite insert_ranked_of_impact.
    unfold Advice.rankRecommendations in IH. rewrite IH.
    unfold Advice.of_impact. cbn [filter].
    now destruct (Advice.impact_eqb (Advice.impact r) i).
Qed.

(** X26.  The efficiency score is never below 20: the four penalties add up
    to 80, so the clamp to zero never acts, and the score lies between 20
    and 100 whatever the analysis holds (not-a-number fields cost
    nothing). *)
Theorem efficiency_score_bounds :
  forall analysis,
    let score := Advice.calculateEfficiencyScore analysis in
    (20 <=? score) = true /\ (score <=? 100) = true.
Proof.
  intros analysis. cbv zeta. unfold Advice.calculateEfficiencyScore. cbv zeta.
  destruct (Advice.powerVariation analysis >? Advice.c_0_3);
    destruct (Advice.voltageStability analysis <? Advice.c_0_9);
    destruct (Advice.avgTemperature analysis >? 30);
    destruct (Advice.efficiency analysis <? Advice.c_0_8);
    split; vm_compute; reflexivity.
Qed.

(** X27.  The score and the recommendations agree: a score of 100 comes with
    no recommendation drawn from the analysis (at most the one on
    maintenance, which depends on the age of the device alone), and each
    recommendation on power, voltage or temperature costs the score its
    penalty, leaving at most 85. *)
Theorem score_agrees_with_recommendations :
  forall analysis age,
    let score := Advice.calculateEfficiencyScore analysis in
    let recs := Advice.generateEfficiencyRecommendations analysis age in
    (score = 100 ->
     forall r, In r recs -> Advice.type r = "maintenance")
    /\ ((exists r, In r recs /\ Advice.type r <> "maintenance") ->
        (score <=? 85) = true).
Proof.
  intros analysis age. cbv zeta.
  unfold Advice.calculateEfficiencyScore, Advice.generateEfficiencyRecommendations.
  cbv zeta.
  destruct (Advice.powerVariation analysis >? Advice.c_0_3);
    destruct (Advice.voltageStability analysis <? Advice.c_0_9);
    destruct (Advice.avgTemperature analysis >? 30);
    destruct (Advice.efficiency analysis <? Advice.c_0_8);
    destruct (age >? 5);
    (split;
     [ intros Hscore;
       try (apply (f_equal (fun x => PrimFloat.eqb x 100)) in Hscore;
            vm_compute in Hscore; discriminate Hscore);
       cbn; intros r Hr;
       repeat (destruct Hr as [<-|Hr]; [reflexivity|]); destruct Hr
     | intros (r & Hr & Htype);
       try (vm_compute; reflexivity);
       exfalso; cbn in Hr;
       repeat (destruct Hr as [<-|Hr]; [now apply Htype|]); destruct Hr ]).
Qed.

Lemma score_agrees_with_recommendations_witness :
  (Advice.calculateEfficiencyScore Advice.strained <=? 85) = true.
Proof.
  apply (proj2 (score_agrees_with_recommendations Advice.strained 10)).
  eexists. split; [left; reflexivity | discriminate].
Defined.
